(** * REDOX OTC signal bot: reversal detection, momentum scoring and
      outcome evaluation

    Shallow embedding of [telegram_otc_bot.py] (the momentum/martingale
    variant, module [Bot]) and [telegram_otc_bot_fixed.py] (the
    reversal-only variant, module [Fixed]).

    Number model.  Prices, stakes and scores are Python floats (binary64)
    in the source.  A float is modelled by its value, a rational ([Q]);
    comparisons compare the values.  Float arithmetic is modelled
    operation by operation ([fadd], [fsub], [fmul], [fdiv]): an operation
    reads its operands the way Python reads a number, as the nearest
    binary64 value, and returns the binary64 value nearest to the result,
    ties to even, subnormal values included ([b64]); rounding keeps the
    order ([b64_mono]) and leaves a binary64 value alone ([b64_idem]).
    So [0.6] in [score_pair] is the float Python writes 0.6, not 3/5, and
    a sum of floats is rounded after each addition.  Results of magnitude
    [2^1024] and more (infinities in Python) and NaN are outside the
    model: [b64] rounds as if the exponent had no upper bound.  Counters
    and timestamps are Python ints and are modelled as [Z].  Direction
    and result labels stay the strings the source uses.

    Scope.  The detectors, the candle getters, [send_telegram],
    [check_trade_result], [evaluate_signal_result], [analyze_single_pair]
    and [evaluate_result] are modelled as methods on a world of events.
    The connection supervisor ([init_quotex], [reconnect_if_needed]),
    [test_telegram], the reversal-only variant's [send_message] and the
    scan loops of [run] are modelled on top of them, on a stage that
    records their steps; the perpetual loop is modelled by its first
    rounds.  Time is the time spent in
    [asyncio.sleep]: the calls to the broker and to the chat channel take
    no time in the model. *)

From Stdlib Require Import QArith Qabs Qpower ZArith List String Lia.
From stdpp Require Import base gmap sets strings list.
Import ListNotations.
Open Scope string_scope.
Open Scope list_scope.

(** ** Python values shared by both variants *)

(** The exceptions the modelled expressions can raise. *)
Inductive PyExc : Type :=
| IndexError
| ZeroDivisionError.

(** Result of evaluating a Python expression: a value, or a raised
    exception. *)
Inductive exn (A : Type) : Type :=
| Ok (a : A)
| Raise (e : PyExc).
Arguments Ok {A} a.
Arguments Raise {A} e.

Definition exn_bind {A B : Type} (m : exn A) (k : A -> exn B) : exn B :=
  match m with
  | Ok a => k a
  | Raise e => Raise e
  end.

Definition exn_ret {A : Type} (a : A) : exn A := Ok a.

Declare Scope exn_scope.
Delimit Scope exn_scope with exn.
Notation "'let*' x ':=' m 'in' k" := (exn_bind m (fun x => k))
  (at level 10, x pattern, m at level 100, k at level 200) : exn_scope.
Notation "'ret' a" := (exn_ret a) (at level 10, a at level 9) : exn_scope.
Local Open Scope exn_scope.

(** [x < y] on floats, as a boolean. *)
Definition Qlt_bool (x y : Q) : bool := negb (Qle_bool y x).

(** [l[i]] for a non-negative index. *)
Definition py_index {A : Type} (l : list A) (i : nat) : exn A :=
  match nth_error l i with
  | Some a => Ok a
  | None => Raise IndexError
  end.

(** [l[-k]] for [k >= 1]: the k-th element from the end. *)
Definition py_index_neg {A : Type} (l : list A) (k : nat) : exn A :=
  if (Nat.leb 1 k && Nat.leb k (length l))%bool
  then py_index l (length l - k)
  else Raise IndexError.

(** [l[-n:]]: the last [n] elements, the whole list when it is shorter;
    [l[-0:]] is the whole list. *)
Definition py_slice_last {A : Type} (n : nat) (l : list A) : list A :=
  match n with
  | O => l
  | _ => skipn (length l - n) l
  end.

(** *** Binary64 arithmetic *)

(** The integer nearest to [num / den], ties to even, for [den > 0]. *)
Definition round_half_even (num den : Z) : Z :=
  let f := (num / den)%Z in
  match (2 * (num mod den) ?= den)%Z with
  | Lt => f
  | Gt => (f + 1)%Z
  | Eq => if Z.even f then f else (f + 1)%Z
  end.

(** The exponent [e] with [2^e <= a/d < 2^(e+1)]. *)
Definition binade (a d : positive) : Z :=
  let e0 := (Z.log2 (Zpos a) - Z.log2 (Zpos d))%Z in
  let below :=
    if (0 <=? e0)%Z
    then (Zpos a <? Zpos d * 2 ^ e0)%Z
    else (Zpos a * 2 ^ (- e0) <? Zpos d)%Z in
  if below then (e0 - 1)%Z else e0.

(** The exponent of the unit in the last place of the binary64 values
    around [a / d]: 53 significant bits, or the fixed grid of the
    subnormal values. *)
Definition quantum (a d : positive) : Z := Z.max (binade a d - 52) (-1074).

(** The binary64 value nearest to [a / d]: [a / d] rounded to a multiple
    of [2^q], [q] its quantum. *)
Definition b64_pos (a d : positive) : Q :=
  let q := quantum a d in
  if (0 <=? q)%Z
  then inject_Z (round_half_even (Zpos a) (Zpos d * 2 ^ q) * 2 ^ q)
  else Qred (Qmake (round_half_even (Zpos a * 2 ^ (- q)) (Zpos d))
                   (Z.to_pos (2 ^ (- q)))).

(** [float(x)]: the binary64 value nearest to [x]. *)
Definition b64 (x : Q) : Q :=
  match Qnum (Qred x) with
  | Z0 => 0%Q
  | Zpos a => b64_pos a (Qden (Qred x))
  | Zneg a => Qopp (b64_pos a (Qden (Qred x)))
  end.

(** [x + y], [x - y], [x * y] and [x / y] on floats.  [fdiv] is used
    with a divisor that is not zero only: [x / len(candles)] after the
    test of [len]. *)
Definition fadd (x y : Q) : Q := b64 (b64 x + b64 y).
Definition fsub (x y : Q) : Q := b64 (b64 x - b64 y).
Definition fmul (x y : Q) : Q := b64 (b64 x * b64 y).
Definition fdiv (x y : Q) : Q := b64 (b64 x / b64 y).
Arguments b64 : simpl never.
Arguments fadd : simpl never.
Arguments fsub : simpl never.
Arguments fmul : simpl never.
Arguments fdiv : simpl never.

(** [sum(xs)] over floats: the additions are made from left to right,
    starting from the int [0], each one rounded; this is [sum] as CPython
    computes it up to version 3.11 (later versions carry a correction
    term along, which is not modelled). *)
Definition py_sum (xs : list Q) : Q := fold_left fadd xs 0%Q.

(** [x / n] with [n = len(...)]. *)
Definition py_div_len (x : Q) (n : nat) : exn Q :=
  match n with
  | O => Raise ZeroDivisionError
  | _ => Ok (fdiv x (inject_Z (Z.of_nat n)))
  end.

(** [len(set(xs))] for a list of strings. *)
Definition py_len_set (xs : list string) : nat :=
  size (list_to_set (C := gset string) xs).

(** The [CandleData] dataclass. *)
Record CandleData : Type := mkCandle {
  open : Q;
  high : Q;
  low : Q;
  close : Q;
  timestamp : Z
}.

(** The per-candle classification both detectors compute in their
    [for candle in candles] loop. *)
Definition candle_direction (candle : CandleData) : string :=
  if Qlt_bool (open candle) (close candle) then "CALL"
  else if Qlt_bool (close candle) (open candle) then "PUT"
  else "NEUTRAL".

(** The shared test
    [len(set(directions)) == 1 and directions[0] != "NEUTRAL"];
    [directions[0]] is only evaluated when the first conjunct holds. *)
Definition same_direction (directions : list string) : exn bool :=
  if Nat.eqb (py_len_set directions) 1
  then let* d0 := py_index directions 0 in
       ret (negb (String.eqb d0 "NEUTRAL"))
  else ret false.

(** ** The outside world: broker client, chat channel, clock, log *)

(** A record of the list [quotex_client.get_candles] returns: a dict read
    with [candle.get(key, 0)], so every key may be missing.  A price
    field holds the value [float] gives for the entry, the time field the
    value [int] gives. *)
Record RawCandle : Type := mkRaw {
  raw_open : option Q;
  raw_high : option Q;
  raw_low : option Q;
  raw_close : option Q;
  raw_time : option Z
}.

(** Outcome of one fetch, as seen inside the [try] block of the candle
    getters: an exception (raised by the call, or by [float]/[int] on a
    malformed field), [None], or a list of records. *)
Inductive ApiResponse : Type :=
| ApiRaises
| ApiNone
| ApiCandles (candles_raw : list RawCandle).

(** The banner [format_result_message] selects. *)
Inductive Banner : Type :=
| Sureshot
| MtgWinBanner
| LossBanner.

(** Messages handed to the notification channel or to [signals.log].
    Their fields are the values the source formats into the text; the
    layout of the text itself is not modelled. *)
Inductive Message : Type :=
| SignalMessage (pair direction : string) (timetable : Z) (price : Q)
| MtgMessage (pair direction : string) (timetable : Z) (stake : Q)
| ResultMessage (banner : Banner) (wins losses : Z)
| SequenceLog (pair direction result : string).

(** Lines written through [logger]. *)
Inductive LogRecord : Type :=
| LogFetchError (pair : string)
| LogPhase1
| LogEntry (entry_time : Z) (pair direction : string) (stake : Q)
| LogPhase2
| LogMtgEntry (entry_time : Z) (pair direction : string) (stake : Q)
| LogSequenceComplete (how : string)
| LogFailedCandles (pair : string)
| LogCandle (entry_price close_price : Q)
| LogTelegramSent
| LogTelegramFailed
| LogWaiting (pair direction : string)
| LogCheckingMG (pair : string).

Inductive LogLevel : Type :=
| INFO
| ERROR.

(** What the program does to the world, in order. *)
Inductive Event : Type :=
| EvSleep (seconds : Z)
| EvGetCandles (asset : string) (end_from_time offset period : Z)
| EvLog (level : LogLevel) (record : LogRecord)
| EvTelegram (message : Message) (delivered : bool)
| EvPrint (message : Message)
| EvFile (message : Message).

(** The world the bot runs in: the clock in seconds, the number of calls
    made so far to the broker client and to the chat channel, and the
    trace of events, most recent first. *)
Record World : Type := mkWorld {
  clock : Z;
  api_calls : nat;
  telegram_calls : nat;
  trace : list Event
}.

(** The external collaborators.  [get_candles_api n asset end offset] is
    the outcome of the [n]-th call to the client's [get_candles];
    [send_message_api n m] tells whether the [n]-th call to the chat
    channel's [send_message] succeeds ([false]: it raises). *)
Record Env : Type := mkEnv {
  get_candles_api : nat -> string -> Z -> Z -> ApiResponse;
  send_message_api : nat -> Message -> bool
}.

(** Methods of a bot object of type [Self]: they read and write the
    object and the world, and return a value or raise. *)
Definition M (Self A : Type) : Type := Self -> World -> exn A * Self * World.

Definition m_ret {Self A : Type} (a : A) : M Self A :=
  fun self w => (Ok a, self, w).

Definition m_bind {Self A B : Type} (m : M Self A) (k : A -> M Self B)
  : M Self B :=
  fun self w =>
    match m self w with
    | (Ok a, self', w') => k a self' w'
    | (Raise e, self', w') => (Raise e, self', w')
    end.

Declare Scope py_scope.
Delimit Scope py_scope with py.
Notation "'let*' x ':=' m 'in' k" := (m_bind m (fun x => k))
  (at level 10, x pattern, m at level 100, k at level 200) : py_scope.
Notation "m ;; k" := (m_bind m (fun _ => k)) : py_scope.
Notation "'ret' a" := (m_ret a) (at level 10, a at level 9) : py_scope.

Definition lift_exn {Self A : Type} (e : exn A) : M Self A :=
  fun self w => (e, self, w).

Definition get_self {Self : Type} : M Self Self :=
  fun self w => (Ok self, self, w).

Definition update_self {Self : Type} (f : Self -> Self) : M Self unit :=
  fun self w => (Ok tt, f self, w).

Definition emit {Self : Type} (e : Event) : M Self unit :=
  fun self w =>
    (Ok tt, self,
     mkWorld (clock w) (api_calls w) (telegram_calls w) (e :: trace w)).

(** [int(time.time())] and [datetime.now()]. *)
Definition now {Self : Type} : M Self Z :=
  fun self w => (Ok (clock w), self, w).

(** [await asyncio.sleep(seconds)]. *)
Definition sleep {Self : Type} (seconds : Z) : M Self unit :=
  fun self w =>
    (Ok tt, self,
     mkWorld (clock w + seconds) (api_calls w) (telegram_calls w)
             (EvSleep seconds :: trace w)).

(** [logger.info(...)] and [logger.error(...)]. *)
Definition logger {Self : Type} (level : LogLevel) (record : LogRecord)
  : M Self unit := emit (EvLog level record).

(** [await self.quotex_client.get_candles(asset, end, offset, period)]. *)
Definition client_get_candles {Self : Type} (env : Env)
  (asset : string) (end_from_time offset period : Z) : M Self ApiResponse :=
  fun self w =>
    (Ok (get_candles_api env (api_calls w) asset end_from_time offset),
     self,
     mkWorld (clock w) (S (api_calls w)) (telegram_calls w)
             (EvGetCandles asset end_from_time offset period :: trace w)).

(** [await self.bot.send_message(chat_id, text)] inside its [try]:
    [true] when the call returns, [false] when it raises. *)
Definition bot_send_message {Self : Type} (env : Env) (message : Message)
  : M Self bool :=
  fun self w =>
    let delivered := send_message_api env (telegram_calls w) message in
    (Ok delivered, self,
     mkWorld (clock w) (api_calls w) (S (telegram_calls w))
             (EvTelegram message delivered :: trace w)).

(** The conversion loop of the candle getters:
    [CandleData(open=float(candle.get('open', 0)), ...)]. *)
Definition to_candle (candle : RawCandle) : CandleData :=
  mkCandle (default 0%Q (raw_open candle)) (default 0%Q (raw_high candle))
           (default 0%Q (raw_low candle)) (default 0%Q (raw_close candle))
           (default 0%Z (raw_time candle)).

(** [datetime.now().replace(second=0, microsecond=0) + timedelta(minutes=1)],
    in seconds. *)
Definition next_minute (t : Z) : Z := ((t / 60) * 60 + 60)%Z.

(** ** The momentum/martingale variant ([telegram_otc_bot.py]) *)

Module Bot.

(** [score_pair]: returns [(direction_score, direction, last_price)]. *)
Definition score_pair (candles : list CandleData) : exn (Q * string * Q) :=
  if Nat.ltb (length candles) 4 then ret (0%Q, "NONE", 0%Q)
  else
    let directions := map candle_direction candles in
    let* reversal := same_direction directions in
    let* (direction_score, direction) :=
      (if reversal
       then let* d0 := py_index directions 0 in
            ret (100%Q, if String.eqb d0 "CALL" then "PUT" else "CALL")
       else
         let candle_changes := map (fun c => fsub (close c) (open c)) candles in
         let* c1 := py_index_neg candle_changes 1 in
         let* c2 := py_index_neg candle_changes 2 in
         let momentum := fadd (fmul 0.6 c1) (fmul 0.4 c2) in
         let* volatility := py_div_len
                        (py_sum (map (fun c => fsub (high c) (low c)) candles))
                        (length candles) in
         ret (fmul (Qabs momentum) volatility,
               if Qlt_bool 0 momentum then "CALL" else "PUT")) in
    let* last := py_index_neg candles 1 in
    ret (direction_score, direction, close last).

(** The attributes of a [TelegramOTCBot] object that the modelled methods
    read or write.  [has_bot], [has_chat_id] and [has_client] tell
    whether [self.bot], [self.chat_id] and [self.quotex_client] are set. *)
Record Self : Type := mkSelf {
  has_bot : bool;
  has_chat_id : bool;
  has_client : bool;
  min_volatility_threshold : Q;
  win_count : Z;
  loss_count : Z;
  base_stake : Q;
  current_stake : Q;
  martingale_factor : Q;
  in_martingale_sequence : bool
}.

Definition set_win_count (v : Z) (s : Self) : Self :=
  mkSelf (has_bot s) (has_chat_id s) (has_client s)
         (min_volatility_threshold s) v (loss_count s) (base_stake s)
         (current_stake s) (martingale_factor s) (in_martingale_sequence s).

Definition set_loss_count (v : Z) (s : Self) : Self :=
  mkSelf (has_bot s) (has_chat_id s) (has_client s)
         (min_volatility_threshold s) (win_count s) v (base_stake s)
         (current_stake s) (martingale_factor s) (in_martingale_sequence s).

Definition set_current_stake (v : Q) (s : Self) : Self :=
  mkSelf (has_bot s) (has_chat_id s) (has_client s)
         (min_volatility_threshold s) (win_count s) (loss_count s)
         (base_stake s) v (martingale_factor s) (in_martingale_sequence s).

Definition set_in_martingale_sequence (v : bool) (s : Self) : Self :=
  mkSelf (has_bot s) (has_chat_id s) (has_client s)
         (min_volatility_threshold s) (win_count s) (loss_count s)
         (base_stake s) (current_stake s) (martingale_factor s) v.

(** The state [__init__] builds. *)
Definition init (telegram_token chat_id : bool) : Self :=
  mkSelf telegram_token chat_id false 0.00001%Q 0 0 1.0%Q 1.0%Q 2.0%Q false.

Section Methods.

Variable env : Env.
Local Open Scope py_scope.

(** [get_candles_for_pair(pair, limit)]. *)
Definition get_candles_for_pair (pair : string) (limit : nat)
  : M Self (option (list CandleData)) :=
  let* self := get_self in
  if negb (has_client self) then ret None
  else
    let* end_time := now in
    let offset := (Z.of_nat limit * 60)%Z in
    let* candles_raw := client_get_candles env pair end_time offset 60 in
    match candles_raw with
    | ApiRaises => logger ERROR (LogFetchError pair) ;; ret None
    | ApiNone => ret None
    | ApiCandles [] => ret None
    | ApiCandles raw => ret (Some (map to_candle (py_slice_last limit raw)))
    end.

(** [log_signal(message)]: the append to [signals.log].  A failing write
    is caught by the source and only logged; the trace records the
    attempt. *)
Definition log_signal (message : Message) : M Self unit :=
  emit (EvFile message).

(** [send_telegram(message)]. *)
Definition send_telegram (message : Message) : M Self bool :=
  let* self := get_self in
  if (negb (has_bot self) || negb (has_chat_id self))%bool
  then emit (EvPrint message) ;; log_signal message ;; ret true
  else
    let* delivered := bot_send_message env message in
    if delivered
    then logger INFO LogTelegramSent ;; ret true
    else logger ERROR LogTelegramFailed ;;
         emit (EvPrint message) ;; log_signal message ;; ret false.

(** [format_mtg_message(pair, direction, stake)]. *)
Definition format_mtg_message (pair direction : string) (stake : Q)
  : M Self Message :=
  let* t := now in
  ret (MtgMessage pair direction (next_minute t) stake).

(** [format_message(pair, direction, price)]. *)
Definition format_message (pair direction : string) (price : Q)
  : M Self Message :=
  let* t := now in
  ret (SignalMessage pair direction (next_minute t) price).

(** [format_result_message(result)]. *)
Definition format_result_message (result : string) : M Self Message :=
  let* self := get_self in
  if String.eqb result "WIN"
  then ret (ResultMessage Sureshot (win_count self) (loss_count self))
  else if String.eqb result "MTG WIN"
  then ret (ResultMessage MtgWinBanner (win_count self) (loss_count self))
  else ret (ResultMessage LossBanner (win_count self) (loss_count self)).

(** [check_trade_result(pair, direction, entry_timestamp)]:
    ["WIN"] or ["LOSS"]. *)
Definition check_trade_result (pair direction : string) (entry_timestamp : Z)
  : M Self string :=
  let* candles := get_candles_for_pair pair 2 in
  match candles with
  | None | Some [] => logger ERROR (LogFailedCandles pair) ;; ret "LOSS"
  | Some candles =>
      let found :=
        find (fun candle =>
                Z.leb (Z.abs (timestamp candle - entry_timestamp)) 60)
             candles in
      let* trade_candle :=
        match found with
        | Some candle => ret candle
        | None => lift_exn (py_index_neg candles 1)
        end in
      let entry_price := open trade_candle in
      let close_price := close trade_candle in
      logger INFO (LogCandle entry_price close_price) ;;
      let is_win :=
        if String.eqb direction "CALL"
        then Qlt_bool entry_price close_price
        else Qlt_bool close_price entry_price in
      ret (if is_win then "WIN" else "LOSS")
  end.

(** [evaluate_signal_result(pair, direction)]: the two-phase sequence. *)
Definition evaluate_signal_result (pair direction : string) : M Self unit :=
  (* New sequence: the Martingale state is reset *)
  update_self (fun s => set_current_stake (base_stake s) s) ;;
  update_self (set_in_martingale_sequence true) ;;
  (* PHASE 1: Initial Trade *)
  let* initial_entry_time := now in
  let* initial_timestamp := now in
  logger INFO LogPhase1 ;;
  let* self := get_self in
  logger INFO (LogEntry initial_entry_time pair direction
                        (current_stake self)) ;;
  sleep 65 ;;
  let* initial_result :=
    check_trade_result pair direction initial_timestamp in
  let* result :=
    (if String.eqb initial_result "WIN"
     then
       update_self (fun s => set_win_count (win_count s + 1)%Z s) ;;
       update_self (set_in_martingale_sequence false) ;;
       update_self (fun s => set_current_stake (base_stake s) s) ;;
       logger INFO (LogSequenceComplete "Initial WIN") ;;
       ret "WIN"
     else
       (* PHASE 2: Martingale Trade *)
       logger INFO LogPhase2 ;;
       update_self
         (fun s => set_current_stake
                     (fmul (base_stake s) (martingale_factor s)) s) ;;
       let* mtg_entry_time := now in
       let* mtg_timestamp := now in
       let* self := get_self in
       logger INFO (LogMtgEntry mtg_entry_time pair direction
                                (current_stake self)) ;;
       let* mtg_message :=
         format_mtg_message pair direction (current_stake self) in
       let* _ := send_telegram mtg_message in
       sleep 65 ;;
       let* mtg_result :=
         check_trade_result pair direction mtg_timestamp in
       let* result :=
         (if String.eqb mtg_result "WIN"
          then
            update_self (fun s => set_win_count (win_count s + 1)%Z s) ;;
            logger INFO (LogSequenceComplete "MTG WIN") ;;
            ret "MTG WIN"
          else
            update_self (fun s => set_loss_count (loss_count s + 1)%Z s) ;;
            logger INFO (LogSequenceComplete "TOTAL LOSS") ;;
            ret "LOSS") in
       (* End of the sequence: the Martingale state is reset *)
       update_self (set_in_martingale_sequence false) ;;
       update_self (fun s => set_current_stake (base_stake s) s) ;;
       ret result) in
  (* Send final result *)
  let* result_message := format_result_message result in
  let* _ := send_telegram result_message in
  log_signal (SequenceLog pair direction result).

(** [analyze_single_pair(pair)]: [(pair, direction, score, price)] or
    [None]. *)
Definition analyze_single_pair (pair : string)
  : M Self (option (string * string * Q * Q)) :=
  let* candles := get_candles_for_pair pair 4 in
  match candles with
  | None | Some [] => ret None
  | Some candles =>
      let* (score, direction, price) := lift_exn (score_pair candles) in
      (* Filter out low volatility pairs *)
      let* volatility :=
        lift_exn (py_div_len
                    (py_sum (map (fun c => fsub (high c) (low c)) candles))
                    (length candles)) in
      let* self := get_self in
      if Qlt_bool volatility (b64 (min_volatility_threshold self))
      then ret None
      else ret (Some (pair, direction, score, price))
  end.

End Methods.

End Bot.

(** ** The reversal-only variant ([telegram_otc_bot_fixed.py]) *)

Module Fixed.

(** [analyze_reversal]: [Some (direction, price)] or [None]. *)
Definition analyze_reversal (candles : list CandleData)
  : exn (option (string * Q)) :=
  if Nat.ltb (length candles) 4 then ret None
  else
    let directions := map candle_direction candles in
    let* reversal := same_direction directions in
    if reversal
    then let* d0 := py_index directions 0 in
         let* last := py_index_neg candles 1 in
         ret (Some (if String.eqb d0 "CALL" then "PUT" else "CALL",
                     close last))
    else ret None.

(** The attributes of the object: whether [self.bot], [self.chat_id] and
    [self.quotex_client] are set. *)
Record Self : Type := mkSelf {
  has_bot : bool;
  has_chat_id : bool;
  has_client : bool
}.

Section Methods.

Variable env : Env.
Local Open Scope py_scope.

(** [get_candles(pair, count)]. *)
Definition get_candles (pair : string) (count : nat)
  : M Self (option (list CandleData)) :=
  let* self := get_self in
  if negb (has_client self) then ret None
  else
    let* end_time := now in
    let offset := (Z.of_nat count * 60)%Z in
    let* candles_raw := client_get_candles env pair end_time offset 60 in
    match candles_raw with
    | ApiRaises => logger ERROR (LogFetchError pair) ;; ret None
    | ApiNone => ret None
    | ApiCandles [] => ret None
    | ApiCandles raw => ret (Some (map to_candle (py_slice_last count raw)))
    end.

(** [evaluate_result(pair, direction)]: ["WIN"], ["MG WIN"], ["LOSS"] or
    ["ERROR"]. *)
Definition evaluate_result (pair direction : string) : M Self string :=
  logger INFO (LogWaiting pair direction) ;;
  sleep 60 ;;
  (* Check first candle *)
  let* candles := get_candles pair 1 in
  match candles with
  | None | Some [] => ret "ERROR"
  | Some candles =>
      let* candle := lift_exn (py_index candles 0) in
      if (String.eqb direction "CALL" && Qlt_bool (open candle) (close candle))
         || (String.eqb direction "PUT" && Qlt_bool (close candle) (open candle))
      then ret "WIN"
      else
        (* Check second candle for MG WIN *)
        logger INFO (LogCheckingMG pair) ;;
        sleep 60 ;;
        let* candles := get_candles pair 1 in
        match candles with
        | None | Some [] => ret "LOSS"
        | Some candles =>
            let* candle := lift_exn (py_index candles 0) in
            if (String.eqb direction "CALL"
                && Qlt_bool (open candle) (close candle))
               || (String.eqb direction "PUT"
                   && Qlt_bool (close candle) (open candle))
            then ret "MG WIN"
            else ret "LOSS"
        end
  end.

End Methods.

End Fixed.

(** ** The scan loop and the connection supervisor: their world *)

(** Outcome of one connection attempt, [Quotex()] followed by
    [await client.connect()]: the constructor raises, [connect] raises,
    [connect] returns [(True, reason)], or it returns [(False, reason)]. *)
Inductive ConnectOutcome : Type :=
| ClientRaises
| ConnectRaises
| Connected
| Refused (reason : string).

(** Outcome of [await self.quotex_client.check_connect()]. *)
Inductive CheckOutcome : Type :=
| CheckRaises
| Checked (alive : bool).

(** The texts the loops themselves send, print or append to
    [signals.log]: the test message of [test_telegram], the signal line
    of [run], and the signal and result messages of the reversal-only
    variant (with the display name of the pair). *)
Inductive RunText : Type :=
| TestText
| SignalLogText (pair direction : string) (price : Q)
| FixedSignalText (name direction : string) (timetable : Z) (price : Q)
| FixedResultText (name result_status : string).

(** The lines the loops and the supervisor write through [logger]. *)
Inductive RunLog : Type :=
| LogConnected
| LogConnectFailed (reason : string)
| LogAttemptFailed (attempt : nat)
| LogRetrying (retry_delay : Z)
| LogInitError
| LogTelegramNotConfigured
| LogTestSent
| LogTestFailed
| LogConnectionLost
| LogReconnected
| LogReconnectFailed
| LogReconnectError
| LogStarting
| LogInitFailed
| LogMonitoring (pairs : nat)
| LogAnalyzing (pair : string)
| LogSignalSent (pair direction : string) (price : Q)
| LogSendFailed (pair : string)
| LogNoSignal (pair : string)
| LogPairError (pair : string)
| LogCycleComplete
| LogLoopError
| LogMessageSent
| LogSendError
| LogNoData (pair : string)
| LogFixedSignalSent (pair direction : string)
| LogResult (pair direction result_status : string)
| LogNoPattern (pair : string).

Inductive RunLevel : Type :=
| RInfo
| RWarning
| RError.

(** One step of a run: an event of one of the methods modelled above, or
    something the loops and the supervisor do themselves. *)
Inductive Step : Type :=
| StepEvent (e : Event)
| StepConnect (outcome : ConnectOutcome)
| StepCheckConnect (outcome : CheckOutcome)
| StepLog (level : RunLevel) (line : RunLog)
| StepTelegram (text : RunText) (delivered : bool)
| StepPrint (text : RunText)
| StepFile (text : RunText).

(** The world of a run: the world of the methods, the number of calls
    made so far to [connect], to [check_connect] and to the chat channel
    by the loops themselves, and the story of all steps, most recent
    first. *)
Record Stage : Type := mkStage {
  world : World;
  connect_calls : nat;
  check_calls : nat;
  text_calls : nat;
  story : list Step
}.

(** The collaborators of the loops: the outcome of the [n]-th connection
    attempt, of the [n]-th [check_connect] call, and whether the [n]-th
    text sent by the loops themselves is delivered. *)
Record Broker : Type := mkBroker {
  connect_api : nat -> ConnectOutcome;
  check_connect_api : nat -> CheckOutcome;
  send_text_api : nat -> RunText -> bool
}.

(** Methods at the level of the loops. *)
Definition R (Self A : Type) : Type := Self -> Stage -> exn A * Self * Stage.

Definition r_ret {Self A : Type} (a : A) : R Self A :=
  fun self st => (Ok a, self, st).

Definition r_bind {Self A B : Type} (m : R Self A) (k : A -> R Self B)
  : R Self B :=
  fun self st =>
    match m self st with
    | (Ok a, self', st') => k a self' st'
    | (Raise e, self', st') => (Raise e, self', st')
    end.

Declare Scope run_scope.
Delimit Scope run_scope with run.
Notation "'let*' x ':=' m 'in' k" := (r_bind m (fun x => k))
  (at level 10, x pattern, m at level 100, k at level 200) : run_scope.
Notation "m ;; k" := (r_bind m (fun _ => k)) : run_scope.
Notation "'ret' a" := (r_ret a) (at level 10, a at level 9) : run_scope.

(** [try: body except Exception as e: handler]. *)
Definition try_except {Self A : Type} (body : R Self A)
  (handler : PyExc -> R Self A) : R Self A :=
  fun self st =>
    match body self st with
    | (Raise e, self', st') => handler e self' st'
    | done => done
    end.

(** The events a method call has added to the trace. *)
Definition added_events (before after : World) : list Event :=
  firstn (length (trace after) - length (trace before)) (trace after).

(** A call of one of the methods modelled above: it runs in the world of
    the stage, and its events enter the story. *)
Definition call {Self A : Type} (m : M Self A) : R Self A :=
  fun self st =>
    match m self (world st) with
    | (r, self', w') =>
        (r, self',
         mkStage w' (connect_calls st) (check_calls st) (text_calls st)
                 (map StepEvent (added_events (world st) w') ++ story st))
    end.

Definition r_get_self {Self : Type} : R Self Self :=
  fun self st => (Ok self, self, st).

Definition r_update_self {Self : Type} (f : Self -> Self) : R Self unit :=
  fun self st => (Ok tt, f self, st).

Definition tell {Self : Type} (s : Step) : R Self unit :=
  fun self st =>
    (Ok tt, self,
     mkStage (world st) (connect_calls st) (check_calls st) (text_calls st)
             (s :: story st)).

(** [logger.info], [logger.warning] and [logger.error] of the loops. *)
Definition run_log {Self : Type} (level : RunLevel) (line : RunLog)
  : R Self unit := tell (StepLog level line).

(** [Quotex()] and [await client.connect()], inside their [try]. *)
Definition quotex_connect {Self : Type} (broker : Broker)
  : R Self ConnectOutcome :=
  fun self st =>
    let outcome := connect_api broker (connect_calls st) in
    (Ok outcome, self,
     mkStage (world st) (S (connect_calls st)) (check_calls st)
             (text_calls st) (StepConnect outcome :: story st)).

(** [await self.quotex_client.check_connect()], inside its [try]. *)
Definition client_check_connect {Self : Type} (broker : Broker)
  : R Self CheckOutcome :=
  fun self st =>
    let outcome := check_connect_api broker (check_calls st) in
    (Ok outcome, self,
     mkStage (world st) (connect_calls st) (S (check_calls st))
             (text_calls st) (StepCheckConnect outcome :: story st)).

(** [await self.bot.send_message(chat_id, text)] for a text of the loops,
    inside its [try]. *)
Definition bot_send_text {Self : Type} (broker : Broker) (text : RunText)
  : R Self bool :=
  fun self st =>
    let delivered := send_text_api broker (text_calls st) text in
    (Ok delivered, self,
     mkStage (world st) (connect_calls st) (check_calls st)
             (S (text_calls st)) (StepTelegram text delivered :: story st)).

(** [for x in xs: body(x)]. *)
Fixpoint for_each {Self X : Type} (xs : list X) (body : X -> R Self unit)
  : R Self unit :=
  match xs with
  | [] => r_ret tt
  | x :: xs' => r_bind (body x) (fun _ => for_each xs' body)
  end.

(** The first [cycles] rounds of [while True: body]. *)
Fixpoint while_true {Self : Type} (cycles : nat) (body : R Self unit)
  : R Self unit :=
  match cycles with
  | O => r_ret tt
  | S n => r_bind body (fun _ => while_true n body)
  end.

(** ** The loops of the momentum/martingale variant *)

Module BotRun.

(** [OTC_PAIRS]: the pairs to monitor, in scan order. *)
Definition OTC_PAIRS : list string :=
  [ "AUDNZD_otc"; "AXP_otc"; "BA_otc"; "BRLUSD_otc"; "BTCUSD_otc";
    "CADCHF_otc"; "EURNZD_otc"; "FB_otc"; "NZDCAD_otc"; "NZDCHF_otc";
    "NZDJPY_otc"; "PFE_otc"; "UKBrent_otc"; "USCrude_otc"; "USDARS_otc";
    "USDBDT_otc"; "USDCOP_otc"; "USDDZD_otc"; "USDEGP_otc"; "USDIDR_otc";
    "USDINR_otc"; "USDJPY_otc"; "USDMXN_otc"; "USDNGN_otc"; "USDPHP_otc";
    "USDPKR_otc"; "USDTRY_otc"; "USDZAR_otc"; "XAGUSD_otc"; "XAUUSD_otc" ].

(** [PAIR_NAMES]: the readable names. *)
Definition PAIR_NAMES : gmap string string :=
  list_to_map
    [ ("AUDNZD_otc", "AUD/NZD (OTC)");
      ("AXP_otc", "American Express (OTC)");
      ("BA_otc", "Boeing Company (OTC)");
      ("BRLUSD_otc", "USD/BRL (OTC)");
      ("BTCUSD_otc", "Bitcoin (OTC)");
      ("CADCHF_otc", "CAD/CHF (OTC)");
      ("EURNZD_otc", "EUR/NZD (OTC)");
      ("FB_otc", "Facebook Inc (OTC)");
      ("NZDCAD_otc", "NZD/CAD (OTC)");
      ("NZDCHF_otc", "NZD/CHF (OTC)");
      ("NZDJPY_otc", "NZD/JPY (OTC)");
      ("PFE_otc", "Pfizer Inc (OTC)");
      ("UKBrent_otc", "UK Brent (OTC)");
      ("USCrude_otc", "US Crude (OTC)");
      ("USDARS_otc", "USD/ARS (OTC)");
      ("USDBDT_otc", "USD/BDT (OTC)");
      ("USDCOP_otc", "USD/COP (OTC)");
      ("USDDZD_otc", "USD/DZD (OTC)");
      ("USDEGP_otc", "USD/EGP (OTC)");
      ("USDIDR_otc", "USD/IDR (OTC)");
      ("USDINR_otc", "USD/INR (OTC)");
      ("USDJPY_otc", "USD/JPY (OTC)");
      ("USDMXN_otc", "USD/MXN (OTC)");
      ("USDNGN_otc", "USD/NGN (OTC)");
      ("USDPHP_otc", "USD/PHP (OTC)");
      ("USDPKR_otc", "USD/PKR (OTC)");
      ("USDTRY_otc", "USD/TRY (OTC)");
      ("USDZAR_otc", "USD/ZAR (OTC)");
      ("XAGUSD_otc", "Silver (OTC)");
      ("XAUUSD_otc", "Gold (OTC)") ].

(** [self.quotex_client = Quotex()]. *)
Definition set_has_client (v : bool) (s : Bot.Self) : Bot.Self :=
  Bot.mkSelf (Bot.has_bot s) (Bot.has_chat_id s) v
             (Bot.min_volatility_threshold s) (Bot.win_count s)
             (Bot.loss_count s) (Bot.base_stake s) (Bot.current_stake s)
             (Bot.martingale_factor s) (Bot.in_martingale_sequence s).

Section Methods.

Variable env : Env.
Variable broker : Broker.
Local Open Scope run_scope.

(** The [for attempt in range(max_retries)] loop of [init_quotex], from
    the attempts that are left and the current [retry_delay]. *)
Fixpoint init_quotex_loop (attempts : list nat) (max_retries : nat)
  (retry_delay : Z) : R Bot.Self bool :=
  match attempts with
  | [] => ret false
  | attempt :: rest =>
      let* outcome := quotex_connect broker in
      let* success :=
        match outcome with
        | ClientRaises =>
            run_log RError (LogAttemptFailed (attempt + 1)) ;; ret false
        | ConnectRaises =>
            r_update_self (set_has_client true) ;;
            run_log RError (LogAttemptFailed (attempt + 1)) ;; ret false
        | Connected =>
            r_update_self (set_has_client true) ;;
            run_log RInfo LogConnected ;; ret true
        | Refused reason =>
            r_update_self (set_has_client true) ;;
            run_log RError (LogConnectFailed reason) ;; ret false
        end in
      if success then ret true
      else
        let* retry_delay :=
          (if Nat.ltb attempt (max_retries - 1)
           then run_log RInfo (LogRetrying retry_delay) ;;
                call (sleep retry_delay) ;;
                ret (retry_delay * 2)%Z
           else ret retry_delay) in
        init_quotex_loop rest max_retries retry_delay
  end.

(** [init_quotex()]: connection with retry logic. *)
Definition init_quotex : R Bot.Self bool :=
  let max_retries := 3%nat in
  let retry_delay := 5%Z in
  init_quotex_loop (seq 0 max_retries) max_retries retry_delay.

(** [test_telegram()]. *)
Definition test_telegram : R Bot.Self bool :=
  let* self := r_get_self in
  if (negb (Bot.has_bot self) || negb (Bot.has_chat_id self))%bool
  then run_log RWarning LogTelegramNotConfigured ;; ret false
  else
    let* delivered := bot_send_text broker TestText in
    if delivered
    then run_log RInfo LogTestSent ;; ret true
    else run_log RError LogTestFailed ;; ret false.

(** [reconnect_if_needed()].  [check_connect] is only called when there
    is a client; when it raises, the handler of the [try] logs it. *)
Definition reconnect_if_needed : R Bot.Self unit :=
  try_except
    (let* self := r_get_self in
     let* checked :=
       (if negb (Bot.has_client self) then ret (Checked false)
        else client_check_connect broker) in
     match checked with
     | CheckRaises => run_log RError LogReconnectError
     | Checked alive =>
         if negb alive
         then
           run_log RWarning LogConnectionLost ;;
           let* ok := init_quotex in
           if ok then run_log RInfo LogReconnected
           else run_log RError LogReconnectFailed
         else ret tt
     end)
    (fun e => run_log RError LogReconnectError).

(** [log_signal(signal_log)], for the signal line of [run]. *)
Definition log_signal_text (text : RunText) : R Bot.Self unit :=
  tell (StepFile text).

(** The body of the [for pair in self.OTC_PAIRS] loop of [run], with
    its [try]. *)
Definition run_pair (pair : string) : R Bot.Self unit :=
  try_except
    (run_log RInfo (LogAnalyzing pair) ;;
     let* result := call (Bot.analyze_single_pair env pair) in
     match result with
     | Some (pair_name, direction, score, price) =>
         let* message :=
           call (Bot.format_message pair_name direction price) in
         let* sent := call (Bot.send_telegram env message) in
         if sent
         then
           run_log RInfo (LogSignalSent pair direction price) ;;
           log_signal_text (SignalLogText pair direction price) ;;
           call (Bot.evaluate_signal_result env pair direction)
         else run_log RError (LogSendFailed pair)
     | None => run_log RInfo (LogNoSignal pair)
     end ;;
     (* Small delay between pairs *)
     call (sleep 2))
    (fun e => run_log RError (LogPairError pair)).

(** The body of the [while True] loop of [run], with its [try], over the
    pairs to scan. *)
Definition run_cycle (pairs : list string) : R Bot.Self unit :=
  try_except
    (reconnect_if_needed ;;
     for_each pairs run_pair ;;
     run_log RInfo LogCycleComplete ;;
     call (sleep 5))
    (fun e => run_log RError LogLoopError ;; call (sleep 10)).

(** [run()], up to the first [cycles] rounds of its perpetual loop.
    [self.telegram_token] is set exactly when [self.bot] is. *)
Definition run (cycles : nat) : R Bot.Self unit :=
  run_log RInfo LogStarting ;;
  let* self := r_get_self in
  (if Bot.has_bot self then let* _ := test_telegram in ret tt else ret tt) ;;
  let* ok := init_quotex in
  if negb ok
  then run_log RError LogInitFailed
  else
    run_log RInfo (LogMonitoring (length OTC_PAIRS)) ;;
    while_true cycles (run_cycle OTC_PAIRS).

(** [get_next_candle_time()] and [get_signal_send_time()], in seconds. *)
Definition get_next_candle_time : R Bot.Self Z :=
  let* t := call now in
  ret (next_minute t).

Definition get_signal_send_time : R Bot.Self Z :=
  let* next_candle := get_next_candle_time in
  ret (next_candle - 30)%Z.

End Methods.

End BotRun.

(** ** The loops of the reversal-only variant *)

Module FixedRun.

(** [OTC_PAIRS]. *)
Definition OTC_PAIRS : list string :=
  [ "AUDNZD_otc"; "AXP_otc"; "BA_otc"; "BRLUSD_otc"; "BTCUSD_otc";
    "CADCHF_otc"; "EURNZD_otc"; "FB_otc"; "NZDCAD_otc"; "NZDCHF_otc";
    "NZDJPY_otc"; "PFE_otc"; "UKBrent_otc"; "USCrude_otc"; "USDARS_otc";
    "USDBDT_otc"; "USDCOP_otc"; "USDDZD_otc"; "USDEGP_otc"; "USDIDR_otc";
    "USDINR_otc"; "USDJPY_otc"; "USDMXN_otc"; "USDNGN_otc"; "USDPHP_otc";
    "USDPKR_otc"; "USDTRY_otc"; "USDZAR_otc"; "XAGUSD_otc"; "XAUUSD_otc" ].

(** [PAIR_NAMES]. *)
Definition PAIR_NAMES : gmap string string :=
  list_to_map
    [ ("AUDNZD_otc", "AUD/NZD"); ("AXP_otc", "American Express");
      ("BA_otc", "Boeing"); ("BRLUSD_otc", "USD/BRL");
      ("BTCUSD_otc", "Bitcoin"); ("CADCHF_otc", "CAD/CHF");
      ("EURNZD_otc", "EUR/NZD"); ("FB_otc", "Facebook");
      ("NZDCAD_otc", "NZD/CAD"); ("NZDCHF_otc", "NZD/CHF");
      ("NZDJPY_otc", "NZD/JPY"); ("PFE_otc", "Pfizer");
      ("UKBrent_otc", "UK Brent"); ("USCrude_otc", "US Crude");
      ("USDARS_otc", "USD/ARS"); ("USDBDT_otc", "USD/BDT");
      ("USDCOP_otc", "USD/COP"); ("USDDZD_otc", "USD/DZD");
      ("USDEGP_otc", "USD/EGP"); ("USDIDR_otc", "USD/IDR");
      ("USDINR_otc", "USD/INR"); ("USDJPY_otc", "USD/JPY");
      ("USDMXN_otc", "USD/MXN"); ("USDNGN_otc", "USD/NGN");
      ("USDPHP_otc", "USD/PHP"); ("USDPKR_otc", "USD/PKR");
      ("USDTRY_otc", "USD/TRY"); ("USDZAR_otc", "USD/ZAR");
      ("XAGUSD_otc", "Silver"); ("XAUUSD_otc", "Gold") ].

(** [self.PAIR_NAMES.get(pair, pair)]. *)
Definition pair_name (pair : string) : string :=
  default pair (PAIR_NAMES !! pair).

(** [self.quotex_client = Quotex()]. *)
Definition set_has_client (v : bool) (s : Fixed.Self) : Fixed.Self :=
  Fixed.mkSelf (Fixed.has_bot s) (Fixed.has_chat_id s) v.

Section Methods.

Variable env : Env.
Variable broker : Broker.
Local Open Scope run_scope.

(** [init_quotex()]: one attempt. *)
Definition init_quotex : R Fixed.Self bool :=
  let* outcome := quotex_connect broker in
  match outcome with
  | ClientRaises => run_log RError LogInitError ;; ret false
  | ConnectRaises =>
      r_update_self (set_has_client true) ;;
      run_log RError LogInitError ;; ret false
  | Connected =>
      r_update_self (set_has_client true) ;;
      run_log RInfo LogConnected ;; ret true
  | Refused reason =>
      r_update_self (set_has_client true) ;;
      run_log RError (LogConnectFailed reason) ;; ret false
  end.

(** [format_signal(pair, direction, price)]; the time is a minute from
    now, shown to the minute. *)
Definition format_signal (pair direction : string) (price : Q)
  : R Fixed.Self RunText :=
  let name := pair_name pair in
  let* t := call now in
  ret (FixedSignalText name direction (t + 60)%Z price).

(** [send_message(message)].  A failing write to [signals.log] is caught
    by the source and only logged; the story records the attempt. *)
Definition send_message (message : RunText) : R Fixed.Self bool :=
  tell (StepPrint message) ;;
  let* self := r_get_self in
  let* sent :=
    (if (Fixed.has_bot self && Fixed.has_chat_id self)%bool
     then
       let* delivered := bot_send_text broker message in
       if delivered
       then run_log RInfo LogMessageSent ;; ret true
       else run_log RError LogSendError ;; ret false
     else ret false) in
  if sent then ret true
  else
    (* Log to file *)
    tell (StepFile message) ;;
    ret true.

(** The body of the [for pair in self.OTC_PAIRS] loop of [run]; on a
    pair without data, [continue] skips the delay that ends the body. *)
Definition run_pair (pair : string) : R Fixed.Self unit :=
  run_log RInfo (LogAnalyzing pair) ;;
  let* candles := call (Fixed.get_candles env pair 4) in
  match candles with
  | None | Some [] => run_log RInfo (LogNoData pair)
  | Some candles =>
      let* result := call (lift_exn (Fixed.analyze_reversal candles)) in
      match result with
      | Some (direction, price) =>
          let* signal_msg := format_signal pair direction price in
          let* sent := send_message signal_msg in
          if sent
          then
            run_log RInfo (LogFixedSignalSent pair direction) ;;
            (* Evaluate result *)
            let* result_status :=
              call (Fixed.evaluate_result env pair direction) in
            let result_msg := FixedResultText (pair_name pair) result_status in
            let* _ := send_message result_msg in
            run_log RInfo (LogResult pair direction result_status)
          else ret tt
      | None => run_log RInfo (LogNoPattern pair)
      end ;;
      (* Small delay between pairs *)
      call (sleep 1)
  end.

(** The body of the [while True] loop of [run], with its [try], over the
    pairs to scan. *)
Definition run_cycle (pairs : list string) : R Fixed.Self unit :=
  try_except
    (for_each pairs run_pair ;;
     run_log RInfo LogCycleComplete ;;
     call (sleep 5))
    (fun e => run_log RError LogLoopError ;; call (sleep 10)).

(** [run()], up to the first [cycles] rounds of its perpetual loop. *)
Definition run (cycles : nat) : R Fixed.Self unit :=
  run_log RInfo LogStarting ;;
  let* ok := init_quotex in
  if negb ok
  then run_log RError LogInitFailed
  else while_true cycles (run_cycle OTC_PAIRS).

End Methods.

End FixedRun.

(** ** Observations on traces

    The theorems below speak about the events one call adds to the
    trace: [trace w' = evs ++ trace w], with [evs] most recent first.
    An observation collects what each event shows, in the order of
    execution. *)

Definition chronicle {X : Type} (f : Event -> list X) (evs : list Event)
  : list X :=
  flat_map f (rev evs).

(** The durations of the waits. *)
Definition waits : list Event -> list Z :=
  chronicle (fun e => match e with EvSleep seconds => [seconds] | _ => [] end).

(** The assets asked from the broker client, one per call. *)
Definition fetches : list Event -> list string :=
  chronicle (fun e =>
               match e with EvGetCandles asset _ _ _ => [asset] | _ => [] end).

(** The phases of an evaluation. *)
Inductive Phase : Type :=
| INITIAL
| MARTINGALE.

(** The phases entered, read off the lines both variants log when a phase
    starts. *)
Definition phases : list Event -> list Phase :=
  chronicle (fun e =>
               match e with
               | EvLog INFO LogPhase1 => [INITIAL]
               | EvLog INFO (LogWaiting _ _) => [INITIAL]
               | EvLog INFO LogPhase2 => [MARTINGALE]
               | EvLog INFO (LogCheckingMG _) => [MARTINGALE]
               | _ => []
               end).

(** The stake logged at each phase entry ([LogEntry], [LogMtgEntry]). *)
Definition entry_stakes : list Event -> list Q :=
  chronicle (fun e =>
               match e with
               | EvLog INFO (LogEntry _ _ _ stake) => [stake]
               | EvLog INFO (LogMtgEntry _ _ _ stake) => [stake]
               | _ => []
               end).

(** The stakes of the martingale messages handed to [send_telegram]; a
    message is delivered, or printed when it is not. *)
Definition mtg_stakes : list Event -> list Q :=
  chronicle (fun e =>
               match e with
               | EvTelegram (MtgMessage _ _ _ stake) true => [stake]
               | EvPrint (MtgMessage _ _ _ stake) => [stake]
               | _ => []
               end).

(** The results [evaluate_signal_result] records in [signals.log]. *)
Definition outcomes : list Event -> list string :=
  chronicle (fun e =>
               match e with
               | EvFile (SequenceLog _ _ result) => [result]
               | _ => []
               end).

(** The test [check_trade_result] applies to the open and the close of
    the candle it judges. *)
Definition wins (direction : string) (candle_open candle_close : Q) : bool :=
  if String.eqb direction "CALL"
  then Qlt_bool candle_open candle_close
  else Qlt_bool candle_close candle_open.

(** The verdict of each [check_trade_result] call, read off what the call
    logs: the open and the close of the candle it judged, or the failure
    to get candles. *)
Definition verdicts (direction : string) : list Event -> list bool :=
  chronicle (fun e =>
               match e with
               | EvLog INFO (LogCandle o c) => [wins direction o c]
               | EvLog ERROR (LogFailedCandles _) => [false]
               | _ => []
               end).

(** Events that none of the observations above records, except perhaps
    [fetches]. *)
Definition silent (evs : list Event) : Prop :=
  waits evs = [] /\ phases evs = [] /\ entry_stakes evs = []
  /\ outcomes evs = [].

(** The candles a getter hands back for a response of the client. *)
Definition fetched (limit : nat) (response : ApiResponse)
  : option (list CandleData) :=
  match response with
  | ApiCandles (r :: raw) => Some (map to_candle (py_slice_last limit (r :: raw)))
  | _ => None
  end.

(** The reversal pattern: every bar of the window closes above its open,
    or every bar closes below it. *)
Definition all_call (candles : list CandleData) : Prop :=
  Forall (fun c => (open c < close c)%Q) candles.

Definition all_put (candles : list CandleData) : Prop :=
  Forall (fun c => (close c < open c)%Q) candles.

Definition reversal_pattern (candles : list CandleData) : Prop :=
  all_call candles \/ all_put candles.



(** The weighted momentum of the last two bars and the mean range of a
    window, as the contract of the momentum scorer writes them, each
    operation a float operation: [0.6 * (close - open) of the last bar +
    0.4 * (close - open) of the bar before], and [sum(high - low) / n]. *)
Definition momentum_of (previous last : CandleData) : Q :=
  fadd (fmul 0.6 (fsub (close last) (open last)))
       (fmul 0.4 (fsub (close previous) (open previous))).

Definition mean_range (candles : list CandleData) : Q :=
  fdiv (py_sum (map (fun c => fsub (high c) (low c)) candles))
       (inject_Z (Z.of_nat (length candles))).

(** ** Sample windows *)

(** Four rising bars (scenario A of the specification). *)
Definition rising_window : list CandleData :=
  [ mkCandle 1 1.2 0.9 1.1 0; mkCandle 1.1 1.3 1.0 1.2 60;
    mkCandle 1.2 1.4 1.1 1.3 120; mkCandle 1.3 1.5 1.2 1.4 180 ]%Q.

(** Four falling bars. *)
Definition falling_window : list CandleData :=
  [ mkCandle 1.4 1.5 1.2 1.3 0; mkCandle 1.3 1.4 1.1 1.2 60;
    mkCandle 1.2 1.3 1.0 1.1 120; mkCandle 1.1 1.2 0.9 1 180 ]%Q.

(** Three rising bars and a falling one. *)
Definition mixed_window : list CandleData :=
  [ mkCandle 1 1.2 0.9 1.1 0; mkCandle 1.1 1.3 1.0 1.2 60;
    mkCandle 1.2 1.4 1.1 1.3 120; mkCandle 1.3 1.5 1.2 1.25 180 ]%Q.

(** Two bars only. *)
Definition short_window : list CandleData :=
  [ mkCandle 1 1.2 0.9 1.1 0; mkCandle 1.1 1.3 1.0 1.2 60 ]%Q.

(** The timestamp test of [check_trade_result]. *)
Definition within_interval (entry_timestamp : Z) (candle : CandleData) : Prop :=
  (Z.abs (timestamp candle - entry_timestamp) <= 60)%Z.

(** [selected candles entry_timestamp c]: [c] is the first candle of the
    sequence within 60 seconds of the entry timestamp, or no candle is
    within 60 seconds and [c] is the last candle of the sequence. *)
Definition selected (candles : list CandleData) (entry_timestamp : Z)
  (c : CandleData) : Prop :=
  (exists pre post,
      candles = pre ++ c :: post
      /\ within_interval entry_timestamp c
      /\ Forall (fun c' => ~ within_interval entry_timestamp c') pre)
  \/
  (Forall (fun c' => ~ within_interval entry_timestamp c') candles
   /\ exists pre, candles = pre ++ [c]).

(** The win test [evaluate_result] applies to a candle. *)
Definition wins_fixed (direction : string) (candle : CandleData) : bool :=
  (String.eqb direction "CALL" && Qlt_bool (open candle) (close candle))
  || (String.eqb direction "PUT" && Qlt_bool (close candle) (open candle)).

(** What the first and the second fetch of an [evaluate_result] call
    started in world [w] hand back: the first comes after one wait of
    60 seconds, the second after two. *)
Definition first_fetch (env : Env) (self : Fixed.Self) (w : World)
  (pair : string) : option (list CandleData) :=
  if Fixed.has_client self
  then fetched 1 (get_candles_api env (api_calls w) pair (clock w + 60) 60)
  else None.

Definition second_fetch (env : Env) (self : Fixed.Self) (w : World)
  (pair : string) : option (list CandleData) :=
  if Fixed.has_client self
  then fetched 1 (get_candles_api env (S (api_calls w)) pair
                                  (clock w + 60 + 60) 60)
  else None.

(** ** Sample worlds *)

(** A world at second 1000 in which nothing has happened yet. *)
Definition quiet_world : World := mkWorld 1000 0 0 [].

(** A client that always hands back one candle with the given open and
    close, stamped with the given time; the chat channel delivers. *)
Definition steady_env (candle_open candle_close : Q) (time : Z) : Env :=
  mkEnv (fun _ _ _ _ =>
           ApiCandles [mkRaw (Some candle_open) (Some 1.5%Q) (Some 1.3%Q)
                             (Some candle_close) (Some time)])
        (fun _ _ => true).

(** A client that has no data, and one whose calls raise. *)
Definition no_data_env : Env :=
  mkEnv (fun _ _ _ _ => ApiNone) (fun _ _ => true).

Definition failing_env : Env :=
  mkEnv (fun _ _ _ _ => ApiRaises) (fun _ _ => true).


(** Two candles, the second one within 60 seconds of second 1000. *)
Definition late_env : Env :=
  mkEnv (fun _ _ _ _ =>
           ApiCandles [mkRaw (Some 1.40%Q) (Some 1.5%Q) (Some 1.3%Q)
                             (Some 1.45%Q) (Some 900%Z);
                       mkRaw (Some 1.45%Q) (Some 1.5%Q) (Some 1.3%Q)
                             (Some 1.42%Q) (Some 960%Z)])
        (fun _ _ => true).

(** A connected bot of each variant, as [__init__] and [init_quotex]
    leave it. *)
Definition sample_bot : Bot.Self :=
  Bot.mkSelf true true true 0.00001%Q 0 0 1.0%Q 1.0%Q 2.0%Q false.

Definition sample_fixed_bot : Fixed.Self := Fixed.mkSelf true true true.

(** ** Observations on stories *)

(** The events of the methods within a story, most recent first, as in a
    trace: the observations on traces apply to them. *)
Definition events_of (steps : list Step) : list Event :=
  flat_map (fun s => match s with StepEvent e => [e] | _ => [] end) steps.

(** The connection attempts of a story, in the order of execution. *)
Definition attempts (steps : list Step) : list ConnectOutcome :=
  flat_map (fun s => match s with StepConnect o => [o] | _ => [] end)
           (rev steps).

(** The [check_connect] calls of a story, in the order of execution. *)
Definition checks (steps : list Step) : list CheckOutcome :=
  flat_map (fun s => match s with StepCheckConnect o => [o] | _ => [] end)
           (rev steps).

(** The durations of the waits of a story, in the order of execution. *)
Definition pauses (steps : list Step) : list Z := waits (events_of steps).

(** Total time waited. *)
Definition total (durations : list Z) : Z := fold_right Z.add 0%Z durations.

(** An attempt that ends connected. *)
Definition is_connected (outcome : ConnectOutcome) : bool :=
  match outcome with
  | Connected => true
  | _ => false
  end.

(** An attempt that got as far as a client object. *)
Definition has_client_object (outcome : ConnectOutcome) : bool :=
  match outcome with
  | ClientRaises => false
  | _ => true
  end.

(** The attributes of the bot that are configuration: everything but
    the tally, the current stake and the sequence flag. *)
Definition same_settings (s s' : Bot.Self) : Prop :=
  Bot.has_bot s' = Bot.has_bot s
  /\ Bot.has_chat_id s' = Bot.has_chat_id s
  /\ Bot.has_client s' = Bot.has_client s
  /\ Bot.min_volatility_threshold s' = Bot.min_volatility_threshold s
  /\ Bot.base_stake s' = Bot.base_stake s
  /\ Bot.martingale_factor s' = Bot.martingale_factor s.

(** The number of evaluations completed so far. *)
Definition tally (s : Bot.Self) : Z := (Bot.win_count s + Bot.loss_count s)%Z.

(** The lines of the loops' log, in the order of execution. *)
Definition journal (steps : list Step) : list RunLog :=
  flat_map (fun s => match s with StepLog _ line => [line] | _ => [] end)
           (rev steps).

(** The stake state between two sequences: the current stake is the
    base stake and no sequence is open. *)
Definition rested (s : Bot.Self) : Prop :=
  Bot.current_stake s = Bot.base_stake s
  /\ Bot.in_martingale_sequence s = false.

(** The messages that reached the user, in the order of execution: a
    message is delivered to the chat channel, or printed when it is
    not. *)
Definition notices : list Event -> list Message :=
  chronicle (fun e =>
               match e with
               | EvTelegram message true => [message]
               | EvPrint message => [message]
               | _ => []
               end).

(** The messages appended to [signals.log] by the methods. *)
Definition filed : list Event -> list Message :=
  chronicle (fun e => match e with EvFile message => [message] | _ => [] end).

(** The pairs whose analysis the loop announced, in the order of
    execution. *)
Definition analyzed (lines : list RunLog) : list string :=
  flat_map (fun line => match line with LogAnalyzing p => [p] | _ => [] end)
           lines.

(** The lines written by the exception handlers of the pair loop and of
    the main loop. *)
Definition caught (lines : list RunLog) : list RunLog :=
  List.filter (fun line =>
            match line with
            | LogPairError _ | LogLoopError => true
            | _ => false
            end) lines.

(** The texts the loops printed, appended to [signals.log] and handed
    to the chat channel, in the order of execution. *)
Definition printed (steps : list Step) : list RunText :=
  flat_map (fun s => match s with StepPrint text => [text] | _ => [] end)
           (rev steps).

Definition stored (steps : list Step) : list RunText :=
  flat_map (fun s => match s with StepFile text => [text] | _ => [] end)
           (rev steps).

Definition texted (steps : list Step) : list (RunText * bool) :=
  flat_map (fun s =>
              match s with
              | StepTelegram text delivered => [(text, delivered)]
              | _ => []
              end)
           (rev steps).

(** ** Sample stages *)

Definition quiet_stage : Stage := mkStage quiet_world 0 0 0 [].

(** A broker that refuses twice and then connects; its client stays
    alive and its texts are delivered. *)
Definition third_time_broker : Broker :=
  mkBroker (fun n => if Nat.eqb n 2 then Connected else Refused "busy")
           (fun _ => Checked true) (fun _ _ => true).

(** A broker that never connects. *)
Definition dead_broker : Broker :=
  mkBroker (fun _ => Refused "down") (fun _ => Checked false)
           (fun _ _ => true).

(** A broker whose [check_connect] raises. *)
Definition flaky_broker : Broker :=
  mkBroker (fun _ => Connected) (fun _ => CheckRaises) (fun _ _ => true).

(** A client whose chat channel is down. *)
Definition mute_env (candle_open candle_close : Q) (time : Z) : Env :=
  mkEnv (get_candles_api (steady_env candle_open candle_close time))
        (fun _ _ => false).

(** A window whose weighted momentum is not zero in floats only:
    [0.6 * (1 - 3) + 0.4 * (4 - 1)] is [2^-52] there. *)
Definition rounding_window : list CandleData :=
  [mkCandle 1 5 0 2 0; mkCandle 2 5 0 1 60;
   mkCandle 1 5 0 4 120; mkCandle 3 5 0 1 180].






(** A client that hands back [rising_window]. *)
Definition rising_env : Env :=
  mkEnv (fun _ _ _ _ =>
           ApiCandles [mkRaw (Some 1%Q) (Some 1.2%Q) (Some 0.9%Q)
                             (Some 1.1%Q) (Some 0%Z);
                       mkRaw (Some 1.1%Q) (Some 1.3%Q) (Some 1.0%Q)
                             (Some 1.2%Q) (Some 60%Z);
                       mkRaw (Some 1.2%Q) (Some 1.4%Q) (Some 1.1%Q)
                             (Some 1.3%Q) (Some 120%Z);
                       mkRaw (Some 1.3%Q) (Some 1.5%Q) (Some 1.2%Q)
                             (Some 1.4%Q) (Some 180%Z)])
        (fun _ _ => true).


(** ** Facts about binary64 rounding *)







































(** ** Facts about the Python helpers *)

Lemma Qlt_bool_iff (x y : Q) : Qlt_bool x y = true <-> (x < y)%Q.
Proof.
  unfold Qlt_bool. rewrite negb_true_iff.
  split; intros H.
  - apply Qnot_le_lt. intros Hle. apply Qle_bool_iff in Hle. congruence.
  - destruct (Qle_bool y x) eqn:E; [|reflexivity].
    apply Qle_bool_iff in E. exfalso. exact (Qlt_not_le _ _ H E).
Qed.

Lemma Qlt_bool_false_iff (x y : Q) : Qlt_bool x y = false <-> (y <= x)%Q.
Proof.
  unfold Qlt_bool. rewrite negb_false_iff. apply Qle_bool_iff.
Qed.

Lemma candle_direction_call (c : CandleData) :
  candle_direction c = "CALL" <-> (open c < close c)%Q.
Proof.
  unfold candle_direction.
  destruct (Qlt_bool (open c) (close c)) eqn:E1.
  - apply Qlt_bool_iff in E1. tauto.
  - apply Qlt_bool_false_iff in E1.
    split; [|intros H; exfalso; exact (Qlt_not_le _ _ H E1)].
    destruct (Qlt_bool (close c) (open c)); discriminate.
Qed.

Lemma candle_direction_put (c : CandleData) :
  candle_direction c = "PUT" <-> (close c < open c)%Q.
Proof.
  unfold candle_direction.
  destruct (Qlt_bool (open c) (close c)) eqn:E1.
  - apply Qlt_bool_iff in E1.
    split; [discriminate|].
    intros H. exfalso. exact (Qlt_irrefl _ (Qlt_trans _ _ _ E1 H)).
  - destruct (Qlt_bool (close c) (open c)) eqn:E2.
    + apply Qlt_bool_iff in E2. tauto.
    + apply Qlt_bool_false_iff in E2.
      split; [discriminate|].
      intros H. exfalso. exact (Qlt_not_le _ _ H E2).
Qed.

Lemma candle_direction_neutral (c : CandleData) :
  candle_direction c = "NEUTRAL" <-> (close c == open c)%Q.
Proof.
  unfold candle_direction.
  destruct (Qlt_bool (open c) (close c)) eqn:E1.
  - apply Qlt_bool_iff in E1.
    split; [discriminate|].
    intros H. rewrite H in E1. exfalso. exact (Qlt_irrefl _ E1).
  - apply Qlt_bool_false_iff in E1.
    destruct (Qlt_bool (close c) (open c)) eqn:E2.
    + apply Qlt_bool_iff in E2.
      split; [discriminate|].
      intros H. rewrite H in E2. exfalso. exact (Qlt_irrefl _ E2).
    + apply Qlt_bool_false_iff in E2.
      split; [|reflexivity].
      intros _. apply Qle_antisym; assumption.
Qed.

Lemma candle_direction_cases (c : CandleData) :
  candle_direction c = "CALL" \/ candle_direction c = "PUT"
  \/ candle_direction c = "NEUTRAL".
Proof.
  unfold candle_direction.
  destruct (Qlt_bool (open c) (close c)); [tauto|].
  destruct (Qlt_bool (close c) (open c)); tauto.
Qed.

(** [len(set(xs)) == 1] says that [xs] is not empty and all its elements
    are one and the same string. *)
Lemma py_len_set_one (xs : list string) :
  py_len_set xs = 1%nat <-> exists d, In d xs /\ Forall (eq d) xs.
Proof.
  unfold py_len_set. split.
  - intros Hsz.
    destruct (size_1_elem_of _ Hsz) as [d Hd].
    exists d. split.
    + apply list_elem_of_In. apply (elem_of_list_to_set (C := gset string)).
      rewrite Hd. apply elem_of_singleton_2. reflexivity.
    + apply List.Forall_forall. intros x Hx.
      apply list_elem_of_In in Hx.
      apply (elem_of_list_to_set (C := gset string)) in Hx.
      rewrite Hd in Hx. apply elem_of_singleton_1 in Hx. congruence.
  - intros (d & Hin & Hall).
    assert (Heq : list_to_set (C := gset string) xs = {[ d ]}).
    { apply set_eq. intros x. rewrite elem_of_list_to_set, elem_of_singleton.
      rewrite List.Forall_forall in Hall. split.
      - intros Hx. symmetry. apply Hall. apply list_elem_of_In. exact Hx.
      - intros ->. apply list_elem_of_In. exact Hin. }
    rewrite Heq. apply size_singleton.
Qed.

Lemma same_direction_total (directions : list string) :
  exists b, same_direction directions = Ok b.
Proof.
  unfold same_direction.
  destruct (Nat.eqb (py_len_set directions) 1) eqn:E; [|eexists; reflexivity].
  apply Nat.eqb_eq in E. apply py_len_set_one in E.
  destruct E as (d & Hin & _).
  destruct directions as [|d0 ds]; [destruct Hin|].
  simpl. eexists; reflexivity.
Qed.

(** The pattern test succeeds exactly on a non-empty list made of one
    repeated label other than ["NEUTRAL"]. *)
Lemma same_direction_true (directions : list string) :
  same_direction directions = Ok true <->
  exists d, d <> "NEUTRAL" /\ In d directions /\ Forall (eq d) directions.
Proof.
  unfold same_direction. split.
  - destruct (Nat.eqb (py_len_set directions) 1) eqn:E; [|discriminate].
    apply Nat.eqb_eq in E. apply py_len_set_one in E.
    destruct E as (d & Hin & Hall).
    destruct directions as [|d0 ds]; [destruct Hin|].
    simpl. intros H. injection H as H. apply negb_true_iff in H.
    apply String.eqb_neq in H.
    inversion Hall; subst. exists d0. repeat split; assumption.
  - intros (d & Hne & Hin & Hall).
    assert (E : py_len_set directions = 1%nat).
    { apply py_len_set_one. exists d. split; assumption. }
    rewrite E. simpl.
    destruct directions as [|d0 ds]; [destruct Hin|].
    inversion Hall; subst. simpl.
    apply String.eqb_neq in Hne. rewrite Hne. reflexivity.
Qed.

Lemma py_index_neg_last {A : Type} (l : list A) (a : A) :
  py_index_neg (l ++ [a]) 1 = Ok a.
Proof.
  unfold py_index_neg, py_index.
  rewrite length_app. cbn [length].
  replace (length l + 1 - 1)%nat with (length l) by lia.
  replace (Nat.leb 1 (length l + 1)) with true
    by (symmetry; apply Nat.leb_le; lia).
  cbn [Nat.leb andb].
  rewrite nth_error_app2 by lia. rewrite Nat.sub_diag. reflexivity.
Qed.

Lemma py_index_neg_last2 {A : Type} (l : list A) (a b : A) :
  py_index_neg (l ++ [a; b]) 2 = Ok a.
Proof.
  unfold py_index_neg, py_index.
  rewrite length_app. cbn [length].
  replace (length l + 2 - 2)%nat with (length l) by lia.
  replace (Nat.leb 2 (length l + 2)) with true
    by (symmetry; apply Nat.leb_le; lia).
  cbn [Nat.leb andb].
  rewrite nth_error_app2 by lia. rewrite Nat.sub_diag. reflexivity.
Qed.

Lemma py_index_neg_last1 {A : Type} (l : list A) (a b : A) :
  py_index_neg (l ++ [a; b]) 1 = Ok b.
Proof.
  change (l ++ [a; b]) with (l ++ [a] ++ [b]).
  rewrite app_assoc. apply py_index_neg_last.
Qed.

(** A window of at least four bars ends with two bars, after at least
    two others. *)
Lemma window_tail (candles : list CandleData) :
  (4 <= length candles)%nat ->
  exists pre c3 c4, candles = pre ++ [c3; c4] /\ (2 <= length pre)%nat.
Proof.
  intros Hlen.
  destruct (rev candles) as [|c4 [|c3 rpre]] eqn:E.
  - apply (f_equal (@length _)) in E. rewrite length_rev in E.
    simpl in E. lia.
  - apply (f_equal (@length _)) in E. rewrite length_rev in E.
    simpl in E. lia.
  - exists (rev rpre), c3, c4.
    assert (Hc : candles = rev (c4 :: c3 :: rpre))
      by (rewrite <- E; symmetry; apply rev_involutive).
    split.
    + rewrite Hc. simpl. rewrite <- app_assoc. reflexivity.
    + rewrite length_rev.
      apply (f_equal (@length _)) in Hc. simpl in Hc.
      rewrite !length_app, length_rev in Hc. simpl in Hc. lia.
Qed.

Lemma same_direction_false (directions : list string) :
  same_direction directions = Ok false <->
  ~ exists d, d <> "NEUTRAL" /\ In d directions /\ Forall (eq d) directions.
Proof.
  rewrite <- same_direction_true.
  destruct (same_direction_total directions) as [[|] E]; rewrite E.
  - split; [discriminate|]. intros H. exfalso. apply H. reflexivity.
  - split; [discriminate|reflexivity].
Qed.

(** On the labels of a window, the pattern test is the reversal pattern
    of a non-empty window. *)
Lemma same_direction_pattern (candles : list CandleData) :
  same_direction (map candle_direction candles) = Ok true <->
  candles <> [] /\ reversal_pattern candles.
Proof.
  rewrite same_direction_true. split.
  - intros (d & Hne & Hin & Hall).
    split; [intros ->; destruct Hin|].
    rewrite List.Forall_map in Hall.
    apply in_map_iff in Hin. destruct Hin as (c0 & Hc0 & _).
    destruct (candle_direction_cases c0) as [H|[H|H]]; [| |congruence].
    + left. unfold all_call. eapply List.Forall_impl; [|exact Hall].
      intros c Hc. simpl in Hc. apply candle_direction_call. congruence.
    + right. unfold all_put. eapply List.Forall_impl; [|exact Hall].
      intros c Hc. simpl in Hc. apply candle_direction_put. congruence.
  - intros (Hne & [Hall|Hall]).
    + exists "CALL". split; [discriminate|].
      destruct candles as [|c cs]; [congruence|]. split.
      * left. inversion Hall; subst. apply candle_direction_call. assumption.
      * rewrite List.Forall_map. eapply List.Forall_impl; [|exact Hall].
        intros c' Hc'. simpl. symmetry. apply candle_direction_call. exact Hc'.
    + exists "PUT". split; [discriminate|].
      destruct candles as [|c cs]; [congruence|]. split.
      * left. inversion Hall; subst. apply candle_direction_put. assumption.
      * rewrite List.Forall_map. eapply List.Forall_impl; [|exact Hall].
        intros c' Hc'. simpl. symmetry. apply candle_direction_put. exact Hc'.
Qed.

Lemma same_direction_no_pattern (candles : list CandleData) :
  ~ reversal_pattern candles ->
  same_direction (map candle_direction candles) = Ok false.
Proof.
  intros Hno.
  destruct (same_direction_total (map candle_direction candles)) as [[|] E];
    [|exact E].
  apply same_direction_pattern in E. tauto.
Qed.

(** ** Facts about the two detectors *)

Lemma score_pair_short (candles : list CandleData) :
  (length candles < 4)%nat ->
  Bot.score_pair candles = Ok (0%Q, "NONE", 0%Q).
Proof.
  intros H. unfold Bot.score_pair.
  apply Nat.ltb_lt in H. rewrite H. reflexivity.
Qed.

Lemma analyze_reversal_short (candles : list CandleData) :
  (length candles < 4)%nat -> Fixed.analyze_reversal candles = Ok None.
Proof.
  intros H. unfold Fixed.analyze_reversal.
  apply Nat.ltb_lt in H. rewrite H. reflexivity.
Qed.

(** The reversal branch of [score_pair]: the label of the first bar,
    reversed, with the score 100 and the last close. *)
Lemma score_pair_reversal (pre : list CandleData) (c3 c4 : CandleData) :
  (2 <= length pre)%nat ->
  same_direction (map candle_direction (pre ++ [c3; c4])) = Ok true ->
  exists c0,
    head (pre ++ [c3; c4]) = Some c0 /\
    Bot.score_pair (pre ++ [c3; c4])
    = Ok (100%Q,
          if String.eqb (candle_direction c0) "CALL" then "PUT" else "CALL",
          close c4).
Proof.
  intros Hlen Hsame. unfold Bot.score_pair.
  replace (Nat.ltb (length (pre ++ [c3; c4])) 4) with false
    by (symmetry; apply Nat.ltb_ge; rewrite length_app; simpl; lia).
  cbv zeta. rewrite Hsame. cbn [exn_bind].
  rewrite py_index_neg_last1.
  destruct pre as [|c0 pre']; [simpl in Hlen; lia|].
  exists c0. split; reflexivity.
Qed.

Lemma analyze_reversal_pattern (pre : list CandleData) (c3 c4 : CandleData) :
  (2 <= length pre)%nat ->
  same_direction (map candle_direction (pre ++ [c3; c4])) = Ok true ->
  exists c0,
    head (pre ++ [c3; c4]) = Some c0 /\
    Fixed.analyze_reversal (pre ++ [c3; c4])
    = Ok (Some (if String.eqb (candle_direction c0) "CALL"
                then "PUT" else "CALL",
                close c4)).
Proof.
  intros Hlen Hsame. unfold Fixed.analyze_reversal.
  replace (Nat.ltb (length (pre ++ [c3; c4])) 4) with false
    by (symmetry; apply Nat.ltb_ge; rewrite length_app; simpl; lia).
  cbv zeta. rewrite Hsame. cbn [exn_bind].
  rewrite py_index_neg_last1.
  destruct pre as [|c0 pre']; [simpl in Hlen; lia|].
  exists c0. split; reflexivity.
Qed.

(** The momentum branch of [score_pair]. *)
Lemma score_pair_momentum (pre : list CandleData) (c3 c4 : CandleData) :
  (2 <= length pre)%nat ->
  same_direction (map candle_direction (pre ++ [c3; c4])) = Ok false ->
  Bot.score_pair (pre ++ [c3; c4])
  = Ok (fmul (Qabs (momentum_of c3 c4)) (mean_range (pre ++ [c3; c4])),
        if Qlt_bool 0 (momentum_of c3 c4) then "CALL" else "PUT",
        close c4).
Proof.
  intros Hlen Hsame. unfold Bot.score_pair.
  replace (Nat.ltb (length (pre ++ [c3; c4])) 4) with false
    by (symmetry; apply Nat.ltb_ge; rewrite length_app; simpl; lia).
  cbv zeta. rewrite Hsame. cbn [exn_bind].
  rewrite py_index_neg_last1.
  rewrite map_app. cbn [map].
  rewrite py_index_neg_last1, py_index_neg_last2. cbn [exn_bind].
  unfold py_div_len.
  destruct (length (pre ++ [c3; c4])) as [|n] eqn:En.
  - rewrite length_app in En. simpl in En. lia.
  - cbn [exn_bind exn_ret]. unfold mean_range, momentum_of.
    rewrite En, map_app. reflexivity.
Qed.

Lemma analyze_reversal_no_pattern (candles : list CandleData) :
  same_direction (map candle_direction candles) = Ok false ->
  Fixed.analyze_reversal candles = Ok None.
Proof.
  intros Hsame. unfold Fixed.analyze_reversal.
  destruct (Nat.ltb (length candles) 4); [reflexivity|].
  cbv zeta. rewrite Hsame. reflexivity.
Qed.

(** Neither detector raises. *)
Lemma score_pair_total (candles : list CandleData) :
  exists r, Bot.score_pair candles = Ok r.
Proof.
  destruct (Nat.lt_ge_cases (length candles) 4) as [Hlt|Hge].
  - rewrite (score_pair_short _ Hlt). eexists; reflexivity.
  - destruct (window_tail _ Hge) as (pre & c3 & c4 & -> & Hpre).
    destruct (same_direction_total
                (map candle_direction (pre ++ [c3; c4]))) as [[|] E].
    + destruct (score_pair_reversal _ _ _ Hpre E) as (c0 & _ & ->).
      eexists; reflexivity.
    + rewrite (score_pair_momentum _ _ _ Hpre E). eexists; reflexivity.
Qed.

Lemma analyze_reversal_total (candles : list CandleData) :
  exists r, Fixed.analyze_reversal candles = Ok r.
Proof.
  destruct (Nat.lt_ge_cases (length candles) 4) as [Hlt|Hge].
  - rewrite (analyze_reversal_short _ Hlt). eexists; reflexivity.
  - destruct (window_tail _ Hge) as (pre & c3 & c4 & -> & Hpre).
    destruct (same_direction_total
                (map candle_direction (pre ++ [c3; c4]))) as [[|] E].
    + destruct (analyze_reversal_pattern _ _ _ Hpre E) as (c0 & _ & ->).
      eexists; reflexivity.
    + rewrite (analyze_reversal_no_pattern _ E). eexists; reflexivity.
Qed.

(** A window with a neutral bar, or with two bars of different labels,
    shows no reversal pattern. *)
Lemma neutral_no_pattern (candles : list CandleData) :
  Exists (fun c => (close c == open c)%Q) candles ->
  ~ reversal_pattern candles.
Proof.
  intros Hex [Hall|Hall]; apply List.Exists_exists in Hex;
    destruct Hex as (c & Hin & Heq);
    unfold all_call, all_put in Hall; rewrite List.Forall_forall in Hall;
    specialize (Hall c Hin); cbv beta in Hall; rewrite Heq in Hall;
    exact (Qlt_irrefl _ Hall).
Qed.

Lemma mixed_no_pattern (candles : list CandleData) (c c' : CandleData) :
  In c candles -> In c' candles ->
  candle_direction c <> candle_direction c' ->
  ~ reversal_pattern candles.
Proof.
  intros Hin Hin' Hne [Hall|Hall];
    unfold all_call, all_put in Hall; rewrite List.Forall_forall in Hall;
    pose proof (Hall c Hin) as H1; pose proof (Hall c' Hin') as H2;
    cbv beta in H1, H2.
  - apply candle_direction_call in H1, H2. congruence.
  - apply candle_direction_put in H1, H2. congruence.
Qed.


(** [l[-1]] never raises on a non-empty list. *)
Lemma py_index_neg_nonempty {A : Type} (a : A) (l : list A) (e : PyExc) :
  py_index_neg (a :: l) 1 <> Raise e.
Proof.
  destruct (exists_last (l := a :: l)) as (l' & b & ->); [discriminate|].
  rewrite py_index_neg_last. discriminate.
Qed.

(** ** Observations distribute over the trace *)

Lemma chronicle_nil {X : Type} (f : Event -> list X) : chronicle f [] = [].
Proof. reflexivity. Qed.

Lemma chronicle_cons {X : Type} (f : Event -> list X) (e : Event)
  (evs : list Event) :
  chronicle f (e :: evs) = chronicle f evs ++ f e.
Proof.
  unfold chronicle. cbn [rev]. rewrite flat_map_app. cbn [flat_map].
  rewrite app_nil_r. reflexivity.
Qed.

Lemma chronicle_app {X : Type} (f : Event -> list X) (evs evs' : list Event) :
  chronicle f (evs ++ evs') = chronicle f evs' ++ chronicle f evs.
Proof.
  unfold chronicle. rewrite rev_app_distr. apply flat_map_app.
Qed.

(** Normal form of an observation of a concrete list of events around
    the events of the calls made on the way. *)
Ltac observe :=
  repeat match goal with
         | H : silent _ |- _ => destruct H as (? & ? & ? & ?)
         end;
  unfold silent, waits, fetches, phases, entry_stakes, mtg_stakes, outcomes,
    verdicts in *;
  repeat first [ rewrite chronicle_app | rewrite chronicle_cons
               | rewrite chronicle_nil ];
  repeat match goal with
         | H : chronicle _ _ = _ |- _ => rewrite H
         end;
  rewrite ?app_nil_r;
  cbn [app length].

(** ** Symbolic execution of the methods *)

(** Unfolding of the primitives of the monad and of the accessors. *)
Ltac step :=
  cbv beta iota zeta delta
    [m_bind m_ret lift_exn get_self update_self emit now sleep logger
     client_get_candles bot_send_message
     Bot.log_signal Bot.format_mtg_message Bot.format_result_message
     Bot.set_win_count Bot.set_loss_count Bot.set_current_stake
     Bot.set_in_martingale_sequence
     Bot.has_bot Bot.has_chat_id Bot.has_client Bot.win_count Bot.loss_count
     Bot.base_stake Bot.current_stake Bot.martingale_factor
     Bot.in_martingale_sequence Bot.min_volatility_threshold
     Fixed.has_bot Fixed.has_chat_id Fixed.has_client
     clock api_calls telegram_calls trace];
  cbn [negb orb andb].

(** What a fetch through [get_candles_for_pair] returns and records. *)
Lemma get_candles_for_pair_run
  (env : Env) (pair : string) (limit : nat) (self : Bot.Self) (w : World) :
  exists n evs,
    Bot.get_candles_for_pair env pair limit self w
    = (Ok (if Bot.has_client self
           then fetched limit
                  (get_candles_api env (api_calls w) pair (clock w)
                                   (Z.of_nat limit * 60))
           else None),
       self,
       mkWorld (clock w) n (telegram_calls w) (evs ++ trace w))
    /\ silent evs /\ mtg_stakes evs = []
    /\ (forall d, verdicts d evs = [])
    /\ (length (fetches evs) <= 1)%nat
    /\ (Bot.has_client self = true -> fetches evs = [pair]).
Proof.
  destruct self as [hb hc [|] thr wc lc bs cs mf ims], w as [t n tn tr];
    unfold Bot.get_candles_for_pair; step.
  - destruct (get_candles_api env n pair t (Z.of_nat limit * 60))
      as [| |[|r raw]]; step; cbn [fetched].
    + exists (S n), [EvLog ERROR (LogFetchError pair);
                     EvGetCandles pair t (Z.of_nat limit * 60)%Z 60].
      repeat split; try reflexivity; cbn; lia.
    + exists (S n), [EvGetCandles pair t (Z.of_nat limit * 60)%Z 60].
      repeat split; try reflexivity; cbn; lia.
    + exists (S n), [EvGetCandles pair t (Z.of_nat limit * 60)%Z 60].
      repeat split; try reflexivity; cbn; lia.
    + exists (S n), [EvGetCandles pair t (Z.of_nat limit * 60)%Z 60].
      repeat split; try reflexivity; cbn; lia.
  - exists n, []. repeat split; try reflexivity; try discriminate; cbn; lia.
Qed.

(** The [for ... break] loop of [check_trade_result]. *)
Lemma find_first {A : Type} (f : A -> bool) (l : list A) (x : A) :
  find f l = Some x ->
  exists pre post,
    l = pre ++ x :: post /\ f x = true /\ Forall (fun y => f y = false) pre.
Proof.
  induction l as [|a l IH]; [discriminate|].
  cbn [find]. destruct (f a) eqn:Ea.
  - intros [= ->]. exists [], l. repeat split; [exact Ea|constructor].
  - intros H. destruct (IH H) as (pre & post & -> & Hx & Hpre).
    exists (a :: pre), post. repeat split; [exact Hx|].
    constructor; assumption.
Qed.

Lemma find_none {A : Type} (f : A -> bool) (l : list A) :
  find f l = None -> Forall (fun y => f y = false) l.
Proof.
  induction l as [|a l IH]; [constructor|].
  cbn [find]. destruct (f a) eqn:Ea; [discriminate|].
  intros H. constructor; [exact Ea|exact (IH H)].
Qed.

Lemma within_interval_test (entry_timestamp : Z) (c : CandleData) :
  (Z.abs (timestamp c - entry_timestamp) <=? 60)%Z = true
  <-> within_interval entry_timestamp c.
Proof. unfold within_interval. apply Z.leb_le. Qed.

Lemma not_within_interval_test (entry_timestamp : Z) (c : CandleData) :
  (Z.abs (timestamp c - entry_timestamp) <=? 60)%Z = false
  <-> ~ within_interval entry_timestamp c.
Proof. unfold within_interval. rewrite Z.leb_gt. lia. Qed.

(** [check_trade_result] on candles: it judges the selected candle, logs
    its open and close, and fetches nothing more. *)
Lemma check_trade_result_on_candles
  (env : Env) (pair direction : string) (entry_timestamp : Z)
  (self self1 : Bot.Self) (w w1 : World) (candles : list CandleData) :
  Bot.get_candles_for_pair env pair 2 self w = (Ok (Some candles), self1, w1) ->
  candles <> [] ->
  exists c,
    selected candles entry_timestamp c
    /\ Bot.check_trade_result env pair direction entry_timestamp self w
       = (Ok (if wins direction (open c) (close c) then "WIN" else "LOSS"),
          self1,
          mkWorld (clock w1) (api_calls w1) (telegram_calls w1)
                  (EvLog INFO (LogCandle (open c) (close c)) :: trace w1)).
Proof.
  intros Hget Hne.
  unfold Bot.check_trade_result. unfold m_bind at 1. rewrite Hget.
  destruct candles as [|c0 cs]; [congruence|].
  destruct (find (fun candle =>
                    (Z.abs (timestamp candle - entry_timestamp) <=? 60)%Z)
                 (c0 :: cs)) as [c|] eqn:Efind.
  - exists c. split.
    + left. destruct (find_first _ _ _ Efind) as (pre & post & E & Hc & Hpre).
      exists pre, post. split; [exact E|]. split.
      * apply within_interval_test. exact Hc.
      * eapply List.Forall_impl; [|exact Hpre].
        intros a Ha. apply not_within_interval_test. exact Ha.
    + step. unfold wins. destruct (String.eqb direction "CALL"); reflexivity.
  - destruct (exists_last (l := c0 :: cs)) as (pre & c & E); [discriminate|].
    exists c. split.
    + right. split; [|exists pre; exact E].
      apply find_none in Efind.
      eapply List.Forall_impl; [|exact Efind].
      intros a Ha. apply not_within_interval_test. exact Ha.
    + rewrite E. step. rewrite py_index_neg_last.
      unfold wins. destruct (String.eqb direction "CALL"); reflexivity.
Qed.

(** [check_trade_result] without candles: a loss, and no second fetch. *)
Lemma check_trade_result_no_candles
  (env : Env) (pair direction : string) (entry_timestamp : Z)
  (self self1 : Bot.Self) (w w1 : World) (candles : option (list CandleData)) :
  Bot.get_candles_for_pair env pair 2 self w = (Ok candles, self1, w1) ->
  candles = None \/ candles = Some [] ->
  Bot.check_trade_result env pair direction entry_timestamp self w
  = (Ok "LOSS", self1,
     mkWorld (clock w1) (api_calls w1) (telegram_calls w1)
             (EvLog ERROR (LogFailedCandles pair) :: trace w1)).
Proof.
  intros Hget Hnone.
  unfold Bot.check_trade_result. unfold m_bind at 1. rewrite Hget.
  destruct Hnone as [-> | ->]; reflexivity.
Qed.

(** Every call of [check_trade_result] returns ["WIN"] or ["LOSS"], its
    verdict, after at most one fetch. *)
Lemma check_trade_result_run
  (env : Env) (pair direction : string) (entry_timestamp : Z)
  (self : Bot.Self) (w : World) :
  exists (v : bool) n evs,
    Bot.check_trade_result env pair direction entry_timestamp self w
    = (Ok (if v then "WIN" else "LOSS"), self,
       mkWorld (clock w) n (telegram_calls w) (evs ++ trace w))
    /\ verdicts direction evs = [v]
    /\ silent evs /\ mtg_stakes evs = []
    /\ (length (fetches evs) <= 1)%nat.
Proof.
  destruct (get_candles_for_pair_run env pair 2 self w)
    as (n & evs & Hget & Hsilent & Hmtg & Hv & Hf & _).
  specialize (Hv direction).
  destruct (if Bot.has_client self
            then fetched 2 (get_candles_api env (api_calls w) pair (clock w)
                                            (Z.of_nat 2 * 60))
            else None) as [[|c0 cs]|] eqn:E.
  - rewrite (check_trade_result_no_candles _ _ direction entry_timestamp
               _ _ _ _ _ Hget (or_intror eq_refl)).
    exists false, n, (EvLog ERROR (LogFailedCandles pair) :: evs).
    split; [reflexivity|]. observe. repeat split; first [reflexivity|assumption].
  - destruct (check_trade_result_on_candles _ _ direction entry_timestamp
                _ _ _ _ _ Hget) as (c & _ & ->); [discriminate|].
    exists (wins direction (open c) (close c)), n,
      (EvLog INFO (LogCandle (open c) (close c)) :: evs).
    split; [reflexivity|]. observe. repeat split; first [reflexivity|assumption].
  - rewrite (check_trade_result_no_candles _ _ direction entry_timestamp
               _ _ _ _ _ Hget (or_introl eq_refl)).
    exists false, n, (EvLog ERROR (LogFailedCandles pair) :: evs).
    split; [reflexivity|]. observe. repeat split; first [reflexivity|assumption].
Qed.

(** Every call of [send_telegram] returns; the message is delivered, or
    printed and appended to [signals.log]. *)
Lemma send_telegram_run
  (env : Env) (message : Message) (self : Bot.Self) (w : World) :
  exists (b : bool) n evs,
    Bot.send_telegram env message self w
    = (Ok b, self, mkWorld (clock w) (api_calls w) n (evs ++ trace w))
    /\ waits evs = [] /\ phases evs = [] /\ entry_stakes evs = []
    /\ match message with
       | SequenceLog _ _ _ => True
       | _ => outcomes evs = []
       end
    /\ fetches evs = []
    /\ (forall d, verdicts d evs = [])
    /\ mtg_stakes evs
       = match message with
         | MtgMessage _ _ _ stake => [stake]
         | _ => []
         end.
Proof.
  destruct self as [[|] [|] cl thr wc lc bs cs mf ims], w as [t n tn tr];
    unfold Bot.send_telegram; step.
  - destruct (send_message_api env tn message) eqn:E; step.
    + exists true, (S tn),
        [EvLog INFO LogTelegramSent; EvTelegram message true].
      repeat split; try reflexivity; destruct message; try reflexivity; exact I.
    + exists false, (S tn),
        [EvFile message; EvPrint message; EvLog ERROR LogTelegramFailed;
         EvTelegram message false].
      repeat split; try reflexivity; destruct message; try reflexivity; exact I.
  - exists true, tn, [EvFile message; EvPrint message].
    repeat split; try reflexivity; destruct message; try reflexivity; exact I.
  - exists true, tn, [EvFile message; EvPrint message].
    repeat split; try reflexivity; destruct message; try reflexivity; exact I.
  - exists true, tn, [EvFile message; EvPrint message].
    repeat split; try reflexivity; destruct message; try reflexivity; exact I.
Qed.

Ltac step_check :=
  match goal with
  | |- context [Bot.check_trade_result ?e ?p ?d ?t ?s ?w] =>
      let v := fresh "v" in
      let n := fresh "n" in
      let evs := fresh "evs" in
      let Hrun := fresh "Hrun" in
      destruct (check_trade_result_run e p d t s w)
        as (v & n & evs & Hrun & ? & ? & ? & ?);
      rewrite Hrun; clear Hrun; destruct v;
      cbn [String.eqb Ascii.eqb Bool.eqb]; step
  end.

Ltac step_send :=
  match goal with
  | |- context [Bot.send_telegram ?e ?m ?s ?w] =>
      let b := fresh "b" in
      let n := fresh "n" in
      let evs := fresh "evs" in
      let Hrun := fresh "Hrun" in
      destruct (send_telegram_run e m s w)
        as (b & n & evs & Hrun & ? & ? & ? & ? & ? & ? & ?);
      rewrite Hrun; clear Hrun; step
  end.

(** Splitting a trace into the new events and the old trace. *)
Ltac new_events :=
  match goal with
  | |- exists evs, (_, _, mkWorld _ _ _ ?t) = _ /\ _ = _ ++ ?tr /\ _ =>
      match t with
      | context C [tr] => let pre := context C [@nil Event] in exists pre
      end
  end;
  split; [reflexivity|];
  split; [cbn [trace app]; repeat (rewrite <- app_assoc; cbn [app]);
          reflexivity|].

(** The facts common to the three kinds of run, up to the choice of the
    kind. *)
Ltac close_case direction :=
  repeat match goal with
         | H : forall d : string, verdicts d _ = [] |- _ =>
             specialize (H direction)
         end;
  observe;
  split; [rewrite ?length_app; cbn [length]; lia|];
  do 4 (split; [reflexivity|]).

(** Every run of [evaluate_signal_result] returns, and is of one of three
    kinds: a win of the initial trade, a win of the martingale trade, or
    a loss of both. *)
Lemma evaluate_signal_result_cases
  (env : Env) (pair direction : string) (self : Bot.Self) (w : World) :
  exists self' w' evs,
    Bot.evaluate_signal_result env pair direction self w = (Ok tt, self', w')
    /\ trace w' = evs ++ trace w
    /\ (length (fetches evs) <= length (waits evs))%nat
    /\ Bot.base_stake self' = Bot.base_stake self
    /\ Bot.martingale_factor self' = Bot.martingale_factor self
    /\ Bot.current_stake self' = Bot.base_stake self
    /\ Bot.in_martingale_sequence self' = false
    /\ ((phases evs = [INITIAL]
         /\ verdicts direction evs = [true]
         /\ outcomes evs = ["WIN"]
         /\ entry_stakes evs = [Bot.base_stake self]
         /\ mtg_stakes evs = []
         /\ waits evs = [65%Z]
         /\ Bot.win_count self' = (Bot.win_count self + 1)%Z
         /\ Bot.loss_count self' = Bot.loss_count self)
        \/
        (phases evs = [INITIAL; MARTINGALE]
         /\ verdicts direction evs = [false; true]
         /\ outcomes evs = ["MTG WIN"]
         /\ entry_stakes evs
            = [Bot.base_stake self;
               fmul (Bot.base_stake self) (Bot.martingale_factor self)]
         /\ mtg_stakes evs
            = [fmul (Bot.base_stake self) (Bot.martingale_factor self)]
         /\ waits evs = [65%Z; 65%Z]
         /\ Bot.win_count self' = (Bot.win_count self + 1)%Z
         /\ Bot.loss_count self' = Bot.loss_count self)
        \/
        (phases evs = [INITIAL; MARTINGALE]
         /\ verdicts direction evs = [false; false]
         /\ outcomes evs = ["LOSS"]
         /\ entry_stakes evs
            = [Bot.base_stake self;
               fmul (Bot.base_stake self) (Bot.martingale_factor self)]
         /\ mtg_stakes evs
            = [fmul (Bot.base_stake self) (Bot.martingale_factor self)]
         /\ waits evs = [65%Z; 65%Z]
         /\ Bot.win_count self' = Bot.win_count self
         /\ Bot.loss_count self' = (Bot.loss_count self + 1)%Z)).
Proof.
  destruct self as [hb hc cl thr wc lc bs cs mf ims], w as [t n tn tr].
  unfold Bot.evaluate_signal_result. step.
  step_check.
  - (* the initial trade wins *)
    step_send. do 2 eexists. new_events. close_case direction.
    left. repeat split; reflexivity.
  - (* the initial trade loses *)
    step_send. step_check.
    + (* the martingale trade wins *)
      step_send. do 2 eexists. new_events. close_case direction.
      right; left. repeat split; reflexivity.
    + (* the martingale trade loses *)
      step_send. do 2 eexists. new_events. close_case direction.
      right; right. repeat split; reflexivity.
Qed.


(** ** The reversal-only variant *)

Lemma py_slice_last_nonempty {A : Type} (n : nat) (a : A) (l : list A) :
  py_slice_last n (a :: l) <> [].
Proof.
  unfold py_slice_last. destruct n as [|n]; [discriminate|].
  intros H. apply (f_equal (@length A)) in H.
  rewrite length_skipn in H. cbn [length] in H. lia.
Qed.

(** A getter never hands back an empty list. *)
Lemma fetched_nonempty (limit : nat) (response : ApiResponse) :
  fetched limit response <> Some [].
Proof.
  destruct response as [| |[|r raw]]; try discriminate.
  cbn [fetched]. intros [= H].
  apply map_eq_nil in H. exact (py_slice_last_nonempty _ _ _ H).
Qed.

(** What a fetch through [get_candles] returns and records. *)
Lemma get_candles_run
  (env : Env) (pair : string) (count : nat) (self : Fixed.Self) (w : World) :
  exists evs,
    Fixed.get_candles env pair count self w
    = (Ok (if Fixed.has_client self
           then fetched count
                  (get_candles_api env (api_calls w) pair (clock w)
                                   (Z.of_nat count * 60))
           else None),
       self,
       mkWorld (clock w)
               (if Fixed.has_client self then S (api_calls w) else api_calls w)
               (telegram_calls w) (evs ++ trace w))
    /\ waits evs = [] /\ phases evs = []
    /\ (length (fetches evs) <= 1)%nat.
Proof.
  destruct self as [hb hc [|]], w as [t n tn tr];
    unfold Fixed.get_candles; step.
  - destruct (get_candles_api env n pair t (Z.of_nat count * 60))
      as [| |[|r raw]]; step; cbn [fetched].
    + exists [EvLog ERROR (LogFetchError pair);
              EvGetCandles pair t (Z.of_nat count * 60)%Z 60].
      repeat split; try reflexivity; cbn; lia.
    + exists [EvGetCandles pair t (Z.of_nat count * 60)%Z 60].
      repeat split; try reflexivity; cbn; lia.
    + exists [EvGetCandles pair t (Z.of_nat count * 60)%Z 60].
      repeat split; try reflexivity; cbn; lia.
    + exists [EvGetCandles pair t (Z.of_nat count * 60)%Z 60].
      repeat split; try reflexivity; cbn; lia.
  - exists []. repeat split; try reflexivity; cbn; lia.
Qed.

Ltac step_get :=
  match goal with
  | |- context [Fixed.get_candles ?e ?p ?c ?s ?w] =>
      let evs := fresh "evs" in
      let Hrun := fresh "Hrun" in
      destruct (get_candles_run e p c s w) as (evs & Hrun & ? & ? & ?);
      rewrite Hrun; clear Hrun; step
  end.

(** Every run of [evaluate_result] returns, and is of one of five kinds,
    decided by what the two fetches hand back. *)
Lemma evaluate_result_cases
  (env : Env) (pair direction : string) (self : Fixed.Self) (w : World) :
  exists result w' evs,
    Fixed.evaluate_result env pair direction self w = (Ok result, self, w')
    /\ trace w' = evs ++ trace w
    /\ (length (fetches evs) <= length (waits evs))%nat
    /\ ((first_fetch env self w pair = None
         /\ result = "ERROR"
         /\ phases evs = [INITIAL] /\ waits evs = [60%Z])
        \/
        (exists c cs,
            first_fetch env self w pair = Some (c :: cs)
            /\ wins_fixed direction c = true
            /\ result = "WIN"
            /\ phases evs = [INITIAL] /\ waits evs = [60%Z])
        \/
        (exists c cs,
            first_fetch env self w pair = Some (c :: cs)
            /\ wins_fixed direction c = false
            /\ phases evs = [INITIAL; MARTINGALE]
            /\ waits evs = [60%Z; 60%Z]
            /\ ((second_fetch env self w pair = None /\ result = "LOSS")
                \/
                (exists c' cs',
                    second_fetch env self w pair = Some (c' :: cs')
                    /\ wins_fixed direction c' = true
                    /\ result = "MG WIN")
                \/
                (exists c' cs',
                    second_fetch env self w pair = Some (c' :: cs')
                    /\ wins_fixed direction c' = false
                    /\ result = "LOSS")))).
Proof.
  unfold first_fetch, second_fetch.
  destruct self as [hb hc cl], w as [t n tn tr].
  unfold Fixed.evaluate_result. step.
  step_get.
  change (Z.of_nat 1 * 60)%Z with 60%Z.
  destruct (if cl then fetched 1 (get_candles_api env n pair (t + 60) 60)
            else None) as [[|c cs]|] eqn:E1.
  - destruct cl; [|discriminate]. exfalso. exact (fetched_nonempty _ _ E1).
  - step. cbn [py_index nth_error].
    fold (wins_fixed direction c).
    destruct (wins_fixed direction c) eqn:Ew.
    + do 2 eexists. new_events. observe.
      split; [cbn [length]; lia|].
      right; left. exists c, cs. repeat split; first [reflexivity|assumption].
    + step. step_get.
      assert (Hcl : cl = true) by (destruct cl; [reflexivity|discriminate]).
      subst cl. change (Z.of_nat 1 * 60)%Z with 60%Z.
      destruct (fetched 1 (get_candles_api env (S n) pair (t + 60 + 60) 60))
        as [[|c' cs']|] eqn:E2.
      * exfalso. exact (fetched_nonempty _ _ E2).
      * step. cbn [py_index nth_error].
        fold (wins_fixed direction c').
        destruct (wins_fixed direction c') eqn:Ew'.
        -- do 2 eexists. new_events. observe.
           split; [rewrite ?length_app; cbn [length]; lia|].
           right; right. exists c, cs. do 4 (split; [first [reflexivity|assumption]|]).
           right; left. exists c', cs'. repeat split; first [reflexivity|assumption].
        -- do 2 eexists. new_events. observe.
           split; [rewrite ?length_app; cbn [length]; lia|].
           right; right. exists c, cs. do 4 (split; [first [reflexivity|assumption]|]).
           right; right. exists c', cs'. repeat split; first [reflexivity|assumption].
      * do 2 eexists. new_events. observe.
        split; [rewrite ?length_app; cbn [length]; lia|].
        right; right. exists c, cs. do 4 (split; [first [reflexivity|assumption]|]).
        left. split; reflexivity.
  - do 2 eexists. new_events. observe.
    split; [cbn [length]; lia|].
    left. repeat split; first [reflexivity|assumption].
Qed.

(** The verdict of [check_trade_result], in terms of the candle. *)
Lemma wins_call (o c : Q) : wins "CALL" o c = true <-> (o < c)%Q.
Proof. unfold wins. cbn [String.eqb Ascii.eqb Bool.eqb]. apply Qlt_bool_iff. Qed.

Lemma wins_put (o c : Q) : wins "PUT" o c = true <-> (c < o)%Q.
Proof. unfold wins. cbn [String.eqb Ascii.eqb Bool.eqb]. apply Qlt_bool_iff. Qed.

Lemma wins_tie (direction : string) (o c : Q) :
  (c == o)%Q -> wins direction o c = false.
Proof.
  intros H. unfold wins.
  destruct (String.eqb direction "CALL"); apply Qlt_bool_false_iff;
    rewrite H; apply Qle_refl.
Qed.

Lemma wins_fixed_call (c : CandleData) :
  wins_fixed "CALL" c = true <-> (open c < close c)%Q.
Proof.
  unfold wins_fixed. cbn [String.eqb Ascii.eqb Bool.eqb andb orb].
  rewrite orb_false_r. apply Qlt_bool_iff.
Qed.

Lemma wins_fixed_put (c : CandleData) :
  wins_fixed "PUT" c = true <-> (close c < open c)%Q.
Proof.
  unfold wins_fixed. cbn [String.eqb Ascii.eqb Bool.eqb andb orb].
  apply Qlt_bool_iff.
Qed.

Lemma wins_fixed_tie (direction : string) (c : CandleData) :
  (close c == open c)%Q -> wins_fixed direction c = false.
Proof.
  intros H. unfold wins_fixed.
  assert (H1 : Qlt_bool (open c) (close c) = false)
    by (apply Qlt_bool_false_iff; rewrite H; apply Qle_refl).
  assert (H2 : Qlt_bool (close c) (open c) = false)
    by (apply Qlt_bool_false_iff; rewrite H; apply Qle_refl).
  rewrite H1, H2, !andb_false_r. reflexivity.
Qed.

Lemma win_or_loss (v : bool) :
  (if v then "WIN" else "LOSS") = "WIN" <-> v = true.
Proof. destruct v; split; intros H; try reflexivity; discriminate. Qed.

(** ** Reversal detection and momentum scoring *)

(** C1.  On a window of exactly four bars that all close above their
    open, both detectors ([score_pair] and [analyze_reversal]) signal
    PUT at the close of the last bar; when all four close below their
    open, both signal CALL at the close of the last bar.  [score_pair]
    attaches the score 100 to the signal. *)
Theorem reversal_on_four_same_direction (c1 c2 c3 c4 : CandleData) :
  (all_call [c1; c2; c3; c4] ->
   Bot.score_pair [c1; c2; c3; c4] = Ok (100%Q, "PUT", close c4)
   /\ Fixed.analyze_reversal [c1; c2; c3; c4] = Ok (Some ("PUT", close c4)))
  /\
  (all_put [c1; c2; c3; c4] ->
   Bot.score_pair [c1; c2; c3; c4] = Ok (100%Q, "CALL", close c4)
   /\ Fixed.analyze_reversal [c1; c2; c3; c4] = Ok (Some ("CALL", close c4))).
Proof.
  assert (Hsame : reversal_pattern [c1; c2; c3; c4] ->
                  same_direction (map candle_direction ([c1; c2] ++ [c3; c4]))
                  = Ok true).
  { intros H. apply same_direction_pattern. split; [discriminate|exact H]. }
  assert (Hlen : (2 <= length [c1; c2])%nat) by (simpl; lia).
  split; intros Hall.
  - assert (Hd : candle_direction c1 = "CALL")
      by (inversion Hall; subst; apply candle_direction_call; assumption).
    specialize (Hsame (or_introl Hall)).
    destruct (score_pair_reversal _ _ _ Hlen Hsame) as (c0 & Hhd & Hs).
    destruct (analyze_reversal_pattern _ _ _ Hlen Hsame) as (c0' & Hhd' & Ha).
    simpl in Hhd, Hhd'. injection Hhd as <-. injection Hhd' as <-.
    rewrite Hd in Hs, Ha. split; assumption.
  - assert (Hd : candle_direction c1 = "PUT")
      by (inversion Hall; subst; apply candle_direction_put; assumption).
    specialize (Hsame (or_intror Hall)).
    destruct (score_pair_reversal _ _ _ Hlen Hsame) as (c0 & Hhd & Hs).
    destruct (analyze_reversal_pattern _ _ _ Hlen Hsame) as (c0' & Hhd' & Ha).
    simpl in Hhd, Hhd'. injection Hhd as <-. injection Hhd' as <-.
    rewrite Hd in Hs, Ha. split; assumption.
Qed.

Lemma rising_window_all_call : all_call rising_window.
Proof. repeat constructor. Qed.

Lemma falling_window_all_put : all_put falling_window.
Proof. repeat constructor. Qed.

Lemma reversal_on_four_same_direction_witness :
  (Bot.score_pair rising_window = Ok (100%Q, "PUT", 1.4%Q)
   /\ Fixed.analyze_reversal rising_window = Ok (Some ("PUT", 1.4%Q)))
  /\
  (Bot.score_pair falling_window = Ok (100%Q, "CALL", 1%Q)
   /\ Fixed.analyze_reversal falling_window = Ok (Some ("CALL", 1%Q))).
Proof.
  split.
  - apply (reversal_on_four_same_direction
             (mkCandle 1 1.2 0.9 1.1 0) (mkCandle 1.1 1.3 1.0 1.2 60)
             (mkCandle 1.2 1.4 1.1 1.3 120) (mkCandle 1.3 1.5 1.2 1.4 180)).
    exact rising_window_all_call.
  - apply (reversal_on_four_same_direction
             (mkCandle 1.4 1.5 1.2 1.3 0) (mkCandle 1.3 1.4 1.1 1.2 60)
             (mkCandle 1.2 1.3 1.0 1.1 120) (mkCandle 1.1 1.2 0.9 1 180)).
    exact falling_window_all_put.
Defined.

(** C6.  On a window shorter than four bars, or containing a bar whose
    close equals its open, or containing two bars of different
    directions, [analyze_reversal] returns [None] and [score_pair] does
    not take its reversal branch: it returns [(0, "NONE", 0)] on a short
    window and the momentum result otherwise.  Neither raises. *)
Theorem no_reversal_signal (candles : list CandleData) :
  ((length candles < 4)%nat
   \/ Exists (fun c => (close c == open c)%Q) candles
   \/ (exists c c', In c candles /\ In c' candles
                    /\ candle_direction c <> candle_direction c')) ->
  Fixed.analyze_reversal candles = Ok None
  /\ (exists r, Bot.score_pair candles = Ok r)
  /\ ((length candles < 4)%nat ->
      Bot.score_pair candles = Ok (0%Q, "NONE", 0%Q))
  /\ (forall pre c3 c4,
        candles = pre ++ [c3; c4] -> (2 <= length pre)%nat ->
        Bot.score_pair candles
        = Ok (fmul (Qabs (momentum_of c3 c4)) (mean_range candles),
              if Qlt_bool 0 (momentum_of c3 c4) then "CALL" else "PUT",
              close c4)).
Proof.
  intros H.
  split; [|split; [apply score_pair_total|split; [apply score_pair_short|]]].
  - destruct H as [Hshort|Hrest]; [apply analyze_reversal_short; exact Hshort|].
    apply analyze_reversal_no_pattern, same_direction_no_pattern.
    destruct Hrest as [Hn|(c & c' & Hc & Hc' & Hne)].
    + apply neutral_no_pattern; exact Hn.
    + exact (mixed_no_pattern _ c c' Hc Hc' Hne).
  - intros pre c3 c4 -> Hpre.
    apply score_pair_momentum; [exact Hpre|].
    apply same_direction_no_pattern.
    destruct H as [Hshort|[Hn|(c & c' & Hc & Hc' & Hne)]].
    + rewrite length_app in Hshort. simpl in Hshort. lia.
    + apply neutral_no_pattern; exact Hn.
    + exact (mixed_no_pattern _ c c' Hc Hc' Hne).
Qed.

Lemma no_reversal_signal_witness :
  (Fixed.analyze_reversal short_window = Ok None
   /\ Bot.score_pair short_window = Ok (0%Q, "NONE", 0%Q))
  /\ Fixed.analyze_reversal mixed_window = Ok None.
Proof.
  assert (H : (length short_window < 4)%nat) by (simpl; lia).
  destruct (no_reversal_signal short_window (or_introl H))
    as (Ha & _ & Hs & _).
  split; [split; [exact Ha|exact (Hs H)]|].
  apply (no_reversal_signal mixed_window).
  right; right.
  exists (mkCandle 1 1.2 0.9 1.1 0), (mkCandle 1.3 1.5 1.2 1.25 180).
  split; [simpl; tauto|].
  split; [simpl; tauto|].
  vm_compute. discriminate.
Defined.



(** On [rounding_window] the two weighted changes do not cancel: the
    momentum is [2^-52], the signal a CALL of score [5 * 2^-52]. *)
Lemma score_pair_rounding_window :
  Bot.score_pair rounding_window = Ok (5 # 4503599627370496, "CALL", 1%Q)
  /\ momentum_of (mkCandle 1 5 0 4 120) (mkCandle 3 5 0 1 180)
     = 1 # 4503599627370496
  /\ mean_range rounding_window = 5%Q.
Proof. vm_compute. repeat split; reflexivity. Qed.


(** ** Outcome evaluation *)

(** C3.  [check_trade_result] judges the selected candle: for CALL the
    result is WIN exactly when its close is above its open, for PUT
    exactly when its close is below its open, and a candle whose close
    equals its open is a LOSS for either direction.  [evaluate_result]
    applies the same test to the candle of each of its two phases: the
    result is WIN exactly when the first candle passes it, and after a
    first candle that does not, MG WIN exactly when the second candle
    passes it; a candle whose close equals its open never wins. *)
Theorem trade_classification
  (env : Env) (pair direction : string) (entry_timestamp : Z)
  (self self1 : Bot.Self) (w w1 : World) (candles : list CandleData)
  (fself : Fixed.Self) (fw : World) :
  (Bot.get_candles_for_pair env pair 2 self w = (Ok (Some candles), self1, w1) ->
   candles <> [] ->
   exists c result w',
     selected candles entry_timestamp c
     /\ Bot.check_trade_result env pair direction entry_timestamp self w
        = (Ok result, self1, w')
     /\ trace w' = EvLog INFO (LogCandle (open c) (close c)) :: trace w1
     /\ (result = "WIN" \/ result = "LOSS")
     /\ (direction = "CALL" -> (result = "WIN" <-> (open c < close c)%Q))
     /\ (direction = "PUT" -> (result = "WIN" <-> (close c < open c)%Q))
     /\ ((close c == open c)%Q -> result = "LOSS"))
  /\
  (forall c cs,
      first_fetch env fself fw pair = Some (c :: cs) ->
      exists result w',
        Fixed.evaluate_result env pair direction fself fw
        = (Ok result, fself, w')
        /\ (direction = "CALL" -> (result = "WIN" <-> (open c < close c)%Q))
        /\ (direction = "PUT" -> (result = "WIN" <-> (close c < open c)%Q))
        /\ ((close c == open c)%Q -> result <> "WIN")
        /\ (result <> "WIN" ->
            forall c' cs',
              second_fetch env fself fw pair = Some (c' :: cs') ->
              (direction = "CALL" ->
               (result = "MG WIN" <-> (open c' < close c')%Q))
              /\ (direction = "PUT" ->
                  (result = "MG WIN" <-> (close c' < open c')%Q))
              /\ ((close c' == open c')%Q -> result = "LOSS"))).
Proof.
  split.
  - intros Hget Hne.
    destruct (check_trade_result_on_candles env pair direction entry_timestamp
                self self1 w w1 candles Hget Hne) as (c & Hsel & Hrun).
    exists c. eexists. eexists.
    split; [exact Hsel|]. split; [exact Hrun|]. split; [reflexivity|].
    split; [destruct (wins direction (open c) (close c)); tauto|].
    split; [|split].
    + intros ->. rewrite win_or_loss. apply wins_call.
    + intros ->. rewrite win_or_loss. apply wins_put.
    + intros Htie. rewrite (wins_tie direction _ _ Htie). reflexivity.
  - intros c cs Hfirst.
    destruct (evaluate_result_cases env pair direction fself fw)
      as (result & w' & evs & Hrun & _ & _ & Hcases).
    exists result, w'. split; [exact Hrun|].
    rewrite Hfirst in Hcases.
    destruct Hcases as [(Hnone & _)|[(c0 & cs0 & Heq & Hw & -> & _)
                                    |(c0 & cs0 & Heq & Hw & _ & _ & Hsecond)]];
      [discriminate| |]; injection Heq as <- <-.
    + split; [|split; [|split]].
      * intros ->. apply wins_fixed_call in Hw. tauto.
      * intros ->. apply wins_fixed_put in Hw. tauto.
      * intros Htie. rewrite (wins_fixed_tie _ _ Htie) in Hw. discriminate.
      * intros Hne. congruence.
    + assert (Hnot : result <> "WIN").
      { destruct Hsecond as [(_ & ->)|[(_ & _ & _ & _ & ->)
                                      |(_ & _ & _ & _ & ->)]]; discriminate. }
      split; [|split; [|split]].
      * intros ->. split; [intros H; contradiction|].
        intros H. apply wins_fixed_call in H. congruence.
      * intros ->. split; [intros H; contradiction|].
        intros H. apply wins_fixed_put in H. congruence.
      * intros _. exact Hnot.
      * intros _ c' cs' Hsec. rewrite Hsec in Hsecond.
        destruct Hsecond as [(Hnone & _)|[(c1 & cs1 & Heq & Hw' & ->)
                                         |(c1 & cs1 & Heq & Hw' & ->)]];
          [discriminate| |]; injection Heq as <- <-.
        -- split; [|split].
           ++ intros ->. apply wins_fixed_call in Hw'. tauto.
           ++ intros ->. apply wins_fixed_put in Hw'. tauto.
           ++ intros Htie. rewrite (wins_fixed_tie _ _ Htie) in Hw'.
              discriminate.
        -- split; [|split].
           ++ intros ->. split; [discriminate|].
              intros H. apply wins_fixed_call in H. congruence.
           ++ intros ->. split; [discriminate|].
              intros H. apply wins_fixed_put in H. congruence.
           ++ intros _. reflexivity.
Qed.

Lemma trade_classification_witness :
  (exists c result w',
      selected [mkCandle 1.40 1.5 1.3 1.45 1000] 1000 c
      /\ Bot.check_trade_result (steady_env 1.40 1.45 1000) "EURNZD_otc"
                                "CALL" 1000 sample_bot quiet_world
         = (Ok result, sample_bot, w')
      /\ (result = "WIN" <-> (open c < close c)%Q))
  /\
  (exists result w',
      Fixed.evaluate_result (steady_env 1.40 1.45 1000) "EURNZD_otc" "CALL"
                            sample_fixed_bot quiet_world
      = (Ok result, sample_fixed_bot, w')
      /\ (result = "WIN" <-> (1.40 < 1.45)%Q)).
Proof.
  destruct (trade_classification
              (steady_env 1.40 1.45 1000) "EURNZD_otc" "CALL" 1000
              sample_bot sample_bot quiet_world
              (mkWorld 1000 1 0 [EvGetCandles "EURNZD_otc" 1000 120 60])
              [mkCandle 1.40 1.5 1.3 1.45 1000]
              sample_fixed_bot quiet_world) as [Hbot Hfixed].
  split.
  - assert (Hne : [mkCandle 1.40 1.5 1.3 1.45 1000] <> []) by discriminate.
    destruct (Hbot eq_refl Hne)
      as (c & result & w' & Hsel & Hrun & _ & _ & Hcall & _).
    exists c, result, w'.
    split; [exact Hsel|]. split; [exact Hrun|]. exact (Hcall eq_refl).
  - destruct (Hfixed (mkCandle 1.40 1.5 1.3 1.45 1000) [] eq_refl)
      as (result & w' & Hrun & Hcall & _).
    exists result, w'. split; [exact Hrun|]. exact (Hcall eq_refl).
Defined.

(** C9.  When the fetch hands back candles, [check_trade_result] judges
    the first candle of the sequence whose timestamp is within 60
    seconds of the entry timestamp; when no candle is, it judges the last
    candle of the sequence. *)
Theorem trade_candle_selection
  (env : Env) (pair direction : string) (entry_timestamp : Z)
  (self self1 : Bot.Self) (w w1 : World) (candles : list CandleData) :
  Bot.get_candles_for_pair env pair 2 self w = (Ok (Some candles), self1, w1) ->
  candles <> [] ->
  exists c,
    ((exists pre post,
         candles = pre ++ c :: post
         /\ (Z.abs (timestamp c - entry_timestamp) <= 60)%Z
         /\ Forall (fun c' =>
                      ~ (Z.abs (timestamp c' - entry_timestamp) <= 60)%Z) pre)
     \/
     (Forall (fun c' =>
                ~ (Z.abs (timestamp c' - entry_timestamp) <= 60)%Z) candles
      /\ exists pre, candles = pre ++ [c]))
    /\ Bot.check_trade_result env pair direction entry_timestamp self w
       = (Ok (if wins direction (open c) (close c) then "WIN" else "LOSS"),
          self1,
          mkWorld (clock w1) (api_calls w1) (telegram_calls w1)
                  (EvLog INFO (LogCandle (open c) (close c)) :: trace w1)).
Proof.
  intros Hget Hne.
  destruct (check_trade_result_on_candles env pair direction entry_timestamp
              self self1 w w1 candles Hget Hne) as (c & Hsel & Hrun).
  exists c. split; [exact Hsel|exact Hrun].
Qed.

Lemma trade_candle_selection_witness :
  exists c,
    ((exists pre post,
         [mkCandle 1.40 1.5 1.3 1.45 900; mkCandle 1.45 1.5 1.3 1.42 960]
         = pre ++ c :: post
         /\ (Z.abs (timestamp c - 1000) <= 60)%Z
         /\ Forall (fun c' => ~ (Z.abs (timestamp c' - 1000) <= 60)%Z) pre)
     \/
     (Forall (fun c' => ~ (Z.abs (timestamp c' - 1000) <= 60)%Z)
             [mkCandle 1.40 1.5 1.3 1.45 900; mkCandle 1.45 1.5 1.3 1.42 960]
      /\ exists pre,
          [mkCandle 1.40 1.5 1.3 1.45 900; mkCandle 1.45 1.5 1.3 1.42 960]
          = pre ++ [c]))
    /\ Bot.check_trade_result late_env "EURNZD_otc" "PUT" 1000
                              sample_bot quiet_world
       = (Ok (if wins "PUT" (open c) (close c) then "WIN" else "LOSS"),
          sample_bot,
          mkWorld 1000 1 0
                  [EvLog INFO (LogCandle (open c) (close c));
                   EvGetCandles "EURNZD_otc" 1000 120 60]).
Proof.
  apply (trade_candle_selection
           late_env "EURNZD_otc" "PUT" 1000 sample_bot sample_bot quiet_world
           (mkWorld 1000 1 0 [EvGetCandles "EURNZD_otc" 1000 120 60])
           [mkCandle 1.40 1.5 1.3 1.45 900; mkCandle 1.45 1.5 1.3 1.42 960]).
  - reflexivity.
  - discriminate.
Defined.

(** ** The signal pipeline of the momentum variant *)



(** ** The evaluation sequence *)

(** C2, as the specification states it, fails on [evaluate_result]: when
    the first fetch hands back nothing the evaluation ends with the
    outcome "ERROR", which is none of initial win, martingale win and
    loss. *)
Lemma evaluate_result_fourth_outcome :
  Fixed.evaluate_result no_data_env "EURNZD_otc" "CALL"
                        sample_fixed_bot quiet_world
  = (Ok "ERROR", sample_fixed_bot,
     mkWorld 1060 1 0
             [EvGetCandles "EURNZD_otc" 1060 60 60; EvSleep 60;
              EvLog INFO (LogWaiting "EURNZD_otc" "CALL")])
  /\ "ERROR" <> "WIN" /\ "ERROR" <> "MG WIN" /\ "ERROR" <> "LOSS".
Proof. repeat split; try reflexivity; discriminate. Qed.

(** C2 (amended).  Every [evaluate_signal_result] call returns and goes
    through the initial phase once; when the initial trade wins it ends
    with WIN without a martingale phase, and when it loses exactly one
    martingale phase follows, ending with MTG WIN or LOSS.  Every
    [evaluate_result] call returns; when its first fetch hands back a
    candle that wins, it ends with WIN without a martingale phase; when
    that candle does not win exactly one martingale phase follows, ending
    with MG WIN or LOSS; when its first fetch hands back nothing it ends
    at once with the fourth outcome ERROR, without a martingale phase. *)
Theorem evaluation_phases
  (env : Env) (pair direction : string)
  (self : Bot.Self) (fself : Fixed.Self) (w : World) :
  (exists self' w' evs,
      Bot.evaluate_signal_result env pair direction self w = (Ok tt, self', w')
      /\ trace w' = evs ++ trace w
      /\ ((phases evs = [INITIAL]
           /\ verdicts direction evs = [true]
           /\ outcomes evs = ["WIN"])
          \/ (phases evs = [INITIAL; MARTINGALE]
              /\ verdicts direction evs = [false; true]
              /\ outcomes evs = ["MTG WIN"])
          \/ (phases evs = [INITIAL; MARTINGALE]
              /\ verdicts direction evs = [false; false]
              /\ outcomes evs = ["LOSS"])))
  /\
  (exists result w' evs,
      Fixed.evaluate_result env pair direction fself w = (Ok result, fself, w')
      /\ trace w' = evs ++ trace w
      /\ ((exists c cs,
              first_fetch env fself w pair = Some (c :: cs)
              /\ wins_fixed direction c = true
              /\ phases evs = [INITIAL]
              /\ result = "WIN")
          \/ (exists c cs,
                 first_fetch env fself w pair = Some (c :: cs)
                 /\ wins_fixed direction c = false
                 /\ phases evs = [INITIAL; MARTINGALE]
                 /\ (result = "MG WIN" \/ result = "LOSS"))
          \/ (first_fetch env fself w pair = None
              /\ phases evs = [INITIAL]
              /\ result = "ERROR"))).
Proof.
  split.
  - destruct (evaluate_signal_result_cases env pair direction self w)
      as (self' & w' & evs & Hrun & Htr & _ & _ & _ & _ & _ & Hcases).
    exists self', w', evs. split; [exact Hrun|]. split; [exact Htr|].
    destruct Hcases as [(Hp & Hv & Ho & _)|[(Hp & Hv & Ho & _)
                                           |(Hp & Hv & Ho & _)]].
    + left. repeat split; assumption.
    + right; left. repeat split; assumption.
    + right; right. repeat split; assumption.
  - destruct (evaluate_result_cases env pair direction fself w)
      as (result & w' & evs & Hrun & Htr & _ & Hcases).
    exists result, w', evs. split; [exact Hrun|]. split; [exact Htr|].
    destruct Hcases as [(Hnone & Hr & Hp & _)
                       |[(c & cs & Hf & Hw & Hr & Hp & _)
                        |(c & cs & Hf & Hw & Hp & _ & Hsecond)]].
    + right; right. repeat split; assumption.
    + left. exists c, cs. repeat split; assumption.
    + right; left. exists c, cs. repeat split; try assumption.
      destruct Hsecond as [(_ & ->)|[(_ & _ & _ & _ & ->)
                                    |(_ & _ & _ & _ & ->)]]; tauto.
Qed.



(** ** Fetch failures *)

(** C8, as the specification states it, fails on [evaluate_result]: a
    fetch failure in its first phase is not scored as a loss, the
    evaluation ends with "ERROR". *)
Lemma first_fetch_failure_is_error :
  first_fetch failing_env sample_fixed_bot quiet_world "EURNZD_otc" = None
  /\ Fixed.evaluate_result failing_env "EURNZD_otc" "PUT"
                           sample_fixed_bot quiet_world
     = (Ok "ERROR", sample_fixed_bot,
        mkWorld 1060 1 0
                [EvLog ERROR (LogFetchError "EURNZD_otc");
                 EvGetCandles "EURNZD_otc" 1060 60 60; EvSleep 60;
                 EvLog INFO (LogWaiting "EURNZD_otc" "PUT")])
  /\ "ERROR" <> "LOSS".
Proof. repeat split; try reflexivity; discriminate. Qed.

(** C8 (amended).  In the martingale variant, a [check_trade_result]
    call whose fetch hands back no candles returns LOSS without fetching
    again, in either phase, and every [evaluate_signal_result] call makes
    one or two waits of 65 seconds and at most one fetch per wait.  In
    the reversal-only variant, every [evaluate_result] call makes one or
    two waits of 60 seconds and at most one fetch per wait; when its
    first fetch hands back no candles it ends with ERROR after one wait,
    and when its second fetch hands back no candles it ends with LOSS. *)
Theorem fetch_failure_policy
  (env : Env) (pair direction : string) (entry_timestamp : Z)
  (self self1 : Bot.Self) (w w1 : World)
  (candles : option (list CandleData)) (fself : Fixed.Self) :
  (Bot.get_candles_for_pair env pair 2 self w = (Ok candles, self1, w1) ->
   candles = None \/ candles = Some [] ->
   Bot.check_trade_result env pair direction entry_timestamp self w
   = (Ok "LOSS", self1,
      mkWorld (clock w1) (api_calls w1) (telegram_calls w1)
              (EvLog ERROR (LogFailedCandles pair) :: trace w1)))
  /\
  (exists self' w' evs,
      Bot.evaluate_signal_result env pair direction self w = (Ok tt, self', w')
      /\ trace w' = evs ++ trace w
      /\ (waits evs = [65%Z] \/ waits evs = [65%Z; 65%Z])
      /\ (length (fetches evs) <= length (waits evs))%nat)
  /\
  (exists result w' evs,
      Fixed.evaluate_result env pair direction fself w = (Ok result, fself, w')
      /\ trace w' = evs ++ trace w
      /\ (waits evs = [60%Z] \/ waits evs = [60%Z; 60%Z])
      /\ (length (fetches evs) <= length (waits evs))%nat
      /\ (first_fetch env fself w pair = None ->
          result = "ERROR" /\ waits evs = [60%Z])
      /\ (forall c cs,
             first_fetch env fself w pair = Some (c :: cs) ->
             wins_fixed direction c = false ->
             second_fetch env fself w pair = None ->
             result = "LOSS" /\ waits evs = [60%Z; 60%Z])).
Proof.
  split; [|split].
  - intros Hget Hnone.
    exact (check_trade_result_no_candles env pair direction entry_timestamp
             self self1 w w1 candles Hget Hnone).
  - destruct (evaluate_signal_result_cases env pair direction self w)
      as (self' & w' & evs & Hrun & Htr & Hf & _ & _ & _ & _ & Hcases).
    exists self', w', evs. repeat split; try assumption.
    destruct Hcases as [(_ & _ & _ & _ & _ & Hw & _)
                       |[(_ & _ & _ & _ & _ & Hw & _)
                        |(_ & _ & _ & _ & _ & Hw & _)]]; tauto.
  - destruct (evaluate_result_cases env pair direction fself w)
      as (result & w' & evs & Hrun & Htr & Hf & Hcases).
    exists result, w', evs.
    split; [exact Hrun|]. split; [exact Htr|].
    destruct Hcases as [(Hnone & Hr & _ & Hw)
                       |[(c & cs & Hfirst & Hwin & Hr & _ & Hw)
                        |(c & cs & Hfirst & _ & _ & Hw & Hsecond)]].
    + split; [left; exact Hw|]. split; [exact Hf|].
      split; [intros _; split; assumption|].
      intros c cs Hsome. congruence.
    + split; [left; exact Hw|]. split; [exact Hf|].
      split; [intros Hnone; congruence|].
      intros c0 cs0 Hsome Hlost.
      rewrite Hfirst in Hsome. injection Hsome as <- <-. congruence.
    + split; [right; exact Hw|]. split; [exact Hf|].
      split; [intros Hnone; congruence|].
      intros c0 cs0 _ _ Hnone2. split; [|exact Hw].
      destruct Hsecond as [(_ & Hr)|[(c' & cs' & Hs & _)
                                    |(c' & cs' & Hs & _)]];
        [exact Hr|congruence|congruence].
Qed.

Lemma fetch_failure_policy_witness :
  Bot.check_trade_result failing_env "EURNZD_otc" "CALL" 1000
                         sample_bot quiet_world
  = (Ok "LOSS", sample_bot,
     mkWorld 1000 1 0
             [EvLog ERROR (LogFailedCandles "EURNZD_otc");
              EvLog ERROR (LogFetchError "EURNZD_otc");
              EvGetCandles "EURNZD_otc" 1000 120 60]).
Proof.
  apply (fetch_failure_policy
           failing_env "EURNZD_otc" "CALL" 1000 sample_bot sample_bot
           quiet_world
           (mkWorld 1000 1 0
                    [EvLog ERROR (LogFetchError "EURNZD_otc");
                     EvGetCandles "EURNZD_otc" 1000 120 60])
           None sample_fixed_bot).
  - reflexivity.
  - left. reflexivity.
Defined.

(** ** Further properties: the detectors *)

(** X1 (labels).  [score_pair] never raises; the direction it returns is
    "NONE" exactly on a window of fewer than four bars, and "CALL" or
    "PUT" otherwise. *)
Theorem score_pair_labels (candles : list CandleData) :
  exists score direction price,
    Bot.score_pair candles = Ok (score, direction, price)
    /\ ((length candles < 4)%nat -> direction = "NONE")
    /\ ((4 <= length candles)%nat -> direction = "CALL" \/ direction = "PUT").
Proof.
  destruct (Nat.lt_ge_cases (length candles) 4) as [Hlt|Hge].
  - rewrite (score_pair_short _ Hlt). do 3 eexists.
    split; [reflexivity|]. split; [reflexivity|lia].
  - destruct (window_tail _ Hge) as (pre & c3 & c4 & -> & Hpre).
    destruct (same_direction_total
                (map candle_direction (pre ++ [c3; c4]))) as [[|] E].
    + destruct (score_pair_reversal _ _ _ Hpre E) as (c0 & _ & ->).
      do 3 eexists. split; [reflexivity|]. split; [lia|].
      intros _. destruct (String.eqb (candle_direction c0) "CALL"); tauto.
    + rewrite (score_pair_momentum _ _ _ Hpre E).
      do 3 eexists. split; [reflexivity|]. split; [lia|].
      intros _. destruct (Qlt_bool 0 (momentum_of c3 c4)); tauto.
Qed.

(** X2 (agreement).  Every signal of [analyze_reversal] is a signal of
    [score_pair] with the same direction and price and the score 100;
    its direction is "CALL" or "PUT" and the window has four bars or
    more. *)
Theorem detectors_agree
  (candles : list CandleData) (direction : string) (price : Q) :
  Fixed.analyze_reversal candles = Ok (Some (direction, price)) ->
  Bot.score_pair candles = Ok (100%Q, direction, price)
  /\ (direction = "CALL" \/ direction = "PUT")
  /\ (4 <= length candles)%nat.
Proof.
  intros Ha.
  destruct (Nat.lt_ge_cases (length candles) 4) as [Hlt|Hge].
  - rewrite (analyze_reversal_short _ Hlt) in Ha. discriminate.
  - destruct (window_tail _ Hge) as (pre & c3 & c4 & -> & Hpre).
    destruct (same_direction_total
                (map candle_direction (pre ++ [c3; c4]))) as [[|] E].
    + destruct (score_pair_reversal _ _ _ Hpre E) as (c0 & Hh & Hs).
      destruct (analyze_reversal_pattern _ _ _ Hpre E) as (c0' & Hh' & Ha').
      rewrite Hh in Hh'. injection Hh' as <-.
      rewrite Ha' in Ha. injection Ha as <- <-.
      split; [exact Hs|]. split; [|exact Hge].
      destruct (String.eqb (candle_direction c0) "CALL"); tauto.
    + rewrite (analyze_reversal_no_pattern _ E) in Ha. discriminate.
Qed.

Lemma detectors_agree_witness :
  Bot.score_pair rising_window = Ok (100%Q, "PUT", 1.4%Q)
  /\ ("PUT" = "CALL" \/ "PUT" = "PUT")
  /\ (4 <= length rising_window)%nat.
Proof.
  apply (detectors_agree rising_window "PUT" 1.4%Q).
  reflexivity.
Defined.



(** ** Further properties: the candle getters and the pipeline *)

Lemma py_slice_last_suffix {A : Type} (n : nat) (l : list A) :
  exists skipped,
    l = skipped ++ py_slice_last n l
    /\ (n = 0%nat -> skipped = [])
    /\ ((1 <= n)%nat -> length (py_slice_last n l) = Nat.min n (length l)).
Proof.
  destruct n as [|n].
  - exists []. repeat split; [lia].
  - exists (firstn (length l - S n) l). cbn [py_slice_last].
    split; [symmetry; apply firstn_skipn|]. split; [discriminate|].
    intros _. rewrite length_skipn. lia.
Qed.

Lemma fetched_window (limit : nat) (response : ApiResponse)
  (candles : list CandleData) :
  fetched limit response = Some candles ->
  candles <> []
  /\ ((1 <= limit)%nat -> (length candles <= limit)%nat)
  /\ exists skipped kept,
      response = ApiCandles (skipped ++ kept)
      /\ candles = map to_candle kept
      /\ (limit = 0%nat -> skipped = []).
Proof.
  intros H. split.
  - intros ->. exact (fetched_nonempty _ _ H).
  - destruct response as [| |[|r raw]]; try discriminate.
    cbn [fetched] in H. injection H as <-.
    destruct (py_slice_last_suffix limit (r :: raw)) as (sk & Hl & H0 & Hn).
    split.
    + intros Hlim. rewrite length_map, (Hn Hlim). lia.
    + exists sk, (py_slice_last limit (r :: raw)).
      split; [f_equal; exact Hl|]. split; [reflexivity|exact H0].
Qed.

(** X4 (window bounds).  Neither candle getter raises or changes the
    object.  What it hands back is nothing, or the conversion of the
    last records of the client's list, in their order: never an empty
    list, at most [limit] candles when [limit] is at least 1, and the
    whole list when [limit] is 0. *)
Theorem fetch_window_bounds
  (env : Env) (pair : string) (limit : nat)
  (self : Bot.Self) (fself : Fixed.Self) (w : World) :
  (exists r w',
      Bot.get_candles_for_pair env pair limit self w = (Ok r, self, w')
      /\ clock w' = clock w
      /\ forall candles,
          r = Some candles ->
          candles <> []
          /\ ((1 <= limit)%nat -> (length candles <= limit)%nat)
          /\ exists skipped kept,
              get_candles_api env (api_calls w) pair (clock w)
                              (Z.of_nat limit * 60)
              = ApiCandles (skipped ++ kept)
              /\ candles = map to_candle kept
              /\ (limit = 0%nat -> skipped = []))
  /\
  (exists r w',
      Fixed.get_candles env pair limit fself w = (Ok r, fself, w')
      /\ clock w' = clock w
      /\ forall candles,
          r = Some candles ->
          candles <> []
          /\ ((1 <= limit)%nat -> (length candles <= limit)%nat)
          /\ exists skipped kept,
              get_candles_api env (api_calls w) pair (clock w)
                              (Z.of_nat limit * 60)
              = ApiCandles (skipped ++ kept)
              /\ candles = map to_candle kept
              /\ (limit = 0%nat -> skipped = [])).
Proof.
  split.
  - destruct (get_candles_for_pair_run env pair limit self w)
      as (n & evs & Hrun & _).
    do 2 eexists. split; [exact Hrun|]. split; [reflexivity|].
    intros candles Hr.
    destruct (Bot.has_client self); [|discriminate].
    exact (fetched_window _ _ _ Hr).
  - destruct (get_candles_run env pair limit fself w) as (evs & Hrun & _).
    do 2 eexists. split; [exact Hrun|]. split; [reflexivity|].
    intros candles Hr.
    destruct (Fixed.has_client fself); [|discriminate].
    exact (fetched_window _ _ _ Hr).
Qed.



(** X6 (labels other than CALL).  [check_trade_result] judges every
    direction other than "CALL" as it judges "PUT"; this includes the
    "NONE" label of a short window. *)
Theorem other_labels_judged_as_put
  (env : Env) (pair direction : string) (entry_timestamp : Z)
  (self : Bot.Self) (w : World) :
  direction <> "CALL" ->
  Bot.check_trade_result env pair direction entry_timestamp self w
  = Bot.check_trade_result env pair "PUT" entry_timestamp self w.
Proof.
  intros Hne. apply String.eqb_neq in Hne.
  unfold Bot.check_trade_result. rewrite Hne. reflexivity.
Qed.

Lemma other_labels_judged_as_put_witness :
  Bot.check_trade_result (steady_env 1.45 1.40 1000) "EURNZD_otc" "NONE" 1000
                         sample_bot quiet_world
  = Bot.check_trade_result (steady_env 1.45 1.40 1000) "EURNZD_otc" "PUT" 1000
                           sample_bot quiet_world.
Proof.
  apply (other_labels_judged_as_put
           (steady_env 1.45 1.40 1000) "EURNZD_otc" "NONE" 1000
           sample_bot quiet_world).
  discriminate.
Defined.

(** ** Further properties: notification *)

(** X7 (no signal is lost).  [send_telegram] never raises and never
    changes the object.  The message is delivered to the chat channel,
    or it is printed and appended to [signals.log]; the call returns
    [False] exactly when the channel is configured and the delivery
    raised. *)
Theorem send_telegram_never_loses
  (env : Env) (message : Message) (self : Bot.Self) (w : World) :
  exists (b : bool) w' evs,
    Bot.send_telegram env message self w = (Ok b, self, w')
    /\ trace w' = evs ++ trace w
    /\ clock w' = clock w
    /\ (In (EvTelegram message true) evs
        \/ (In (EvPrint message) evs /\ In (EvFile message) evs))
    /\ (b = false <->
        Bot.has_bot self = true /\ Bot.has_chat_id self = true
        /\ send_message_api env (telegram_calls w) message = false).
Proof.
  destruct self as [[|] [|] cl thr wc lc bs cs mf ims], w as [t n tn tr];
    unfold Bot.send_telegram; step.
  - destruct (send_message_api env tn message) eqn:E; step.
    + exists true. eexists.
      exists [EvLog INFO LogTelegramSent; EvTelegram message true].
      repeat split; try reflexivity; try discriminate; try congruence.
      * left. simpl. tauto.
      * intros (_ & _ & H). discriminate.
    + exists false. eexists.
      exists [EvFile message; EvPrint message; EvLog ERROR LogTelegramFailed;
              EvTelegram message false].
      repeat split; try reflexivity.
      right. simpl. tauto.
  - exists true. eexists. exists [EvFile message; EvPrint message].
    repeat split; try reflexivity; try discriminate.
    + right. simpl. tauto.
    + intros (_ & H & _). discriminate.
  - exists true. eexists. exists [EvFile message; EvPrint message].
    repeat split; try reflexivity; try discriminate.
    + right. simpl. tauto.
    + intros (H & _). discriminate.
  - exists true. eexists. exists [EvFile message; EvPrint message].
    repeat split; try reflexivity; try discriminate.
    + right. simpl. tauto.
    + intros (H & _). discriminate.
Qed.

(** ** Stories: how observations and calls compose *)

Lemma events_of_app (steps steps' : list Step) :
  events_of (steps ++ steps') = events_of steps ++ events_of steps'.
Proof. unfold events_of. apply flat_map_app. Qed.

Lemma events_of_events (evs : list Event) :
  events_of (map StepEvent evs) = evs.
Proof.
  unfold events_of. induction evs as [|e evs IH]; [reflexivity|].
  cbn [map flat_map app]. rewrite IH. reflexivity.
Qed.

Lemma attempts_app (steps steps' : list Step) :
  attempts (steps ++ steps') = attempts steps' ++ attempts steps.
Proof. unfold attempts. rewrite rev_app_distr. apply flat_map_app. Qed.

Lemma attempts_events (evs : list Event) : attempts (map StepEvent evs) = [].
Proof.
  unfold attempts. rewrite <- map_rev.
  induction (rev evs) as [|e l IH]; [reflexivity|exact IH].
Qed.

Lemma pauses_app (steps steps' : list Step) :
  pauses (steps ++ steps') = pauses steps' ++ pauses steps.
Proof.
  unfold pauses, waits. rewrite events_of_app. apply chronicle_app.
Qed.

Lemma pauses_events (evs : list Event) :
  pauses (map StepEvent evs) = waits evs.
Proof. unfold pauses. rewrite events_of_events. reflexivity. Qed.

Lemma total_app (xs ys : list Z) :
  total (xs ++ ys) = (total xs + total ys)%Z.
Proof.
  unfold total. induction xs as [|x xs IH]; cbn [app fold_right]; lia.
Qed.

(** A call adds to the story the events it adds to the trace. *)
Lemma call_run {Self A : Type} (m : M Self A) (self self' : Self)
  (st : Stage) (r : exn A) (w' : World) (evs : list Event) :
  m self (world st) = (r, self', w') ->
  trace w' = evs ++ trace (world st) ->
  call m self st
  = (r, self',
     mkStage w' (connect_calls st) (check_calls st) (text_calls st)
             (map StepEvent evs ++ story st)).
Proof.
  intros Hrun Htr. unfold call, added_events. rewrite Hrun, Htr.
  rewrite length_app.
  replace (length evs + length (trace (world st)) - length (trace (world st)))%nat
    with (length evs + 0)%nat by lia.
  rewrite firstn_app_2. cbn [firstn]. rewrite app_nil_r. reflexivity.
Qed.

Lemma call_sleep {Self : Type} (seconds : Z) (self : Self) (st : Stage) :
  call (sleep seconds) self st
  = (Ok tt, self,
     mkStage (mkWorld (clock (world st) + seconds) (api_calls (world st))
                      (telegram_calls (world st))
                      (EvSleep seconds :: trace (world st)))
             (connect_calls st) (check_calls st) (text_calls st)
             (StepEvent (EvSleep seconds) :: story st)).
Proof. apply (call_run _ _ _ _ _ _ [EvSleep seconds]); reflexivity. Qed.

Lemma call_now {Self : Type} (self : Self) (st : Stage) :
  call now self st
  = (Ok (clock (world st)), self,
     mkStage (world st) (connect_calls st) (check_calls st) (text_calls st)
             (story st)).
Proof. apply (call_run _ _ _ _ _ _ []); reflexivity. Qed.

(** Unfolding of the primitives of the loops. *)
Ltac rstep :=
  cbv beta iota zeta delta
    [r_bind r_ret r_get_self r_update_self tell run_log quotex_connect
     client_check_connect bot_send_text try_except
     world connect_calls check_calls text_calls story
     BotRun.set_has_client BotRun.log_signal_text FixedRun.set_has_client
     Bot.has_bot Bot.has_chat_id Bot.has_client Bot.win_count Bot.loss_count
     Bot.base_stake Bot.current_stake Bot.martingale_factor
     Bot.in_martingale_sequence Bot.min_volatility_threshold
     Fixed.has_bot Fixed.has_chat_id Fixed.has_client
     clock api_calls telegram_calls trace];
  cbn [negb orb andb].

(** Splitting a story into the new steps and the old story. *)
Ltac new_steps :=
  match goal with
  | |- exists steps, (_, _, mkStage _ _ _ _ ?s) = _ /\ _ = _ ++ ?old /\ _ =>
      match s with
      | context C [old] => let pre := context C [@nil Step] in exists pre
      end
  end;
  split; [reflexivity|];
  split; [cbn [story app]; repeat (rewrite <- app_assoc; cbn [app]);
          reflexivity|].

(** ** Further properties: the connection supervisor *)

(** Every run of [init_quotex] returns, after one, two or three
    attempts: it stops at the first attempt that connects, waits 5
    seconds after a first failure and 10 after a second, and does not
    wait after the third.  The object changes in one place only: it
    holds a client as soon as one attempt got past the constructor. *)
Lemma init_quotex_cases (broker : Broker) (self : Bot.Self) (st : Stage) :
  let o0 := connect_api broker (connect_calls st) in
  let o1 := connect_api broker (S (connect_calls st)) in
  let o2 := connect_api broker (S (S (connect_calls st))) in
  exists (b : bool) st' steps,
    BotRun.init_quotex broker self st
    = (Ok b,
       BotRun.set_has_client
         (Bot.has_client self || existsb has_client_object (attempts steps))
         self,
       st')
    /\ story st' = steps ++ story st
    /\ clock (world st') = (clock (world st) + total (pauses steps))%Z
    /\ api_calls (world st') = api_calls (world st)
    /\ telegram_calls (world st') = telegram_calls (world st)
    /\ events_of steps = map EvSleep (rev (pauses steps))
    /\ checks steps = []
    /\ analyzed (journal steps) = []
    /\ caught (journal steps) = []
    /\ text_calls st' = text_calls st
    /\ ((is_connected o0 = true /\ b = true
         /\ attempts steps = [o0] /\ pauses steps = [])
        \/ (is_connected o0 = false /\ is_connected o1 = true /\ b = true
            /\ attempts steps = [o0; o1] /\ pauses steps = [5%Z])
        \/ (is_connected o0 = false /\ is_connected o1 = false
            /\ is_connected o2 = true /\ b = true
            /\ attempts steps = [o0; o1; o2] /\ pauses steps = [5%Z; 10%Z])
        \/ (is_connected o0 = false /\ is_connected o1 = false
            /\ is_connected o2 = false /\ b = false
            /\ attempts steps = [o0; o1; o2] /\ pauses steps = [5%Z; 10%Z])).
Proof.
  destruct self as [hb hc cl thr wc lc bs cs mf ims].
  destruct st as [[t n tn tr] k ck xk sto].
  cbv zeta. cbn [connect_calls].
  unfold BotRun.init_quotex. cbn [seq BotRun.init_quotex_loop].
  rstep.
  destruct (connect_api broker k) eqn:E0; rstep;
    cbn [Nat.ltb Nat.leb Nat.sub]; rstep; rewrite ?call_sleep; rstep.
  all: try (destruct (connect_api broker (S k)) eqn:E1; rstep;
            cbn [Nat.ltb Nat.leb Nat.sub]; rstep; rewrite ?call_sleep; rstep).
  all: try (destruct (connect_api broker (S (S k))) eqn:E2; rstep;
            cbn [Nat.ltb Nat.leb Nat.sub]; rstep; rewrite ?call_sleep; rstep).
  all: destruct cl.
  all: eexists; eexists; new_steps.
  all: split; [cbn; lia|].
  all: split; [reflexivity|].
  all: split; [reflexivity|].
  all: split; [reflexivity|].
  all: split; [reflexivity|].
  all: split; [reflexivity|].
  all: split; [reflexivity|].
  all: split; [reflexivity|].
  all: cbn [is_connected].
  all: first [ left; repeat split; reflexivity
             | right; left; repeat split; reflexivity
             | right; right; left; repeat split; reflexivity
             | right; right; right; repeat split; reflexivity ].
Qed.

(** X8 (bounded retries, exponential backoff).  [init_quotex] never
    raises.  It makes one, two or three connection attempts and stops at
    the first one that connects; it waits 5 seconds after a first failed
    attempt and 10 seconds after a second, and does not wait after the
    third; it returns [True] exactly when its last attempt connected. *)
Theorem init_quotex_backoff (broker : Broker) (self : Bot.Self) (st : Stage) :
  let o0 := connect_api broker (connect_calls st) in
  let o1 := connect_api broker (S (connect_calls st)) in
  let o2 := connect_api broker (S (S (connect_calls st))) in
  exists (b : bool) self' st' steps,
    BotRun.init_quotex broker self st = (Ok b, self', st')
    /\ story st' = steps ++ story st
    /\ clock (world st') = (clock (world st) + total (pauses steps))%Z
    /\ ((is_connected o0 = true /\ b = true
         /\ attempts steps = [o0] /\ pauses steps = [])
        \/ (is_connected o0 = false /\ is_connected o1 = true /\ b = true
            /\ attempts steps = [o0; o1] /\ pauses steps = [5%Z])
        \/ (is_connected o0 = false /\ is_connected o1 = false
            /\ is_connected o2 = true /\ b = true
            /\ attempts steps = [o0; o1; o2] /\ pauses steps = [5%Z; 10%Z])
        \/ (is_connected o0 = false /\ is_connected o1 = false
            /\ is_connected o2 = false /\ b = false
            /\ attempts steps = [o0; o1; o2] /\ pauses steps = [5%Z; 10%Z])).
Proof.
  cbv zeta.
  pose proof (init_quotex_cases broker self st) as H. cbv zeta in H.
  destruct H as (b & st' & steps & Hrun & Hst & Hclock & _ & _ & _ & _ & _
                 & _ & _ & Hcases).
  exists b. eexists. exists st', steps.
  split; [exact Hrun|]. split; [exact Hst|]. split; [exact Hclock|].
  exact Hcases.
Qed.

(** X9 (client object).  [init_quotex] changes the object in one place
    only: afterwards it holds a client if it held one before or if one
    of the attempts got past the constructor, whether or not that
    attempt connected; the tally and the stakes are untouched. *)
Theorem init_quotex_client (broker : Broker) (self : Bot.Self) (st : Stage) :
  exists (b : bool) self' st' steps,
    BotRun.init_quotex broker self st = (Ok b, self', st')
    /\ story st' = steps ++ story st
    /\ self' = BotRun.set_has_client (Bot.has_client self') self
    /\ Bot.has_client self'
       = (Bot.has_client self || existsb has_client_object (attempts steps))%bool
    /\ (forall reason,
           connect_api broker (connect_calls st) = Refused reason ->
           Bot.has_client self' = true).
Proof.
  pose proof (init_quotex_cases broker self st) as H. cbv zeta in H.
  destruct H as (b & st' & steps & Hrun & Hst & _ & _ & _ & _ & _ & _ & _
                 & _ & Hcases).
  exists b. eexists. exists st', steps.
  split; [exact Hrun|]. split; [exact Hst|].
  split; [destruct self; reflexivity|]. split; [destruct self; reflexivity|].
  intros reason Hr. destruct self as [hb hc cl thr wc lc bs cs mf ims].
  cbn [BotRun.set_has_client Bot.has_client].
  rewrite Hr in Hcases. cbn [is_connected] in Hcases.
  destruct Hcases as [(H0 & _)|[(_ & _ & _ & Ha & _)
                               |[(_ & _ & _ & _ & Ha & _)
                                |(_ & _ & _ & _ & Ha & _)]]];
    [discriminate| | |]; rewrite Ha; cbn [existsb has_client_object];
    apply orb_true_r.
Qed.

(** ** Stories: observations step by step *)

Lemma events_of_cons (s : Step) (steps : list Step) :
  events_of (s :: steps)
  = match s with StepEvent e => [e] | _ => [] end ++ events_of steps.
Proof. reflexivity. Qed.

Lemma attempts_cons (s : Step) (steps : list Step) :
  attempts (s :: steps)
  = attempts steps ++ match s with StepConnect o => [o] | _ => [] end.
Proof.
  unfold attempts. cbn [rev]. rewrite flat_map_app. cbn [flat_map].
  rewrite app_nil_r. reflexivity.
Qed.

Lemma checks_app (steps steps' : list Step) :
  checks (steps ++ steps') = checks steps' ++ checks steps.
Proof. unfold checks. rewrite rev_app_distr. apply flat_map_app. Qed.

Lemma checks_cons (s : Step) (steps : list Step) :
  checks (s :: steps)
  = checks steps ++ match s with StepCheckConnect o => [o] | _ => [] end.
Proof.
  unfold checks. cbn [rev]. rewrite flat_map_app. cbn [flat_map].
  rewrite app_nil_r. reflexivity.
Qed.

Lemma checks_events (evs : list Event) : checks (map StepEvent evs) = [].
Proof.
  unfold checks. rewrite <- map_rev.
  induction (rev evs) as [|e l IH]; [reflexivity|exact IH].
Qed.

Lemma journal_app (steps steps' : list Step) :
  journal (steps ++ steps') = journal steps' ++ journal steps.
Proof. unfold journal. rewrite rev_app_distr. apply flat_map_app. Qed.

Lemma journal_cons (s : Step) (steps : list Step) :
  journal (s :: steps)
  = journal steps ++ match s with StepLog _ line => [line] | _ => [] end.
Proof.
  unfold journal. cbn [rev]. rewrite flat_map_app. cbn [flat_map].
  rewrite app_nil_r. reflexivity.
Qed.

Lemma journal_events (evs : list Event) : journal (map StepEvent evs) = [].
Proof.
  unfold journal. rewrite <- map_rev.
  induction (rev evs) as [|e l IH]; [reflexivity|exact IH].
Qed.

Lemma attempts_nil : attempts [] = [].
Proof. reflexivity. Qed.

Lemma checks_nil : checks [] = [].
Proof. reflexivity. Qed.

Lemma journal_nil : journal [] = [].
Proof. reflexivity. Qed.

Lemma events_of_nil : events_of [] = [].
Proof. reflexivity. Qed.

Ltac observe_all :=
  repeat match goal with
         | H : silent _ |- _ => destruct H as (? & ? & ? & ?)
         end;
  unfold silent, waits, fetches, phases, entry_stakes, mtg_stakes, outcomes,
    verdicts, notices, filed in *;
  repeat first [ rewrite chronicle_app | rewrite chronicle_cons
               | rewrite chronicle_nil ];
  repeat match goal with
         | H : chronicle _ _ = _ |- _ => rewrite H
         end;
  rewrite ?app_nil_r;
  cbn [app length].

(** Normal form of the observations of a story built from single steps
    and from the events of calls. *)
Ltac observe_story :=
  unfold pauses in *;
  repeat first
    [ rewrite events_of_app | rewrite events_of_cons
    | rewrite events_of_events | rewrite events_of_nil
    | rewrite attempts_app | rewrite attempts_cons
    | rewrite attempts_events | rewrite attempts_nil
    | rewrite checks_app | rewrite checks_cons
    | rewrite checks_events | rewrite checks_nil
    | rewrite journal_app | rewrite journal_cons
    | rewrite journal_events | rewrite journal_nil ];
  repeat match goal with
         | H : events_of _ = _ |- _ => rewrite H
         | H : attempts _ = _ |- _ => rewrite H
         | H : checks _ = _ |- _ => rewrite H
         | H : journal _ = _ |- _ => rewrite H
         end;
  rewrite ?app_nil_r; cbn [app];
  observe_all.

(** ** Further properties: the connection supervisor, continued *)

(** What the connection attempts of [init_quotex] leave in the story. *)
Lemma init_quotex_summary (broker : Broker) (self : Bot.Self) (st : Stage) :
  exists (b : bool) self' st' steps,
    BotRun.init_quotex broker self st = (Ok b, self', st')
    /\ story st' = steps ++ story st
    /\ self' = BotRun.set_has_client (Bot.has_client self') self
    /\ (Bot.has_client self = true -> Bot.has_client self' = true)
    /\ clock (world st') = (clock (world st) + total (pauses steps))%Z
    /\ api_calls (world st') = api_calls (world st)
    /\ telegram_calls (world st') = telegram_calls (world st)
    /\ events_of steps = map EvSleep (rev (pauses steps))
    /\ (0 <= total (pauses steps) <= 15)%Z
    /\ checks steps = []
    /\ analyzed (journal steps) = []
    /\ caught (journal steps) = []
    /\ text_calls st' = text_calls st
    /\ (1 <= length (attempts steps) <= 3)%nat
    /\ b = existsb is_connected (attempts steps)
    /\ (b = false -> pauses steps = [5%Z; 10%Z]).
Proof.
  pose proof (init_quotex_cases broker self st) as H. cbv zeta in H.
  destruct H as (b & st' & steps & Hrun & Hst & Hclock & Hapi & Htg & Hev
                 & Hchk & Han & Hca & Hxk & Hcases).
  exists b. eexists. exists st', steps.
  split; [exact Hrun|]. split; [exact Hst|].
  split; [destruct self; reflexivity|].
  split; [destruct self; cbn; intros ->; reflexivity|].
  split; [exact Hclock|]. split; [exact Hapi|]. split; [exact Htg|].
  split; [exact Hev|].
  assert (Hsum : (0 <= total (pauses steps) <= 15)%Z
                 /\ (1 <= length (attempts steps) <= 3)%nat
                 /\ b = existsb is_connected (attempts steps)
                 /\ (b = false -> pauses steps = [5%Z; 10%Z])).
  { destruct Hcases as [(H0 & -> & -> & ->)
                       |[(H0 & H1 & -> & -> & ->)
                        |[(H0 & H1 & H2 & -> & -> & ->)
                         |(H0 & H1 & H2 & -> & -> & ->)]]];
      cbn [existsb length total fold_right]; rewrite ?H0, ?H1, ?H2;
      cbn [orb]; repeat split; try lia; try reflexivity; discriminate. }
  destruct Hsum as (Htot & Hlen & Hb & Hp).
  repeat split; first [exact Hchk | exact Han | exact Hca | exact Hxk
                      | exact Hb | exact Hp | lia].
Qed.

Lemma analyzed_app (lines lines' : list RunLog) :
  analyzed (lines ++ lines') = analyzed lines ++ analyzed lines'.
Proof. apply flat_map_app. Qed.

Lemma caught_app (lines lines' : list RunLog) :
  caught (lines ++ lines') = caught lines ++ caught lines'.
Proof. apply List.filter_app. Qed.

Lemma reconnection_journal (lines : list RunLog) (ok : bool) :
  analyzed lines = [] ->
  caught lines = [] ->
  let all := LogConnectionLost
               :: lines ++ [if ok then LogReconnected else LogReconnectFailed] in
  analyzed all = [] /\ caught all = [].
Proof.
  intros Han Hca. cbv zeta.
  change (LogConnectionLost :: ?l) with ([LogConnectionLost] ++ l).
  rewrite !analyzed_app, !caught_app, Han, Hca. destruct ok; split; reflexivity.
Qed.

(** The observations of a reconnection: the warning, the steps of
    [init_quotex], and the verdict. *)
Lemma reconnection_story (steps pre : list Step) (lvl : RunLevel)
  (line : RunLog) :
  pre = [] \/ pre = [StepCheckConnect (Checked false)] ->
  checks steps = [] ->
  let all := StepLog lvl line
               :: steps ++ StepLog RWarning LogConnectionLost :: pre in
  pauses all = pauses steps
  /\ events_of all = events_of steps
  /\ attempts all = attempts steps
  /\ checks all = checks pre
  /\ journal all = LogConnectionLost :: journal steps ++ [line].
Proof.
  intros Hpre Hchk. cbv zeta. unfold pauses.
  rewrite events_of_cons, events_of_app, attempts_cons, attempts_app,
    checks_cons, checks_app, journal_cons, journal_app, Hchk.
  destruct Hpre as [->| ->]; cbn [events_of attempts checks journal rev
                                  flat_map app];
    rewrite ?app_nil_r; repeat split; reflexivity.
Qed.

Ltac step_init :=
  match goal with
  | |- context [BotRun.init_quotex ?br ?s ?st] =>
      let b := fresh "b" in
      let self' := fresh "self'" in
      let st' := fresh "st'" in
      let steps := fresh "steps" in
      let Hrun := fresh "Hrun" in
      destruct (init_quotex_summary br s st)
        as (b & self' & st' & steps & Hrun & ? & ? & ? & ? & ? & ? & ? & ?
            & ? & ? & ? & ? & ? & ? & ?);
      rewrite Hrun; clear Hrun; rstep
  end.

Ltac finish_lost pre :=
  match goal with
  | Hst : story ?st' = ?steps ++ _, Hchk : checks ?steps = [],
    Han : analyzed (journal ?steps) = [], Hca : caught (journal ?steps) = [],
    Hb : ?b = existsb is_connected (attempts ?steps) |- _ =>
      destruct st' as [w' k' ck' xk' sto'];
      cbn [story world clock api_calls telegram_calls text_calls
           Bot.has_client] in *;
      subst sto';
      let Hs := fresh "Hs" in
      assert (Hs : forall lvl line,
                 let all := StepLog lvl line
                              :: steps ++ StepLog RWarning LogConnectionLost
                              :: pre in
                 pauses all = pauses steps
                 /\ events_of all = events_of steps
                 /\ attempts all = attempts steps
                 /\ checks all = checks pre
                 /\ journal all = LogConnectionLost :: journal steps ++ [line])
        by (intros lvl line; apply reconnection_story;
            [first [left; reflexivity|right; reflexivity]|exact Hchk]);
      cbv zeta in Hs;
      destruct b; do 2 eexists;
      [ exists (StepLog RInfo LogReconnected
                  :: steps ++ StepLog RWarning LogConnectionLost :: pre);
        destruct (Hs RInfo LogReconnected) as (-> & -> & -> & -> & ->);
        destruct (reconnection_journal (journal steps) true Han Hca)
          as (-> & ->)
      | exists (StepLog RError LogReconnectFailed
                  :: steps ++ StepLog RWarning LogConnectionLost :: pre);
        destruct (Hs RError LogReconnectFailed) as (-> & -> & -> & -> & ->);
        destruct (reconnection_journal (journal steps) false Han Hca)
          as (-> & ->) ];
      (split; [reflexivity|]);
      (split; [cbn [story app]; rewrite <- app_assoc; reflexivity|]);
      rewrite <- Hb;
      cbn [world clock api_calls telegram_calls text_calls];
      (repeat split; try assumption; try tauto; try lia; try discriminate);
      right; right;
      (split; [|split; [reflexivity|split; [lia|exists (journal steps);
                                                reflexivity]]])
  end.

(** Every run of [reconnect_if_needed] returns.  With a client whose
    check reports a live connection, or raises, no connection attempt is
    made; without a client, or when the check reports a lost
    connection, [init_quotex] runs once. *)
Lemma reconnect_if_needed_cases
  (broker : Broker) (self : Bot.Self) (st : Stage) :
  exists self' st' steps,
    BotRun.reconnect_if_needed broker self st = (Ok tt, self', st')
    /\ story st' = steps ++ story st
    /\ self' = BotRun.set_has_client (Bot.has_client self') self
    /\ (Bot.has_client self = true -> Bot.has_client self' = true)
    /\ clock (world st') = (clock (world st) + total (pauses steps))%Z
    /\ api_calls (world st') = api_calls (world st)
    /\ telegram_calls (world st') = telegram_calls (world st)
    /\ events_of steps = map EvSleep (rev (pauses steps))
    /\ (0 <= total (pauses steps) <= 15)%Z
    /\ analyzed (journal steps) = []
    /\ caught (journal steps) = []
    /\ text_calls st' = text_calls st
    /\ ((Bot.has_client self = true
         /\ check_connect_api broker (check_calls st) = Checked true
         /\ self' = self
         /\ steps = [StepCheckConnect (Checked true)])
        \/ (Bot.has_client self = true
            /\ check_connect_api broker (check_calls st) = CheckRaises
            /\ self' = self
            /\ steps = [StepLog RError LogReconnectError;
                        StepCheckConnect CheckRaises])
        \/ ((Bot.has_client self = false
             \/ check_connect_api broker (check_calls st) = Checked false)
            /\ checks steps
               = (if Bot.has_client self then [Checked false] else [])
            /\ (1 <= length (attempts steps) <= 3)%nat
            /\ exists lines,
                journal steps
                = LogConnectionLost :: lines
                  ++ [if existsb is_connected (attempts steps)
                      then LogReconnected else LogReconnectFailed])).
Proof.
  destruct self as [hb hc cl thr wc lc bs cs mf ims].
  destruct st as [[t n tn tr] k ck xk sto].
  unfold BotRun.reconnect_if_needed. rstep.
  destruct cl; rstep.
  - destruct (check_connect_api broker ck) as [|[|]] eqn:Ec; rstep.
    + exists (Bot.mkSelf hb hc true thr wc lc bs cs mf ims). eexists.
      exists [StepLog RError LogReconnectError; StepCheckConnect CheckRaises].
      split; [reflexivity|]. split; [reflexivity|].
      repeat split; try reflexivity; try (cbn; lia).
      right; left. repeat split; reflexivity.
    + exists (Bot.mkSelf hb hc true thr wc lc bs cs mf ims). eexists.
      exists [StepCheckConnect (Checked true)].
      split; [reflexivity|]. split; [reflexivity|].
      repeat split; try reflexivity; try (cbn; lia).
      left. repeat split; reflexivity.
    + step_init.
      finish_lost [StepCheckConnect (Checked false)]; right; reflexivity.
  - step_init. finish_lost (@nil Step); left; reflexivity.
Qed.

(** ** Calls of the methods, with what reaches the user *)

Lemma get_candles_for_pair_frame
  (env : Env) (pair : string) (limit : nat) (self : Bot.Self) (w : World) :
  exists evs,
    Bot.get_candles_for_pair env pair limit self w
    = (Ok (if Bot.has_client self
           then fetched limit
                  (get_candles_api env (api_calls w) pair (clock w)
                                   (Z.of_nat limit * 60))
           else None),
       self,
       mkWorld (clock w)
               (if Bot.has_client self then S (api_calls w) else api_calls w)
               (telegram_calls w) (evs ++ trace w))
    /\ silent evs /\ mtg_stakes evs = []
    /\ (forall d, verdicts d evs = [])
    /\ notices evs = [] /\ filed evs = []
    /\ fetches evs = (if Bot.has_client self then [pair] else []).
Proof.
  destruct self as [hb hc [|] thr wc lc bs cs mf ims], w as [t n tn tr];
    unfold Bot.get_candles_for_pair; step.
  - destruct (get_candles_api env n pair t (Z.of_nat limit * 60))
      as [| |[|r raw]]; step; cbn [fetched].
    + exists [EvLog ERROR (LogFetchError pair);
              EvGetCandles pair t (Z.of_nat limit * 60)%Z 60].
      repeat split; reflexivity.
    + exists [EvGetCandles pair t (Z.of_nat limit * 60)%Z 60].
      repeat split; reflexivity.
    + exists [EvGetCandles pair t (Z.of_nat limit * 60)%Z 60].
      repeat split; reflexivity.
    + exists [EvGetCandles pair t (Z.of_nat limit * 60)%Z 60].
      repeat split; reflexivity.
  - exists []. repeat split; reflexivity.
Qed.

Lemma check_trade_result_frame
  (env : Env) (pair direction : string) (entry_timestamp : Z)
  (self : Bot.Self) (w : World) :
  exists (v : bool) n evs,
    Bot.check_trade_result env pair direction entry_timestamp self w
    = (Ok (if v then "WIN" else "LOSS"), self,
       mkWorld (clock w) n (telegram_calls w) (evs ++ trace w))
    /\ silent evs /\ notices evs = [] /\ filed evs = []
    /\ (length (fetches evs) <= 1)%nat.
Proof.
  destruct (get_candles_for_pair_frame env pair 2 self w)
    as (evs & Hget & Hsilent & _ & _ & Hn & Hf & Hfetch).
  assert (Hlen : (length (fetches evs) <= 1)%nat)
    by (rewrite Hfetch; destruct (Bot.has_client self); cbn; lia).
  clear Hfetch.
  destruct (if Bot.has_client self
            then fetched 2 (get_candles_api env (api_calls w) pair (clock w)
                                            (Z.of_nat 2 * 60))
            else None) as [[|c0 cs]|] eqn:E.
  - rewrite (check_trade_result_no_candles _ _ direction entry_timestamp
               _ _ _ _ _ Hget (or_intror eq_refl)).
    exists false. eexists. exists (EvLog ERROR (LogFailedCandles pair) :: evs).
    split; [reflexivity|]. observe_all.
    repeat split; first [reflexivity|assumption].
  - destruct (check_trade_result_on_candles _ _ direction entry_timestamp
                _ _ _ _ _ Hget) as (c & _ & ->); [discriminate|].
    exists (wins direction (open c) (close c)). eexists.
    exists (EvLog INFO (LogCandle (open c) (close c)) :: evs).
    split; [reflexivity|]. observe_all.
    repeat split; first [reflexivity|assumption].
  - rewrite (check_trade_result_no_candles _ _ direction entry_timestamp
               _ _ _ _ _ Hget (or_introl eq_refl)).
    exists false. eexists. exists (EvLog ERROR (LogFailedCandles pair) :: evs).
    split; [reflexivity|]. observe_all.
    repeat split; first [reflexivity|assumption].
Qed.

(** Every message handed to [send_telegram] reaches the user once. *)
Lemma send_telegram_frame
  (env : Env) (message : Message) (self : Bot.Self) (w : World) :
  let configured := (Bot.has_bot self && Bot.has_chat_id self)%bool in
  let delivered :=
    (configured && send_message_api env (telegram_calls w) message)%bool in
  exists evs,
    Bot.send_telegram env message self w
    = (Ok (negb configured || delivered)%bool, self,
       mkWorld (clock w) (api_calls w)
               (if configured then S (telegram_calls w) else telegram_calls w)
               (evs ++ trace w))
    /\ waits evs = [] /\ fetches evs = []
    /\ match message with
       | SequenceLog _ _ _ => True
       | _ => outcomes evs = []
       end
    /\ notices evs = [message]
    /\ filed evs = (if delivered then [] else [message]).
Proof.
  destruct self as [[|] [|] cl thr wc lc bs cs mf ims], w as [t n tn tr];
    unfold Bot.send_telegram; step; cbv zeta; cbn [Bot.has_bot Bot.has_chat_id
      andb orb negb telegram_calls clock api_calls trace].
  - destruct (send_message_api env tn message) eqn:E; step.
    + exists [EvLog INFO LogTelegramSent; EvTelegram message true].
      repeat split; try reflexivity; destruct message; try reflexivity; exact I.
    + exists [EvFile message; EvPrint message; EvLog ERROR LogTelegramFailed;
              EvTelegram message false].
      repeat split; try reflexivity; destruct message; try reflexivity; exact I.
  - exists [EvFile message; EvPrint message].
    repeat split; try reflexivity; destruct message; try reflexivity; exact I.
  - exists [EvFile message; EvPrint message].
    repeat split; try reflexivity; destruct message; try reflexivity; exact I.
  - exists [EvFile message; EvPrint message].
    repeat split; try reflexivity; destruct message; try reflexivity; exact I.
Qed.

(** Every call of [analyze_single_pair] returns; it leaves the object
    as it is, takes no time and tells the user nothing. *)
Lemma analyze_single_pair_frame
  (env : Env) (pair : string) (self : Bot.Self) (w : World) :
  exists r evs,
    Bot.analyze_single_pair env pair self w
    = (Ok r, self,
       mkWorld (clock w)
               (if Bot.has_client self then S (api_calls w) else api_calls w)
               (telegram_calls w) (evs ++ trace w))
    /\ silent evs /\ notices evs = [] /\ filed evs = []
    /\ fetches evs = (if Bot.has_client self then [pair] else [])
    /\ (forall name direction score price,
           r = Some (name, direction, score, price) ->
           name = pair
           /\ exists candles,
               candles <> []
               /\ Bot.score_pair candles = Ok (score, direction, price)).
Proof.
  destruct (get_candles_for_pair_frame env pair 4 self w)
    as (evs & Hget & Hsilent & _ & _ & Hn & Hf & Hfetch).
  pose proof Hsilent as (? & ? & ? & ?).
  unfold Bot.analyze_single_pair. unfold m_bind at 1. rewrite Hget.
  destruct (if Bot.has_client self
            then fetched 4 (get_candles_api env (api_calls w) pair (clock w)
                                            (Z.of_nat 4 * 60))
            else None) as [[|c cs]|].
  - exists None, evs. split; [reflexivity|].
    repeat split; try assumption; intros; discriminate.
  - destruct (score_pair_total (c :: cs)) as ([[score direction] price] & Hs).
    rewrite Hs.
    cbv beta iota zeta delta [m_bind m_ret lift_exn get_self].
    cbn [py_div_len length].
    destruct (Qlt_bool _ _).
    + exists None, evs. split; [reflexivity|].
      repeat split; try assumption; intros; discriminate.
    + exists (Some (pair, direction, score, price)), evs.
      split; [reflexivity|].
      repeat split; try assumption.
      * congruence.
      * exists (c :: cs). split; [discriminate|]. congruence.
  - exists None, evs. split; [reflexivity|].
    repeat split; try assumption; intros; discriminate.
Qed.

Ltac step_check_frame :=
  match goal with
  | |- context [Bot.check_trade_result ?e ?p ?d ?t ?s ?w] =>
      let v := fresh "v" in
      let n := fresh "n" in
      let evs := fresh "evs" in
      let Hrun := fresh "Hrun" in
      destruct (check_trade_result_frame e p d t s w)
        as (v & n & evs & Hrun & ? & ? & ? & ?);
      rewrite Hrun; clear Hrun; destruct v;
      cbn [String.eqb Ascii.eqb Bool.eqb]; step
  end.

Ltac step_send_frame :=
  match goal with
  | |- context [Bot.send_telegram ?e ?m ?s ?w] =>
      let evs := fresh "evs" in
      let Hrun := fresh "Hrun" in
      pose proof (send_telegram_frame e m s w) as Hrun;
      cbv zeta in Hrun;
      destruct Hrun as (evs & Hrun & ? & ? & ? & ? & ?);
      rewrite Hrun; clear Hrun; step
  end.

(** Every run of [evaluate_signal_result] returns, with the tally one
    higher and the stake state at rest; the result message carries the
    tally as updated. *)
Lemma evaluate_signal_result_frame
  (env : Env) (pair direction : string) (self : Bot.Self) (w : World) :
  exists self' w' evs,
    Bot.evaluate_signal_result env pair direction self w = (Ok tt, self', w')
    /\ trace w' = evs ++ trace w
    /\ clock w' = (clock w + total (waits evs))%Z
    /\ same_settings self self'
    /\ rested self'
    /\ (Bot.win_count self <= Bot.win_count self')%Z
    /\ (Bot.loss_count self <= Bot.loss_count self')%Z
    /\ tally self' = (tally self + 1)%Z
    /\ outcomes evs <> [] /\ (length (outcomes evs) <= 1)%nat
    /\ (length (fetches evs) <= length (waits evs))%nat
    /\ exists banner,
        let result :=
          ResultMessage banner (Bot.win_count self') (Bot.loss_count self') in
        ((banner = LossBanner
          /\ Bot.win_count self' = Bot.win_count self
          /\ Bot.loss_count self' = (Bot.loss_count self + 1)%Z)
         \/ (banner <> LossBanner
             /\ Bot.win_count self' = (Bot.win_count self + 1)%Z
             /\ Bot.loss_count self' = Bot.loss_count self))
        /\ ((waits evs = [65%Z] /\ banner = Sureshot
             /\ notices evs = [result])
            \/ (waits evs = [65%Z; 65%Z] /\ banner <> Sureshot
                /\ notices evs
                   = [MtgMessage pair direction (next_minute (clock w + 65))
                                 (fmul (Bot.base_stake self)
                                       (Bot.martingale_factor self));
                      result])).
Proof.
  destruct self as [hb hc cl thr wc lc bs cs mf ims], w as [t n tn tr].
  unfold Bot.evaluate_signal_result. step.
  step_check_frame.
  - step_send_frame. do 2 eexists. new_events.
    unfold same_settings, rested, tally.
    cbn [clock Bot.has_bot Bot.has_chat_id Bot.has_client Bot.win_count
         Bot.loss_count Bot.base_stake Bot.current_stake Bot.martingale_factor
         Bot.in_martingale_sequence Bot.min_volatility_threshold].
    observe_all. cbn [total fold_right].
    repeat split; try reflexivity; try lia; try discriminate.
    exists Sureshot. split; [right; repeat split; try reflexivity; discriminate|].
    left. repeat split; reflexivity.
  - step_send_frame. step_check_frame.
    + step_send_frame. do 2 eexists. new_events.
      unfold same_settings, rested, tally.
      cbn [clock Bot.has_bot Bot.has_chat_id Bot.has_client Bot.win_count
           Bot.loss_count Bot.base_stake Bot.current_stake
           Bot.martingale_factor Bot.in_martingale_sequence
           Bot.min_volatility_threshold].
      observe_all. cbn [total fold_right]. rewrite ?length_app. cbn [length].
      repeat split; try reflexivity; try lia; try discriminate.
      exists MtgWinBanner.
      split; [right; repeat split; try reflexivity; discriminate|].
      right. repeat split; try reflexivity; discriminate.
    + step_send_frame. do 2 eexists. new_events.
      unfold same_settings, rested, tally.
      cbn [clock Bot.has_bot Bot.has_chat_id Bot.has_client Bot.win_count
           Bot.loss_count Bot.base_stake Bot.current_stake
           Bot.martingale_factor Bot.in_martingale_sequence
           Bot.min_volatility_threshold].
      observe_all. cbn [total fold_right]. rewrite ?length_app. cbn [length].
      repeat split; try reflexivity; try lia; try discriminate.
      exists LossBanner. split; [left; repeat split; reflexivity|].
      right. repeat split; try reflexivity; discriminate.
Qed.

(** ** Further properties: the scan loop *)

Lemma call_format_message (pair direction : string) (price : Q)
  (self : Bot.Self) (st : Stage) :
  call (Bot.format_message pair direction price) self st
  = (Ok (SignalMessage pair direction (next_minute (clock (world st))) price),
     self,
     mkStage (world st) (connect_calls st) (check_calls st) (text_calls st)
             (story st)).
Proof. apply (call_run _ _ _ _ _ _ []); reflexivity. Qed.

Ltac lift_call Hrun evs :=
  match goal with
  | |- context [call ?m ?s ?st] =>
      rewrite (call_run m s _ st _ _ evs Hrun eq_refl)
  end.

(** Every run of the body of the pair loop returns, and is of one of
    three kinds: no signal; a signal that [send_telegram] reports as
    sent, followed by its evaluation; a signal whose delivery failed,
    which is not evaluated. *)
Lemma run_pair_cases
  (env : Env) (pair : string) (self : Bot.Self) (st : Stage) :
  exists self' st' steps,
    BotRun.run_pair env pair self st = (Ok tt, self', st')
    /\ story st' = steps ++ story st
    /\ connect_calls st' = connect_calls st
    /\ check_calls st' = check_calls st
    /\ text_calls st' = text_calls st
    /\ clock (world st') = (clock (world st) + total (pauses steps))%Z
    /\ same_settings self self'
    /\ (rested self -> rested self')
    /\ (Bot.win_count self <= Bot.win_count self')%Z
    /\ (Bot.loss_count self <= Bot.loss_count self')%Z
    /\ attempts steps = [] /\ checks steps = []
    /\ exists r w1,
        Bot.analyze_single_pair env pair self (world st) = (Ok r, self, w1)
        /\ match r with
           | None =>
               self' = self
               /\ journal steps = [LogAnalyzing pair; LogNoSignal pair]
               /\ pauses steps = [2%Z]
               /\ notices (events_of steps) = []
               /\ filed (events_of steps) = []
               /\ outcomes (events_of steps) = []
               /\ telegram_calls (world st') = telegram_calls (world st)
           | Some (name, direction, score, price) =>
               let message :=
                 SignalMessage name direction
                               (next_minute (clock (world st))) price in
               exists (sent : bool) w2,
                 Bot.send_telegram env message self w1 = (Ok sent, self, w2)
                 /\ if sent
                    then
                      journal steps
                      = [LogAnalyzing pair;
                         LogSignalSent pair direction price]
                      /\ In (StepFile (SignalLogText pair direction price))
                            steps
                      /\ tally self' = (tally self + 1)%Z
                      /\ rested self'
                      /\ length (outcomes (events_of steps)) = 1%nat
                      /\ exists banner,
                          let result :=
                            ResultMessage banner (Bot.win_count self')
                                          (Bot.loss_count self') in
                          (pauses steps = [65%Z; 2%Z]
                           /\ notices (events_of steps) = [message; result])
                          \/ (pauses steps = [65%Z; 65%Z; 2%Z]
                              /\ exists mtg,
                                  notices (events_of steps)
                                  = [message; mtg; result])
                    else
                      self' = self
                      /\ journal steps
                         = [LogAnalyzing pair; LogSendFailed pair]
                      /\ pauses steps = [2%Z]
                      /\ notices (events_of steps) = [message]
                      /\ filed (events_of steps) = [message]
                      /\ outcomes (events_of steps) = []
           end.
Proof.
  destruct self as [hb hc cl thr wc lc bs cs mf ims].
  destruct st as [[t n tn tr] k ck xk sto].
  unfold BotRun.run_pair. rstep.
  destruct (analyze_single_pair_frame env pair
              (Bot.mkSelf hb hc cl thr wc lc bs cs mf ims)
              (mkWorld t n tn tr))
    as (r & evs1 & Hrun1 & Hsilent1 & Hn1 & Hf1 & Hfetch1 & Hr).
  lift_call Hrun1 evs1. rstep.
  destruct r as [[[[name direction] score] price]|].
  - rewrite call_format_message. rstep.
    pose proof (send_telegram_frame env
                  (SignalMessage name direction (next_minute t) price)
                  (Bot.mkSelf hb hc cl thr wc lc bs cs mf ims)
                  (mkWorld t (if cl then S n else n) tn (evs1 ++ tr)))
      as Hrun2.
    cbv zeta in Hrun2.
    destruct Hrun2 as (evs2 & Hrun2 & Hw2 & Hfetch2 & Ho2 & Hn2 & Hf2).
    cbn [Bot.has_bot Bot.has_chat_id Bot.has_client clock api_calls
         telegram_calls trace] in Hrun2, Hf2.
    lift_call Hrun2 evs2. rstep.
    destruct (negb (hb && hc) || hb && hc && _)%bool eqn:Hsent; rstep.
    + (* sent: the signal is evaluated *)
      match goal with
      | |- context [call (Bot.evaluate_signal_result ?e ?p ?d) ?s ?st] =>
          destruct (evaluate_signal_result_frame e p d s (world st))
            as (self3 & w3 & evs3 & Hrun3 & Htr3 & Hclock3 & Hsame3 & Hrest3
                & Hwc3 & Hlc3 & Htally3 & Hout3 & Hout3' & _ & banner & _
                & Hb3);
          rewrite (call_run _ s _ st _ _ evs3 Hrun3 Htr3)
      end.
      rstep. rewrite call_sleep. rstep.
      destruct w3 as [t3 n3 tn3 tr3].
      cbn [world clock api_calls telegram_calls trace] in *.
      subst t3 tr3.
      assert (Hlen : length (outcomes evs3) = 1%nat)
        by (destruct (outcomes evs3); [congruence|cbn [length] in *; lia]).
      unfold tally in Htally3.
      cbn [Bot.win_count Bot.loss_count] in Hwc3, Hlc3, Htally3.
      do 2 eexists. new_steps.
      do 3 (split; [reflexivity|]).
      assert (Hp : pauses
                     (StepEvent (EvSleep 2)
                        :: map StepEvent evs3 ++
                           StepFile (SignalLogText pair direction price)
                           :: StepLog RInfo
                                (LogSignalSent pair direction price)
                           :: map StepEvent evs2 ++
                              map StepEvent evs1 ++
                              [StepLog RInfo (LogAnalyzing pair)])
                   = waits evs3 ++ [2%Z])
        by (observe_story; reflexivity).
      split; [rewrite Hp, total_app; cbn [total fold_right]; lia|].
      split; [exact Hsame3|]. split; [intros _; exact Hrest3|].
      split; [exact Hwc3|]. split; [exact Hlc3|].
      split; [observe_story; reflexivity|].
      split; [observe_story; reflexivity|].
      exists (Some (name, direction, score, price)). eexists.
      split; [exact Hrun1|]. cbv zeta.
      exists true. eexists. split; [exact Hrun2|].
      split; [observe_story; reflexivity|].
      split; [right; apply in_or_app; right; left; reflexivity|].
      split; [unfold tally; cbn [Bot.win_count Bot.loss_count]; exact Htally3|].
      split; [exact Hrest3|].
      split; [observe_story; exact Hlen|].
      exists banner. rewrite Hp.
      destruct Hb3 as [(Hw3 & _ & Hn3)|(Hw3 & _ & Hn3)]; [left|right].
      * split; [rewrite Hw3; reflexivity|].
        observe_story. reflexivity.
      * split; [rewrite Hw3; reflexivity|].
        eexists. observe_story. reflexivity.
    + (* the delivery failed: the signal is not evaluated *)
      rewrite call_sleep. rstep.
      assert (Hdel : (hb && hc
                      && send_message_api env tn
                           (SignalMessage name direction (next_minute t)
                                          price))%bool = false)
        by (destruct hb, hc; cbn in Hsent |- *; congruence).
      rewrite Hdel in Hf2.
      do 2 eexists. new_steps.
      do 3 (split; [reflexivity|]).
      split; [observe_story; cbn [total fold_right clock]; lia|].
      split; [unfold same_settings; tauto|]. split; [tauto|].
      split; [cbn; lia|]. split; [cbn; lia|].
      split; [observe_story; reflexivity|].
      split; [observe_story; reflexivity|].
      exists (Some (name, direction, score, price)). eexists.
      split; [exact Hrun1|]. cbv zeta.
      exists false. eexists. split; [exact Hrun2|].
      split; [reflexivity|].
      repeat split; observe_story; reflexivity.
  - (* no signal *)
    rewrite call_sleep. rstep. do 2 eexists. new_steps.
    do 3 (split; [reflexivity|]).
    split; [observe_story; cbn [total fold_right clock]; lia|].
    split; [unfold same_settings; tauto|]. split; [tauto|].
    split; [cbn; lia|]. split; [cbn; lia|].
    split; [observe_story; reflexivity|].
    split; [observe_story; reflexivity|].
    exists None. eexists. split; [exact Hrun1|].
    split; [reflexivity|].
    repeat split; observe_story; reflexivity.
Qed.

Lemma same_settings_refl (s : Bot.Self) : same_settings s s.
Proof. unfold same_settings. tauto. Qed.

Lemma same_settings_trans (s1 s2 s3 : Bot.Self) :
  same_settings s1 s2 -> same_settings s2 s3 -> same_settings s1 s3.
Proof. unfold same_settings. intuition congruence. Qed.

(** What one round of the pair loop adds up to. *)
Lemma run_pair_summary
  (env : Env) (pair : string) (self : Bot.Self) (st : Stage) :
  exists self' st' steps,
    BotRun.run_pair env pair self st = (Ok tt, self', st')
    /\ story st' = steps ++ story st
    /\ connect_calls st' = connect_calls st
    /\ check_calls st' = check_calls st
    /\ text_calls st' = text_calls st
    /\ clock (world st') = (clock (world st) + total (pauses steps))%Z
    /\ same_settings self self'
    /\ (rested self -> rested self')
    /\ (Bot.win_count self <= Bot.win_count self')%Z
    /\ (Bot.loss_count self <= Bot.loss_count self')%Z
    /\ attempts steps = [] /\ checks steps = []
    /\ analyzed (journal steps) = [pair]
    /\ caught (journal steps) = []
    /\ (2 <= total (pauses steps) <= 132)%Z
    /\ tally self'
       = (tally self + Z.of_nat (length (outcomes (events_of steps))))%Z
    /\ (length (outcomes (events_of steps)) <= 1)%nat.
Proof.
  destruct (run_pair_cases env pair self st)
    as (self' & st' & steps & Hrun & Hst & Hk & Hck & Hxk & Hclock & Hsame
        & Hrest & Hwc & Hlc & Hatt & Hchk & r & w1 & _ & Hr).
  exists self', st', steps.
  do 12 (split; [assumption|]).
  destruct r as [[[[name direction] score] price]|].
  - cbv zeta in Hr. destruct Hr as ([|] & w2 & _ & Hr).
    + destruct Hr as (Hj & _ & Htally & _ & Hlen & banner & Hp).
      rewrite Hj, Hlen, Htally.
      split; [reflexivity|]. split; [reflexivity|].
      split; [|split; [reflexivity|lia]].
      destruct Hp as [(-> & _)|(-> & _)]; cbn; lia.
    + destruct Hr as (-> & Hj & Hp & _ & _ & Ho).
      rewrite Hj, Hp, Ho.
      repeat split; try reflexivity; cbn; lia.
  - destruct Hr as (-> & Hj & Hp & _ & _ & Ho & _).
    rewrite Hj, Hp, Ho.
    repeat split; try reflexivity; cbn; lia.
Qed.

(** The pair loop: every pair is analysed, in order, whatever happened
    to the pairs before it. *)
Lemma scan_summary (env : Env) (pairs : list string) :
  forall (self : Bot.Self) (st : Stage),
  exists self' st' steps,
    for_each pairs (BotRun.run_pair env) self st = (Ok tt, self', st')
    /\ story st' = steps ++ story st
    /\ connect_calls st' = connect_calls st
    /\ check_calls st' = check_calls st
    /\ text_calls st' = text_calls st
    /\ clock (world st') = (clock (world st) + total (pauses steps))%Z
    /\ same_settings self self'
    /\ (rested self -> rested self')
    /\ (Bot.win_count self <= Bot.win_count self')%Z
    /\ (Bot.loss_count self <= Bot.loss_count self')%Z
    /\ attempts steps = [] /\ checks steps = []
    /\ analyzed (journal steps) = pairs
    /\ caught (journal steps) = []
    /\ (2 * Z.of_nat (length pairs) <= total (pauses steps)
        <= 132 * Z.of_nat (length pairs))%Z
    /\ tally self'
       = (tally self + Z.of_nat (length (outcomes (events_of steps))))%Z
    /\ (length (outcomes (events_of steps)) <= length pairs)%nat.
Proof.
  induction pairs as [|pair pairs IH]; intros self st.
  - exists self, st, []. cbn [for_each r_ret length app].
    do 5 (split; [reflexivity|]).
    split; [cbn; lia|]. split; [apply same_settings_refl|].
    split; [tauto|].
    repeat split; try reflexivity; cbn; lia.
  - cbn [for_each]. unfold r_bind.
    destruct (run_pair_summary env pair self st)
      as (self1 & st1 & steps1 & Hrun1 & Hst1 & Hk1 & Hck1 & Hxk1 & Hclock1
          & Hsame1 & Hrest1 & Hwc1 & Hlc1 & Hatt1 & Hchk1 & Han1 & Hca1
          & Hp1 & Htally1 & Hlen1).
    rewrite Hrun1.
    destruct (IH self1 st1)
      as (self2 & st2 & steps2 & Hrun2 & Hst2 & Hk2 & Hck2 & Hxk2 & Hclock2
          & Hsame2 & Hrest2 & Hwc2 & Hlc2 & Hatt2 & Hchk2 & Han2 & Hca2
          & Hp2 & Htally2 & Hlen2).
    rewrite Hrun2.
    exists self2, st2, (steps2 ++ steps1).
    split; [reflexivity|].
    split; [rewrite Hst2, Hst1, app_assoc; reflexivity|].
    split; [congruence|]. split; [congruence|]. split; [congruence|].
    rewrite pauses_app, total_app, attempts_app, checks_app, journal_app,
      analyzed_app, caught_app, events_of_app.
    unfold outcomes in *. rewrite chronicle_app, length_app.
    rewrite Hatt1, Hatt2, Hchk1, Hchk2, Han1, Han2, Hca1, Hca2.
    cbn [length app].
    split; [lia|].
    split; [exact (same_settings_trans _ _ _ Hsame1 Hsame2)|].
    split; [tauto|].
    repeat split; try reflexivity; lia.
Qed.

(** One round of the main loop: the connection check, the pair loop,
    and the pause of 5 seconds. *)
Lemma run_cycle_summary
  (env : Env) (broker : Broker) (pairs : list string) (self : Bot.Self)
  (st : Stage) :
  exists self' st' steps,
    BotRun.run_cycle env broker pairs self st = (Ok tt, self', st')
    /\ story st' = steps ++ story st
    /\ text_calls st' = text_calls st
    /\ clock (world st') = (clock (world st) + total (pauses steps))%Z
    /\ same_settings (BotRun.set_has_client (Bot.has_client self') self) self'
    /\ (Bot.has_client self = true -> Bot.has_client self' = true)
    /\ (rested self -> rested self')
    /\ (Bot.win_count self <= Bot.win_count self')%Z
    /\ (Bot.loss_count self <= Bot.loss_count self')%Z
    /\ (length (checks steps) <= 1)%nat
    /\ (length (attempts steps) <= 3)%nat
    /\ analyzed (journal steps) = pairs
    /\ caught (journal steps) = []
    /\ (exists lines, journal steps = lines ++ [LogCycleComplete])
    /\ (2 * Z.of_nat (length pairs) + 5 <= total (pauses steps)
        <= 132 * Z.of_nat (length pairs) + 20)%Z
    /\ tally self'
       = (tally self + Z.of_nat (length (outcomes (events_of steps))))%Z
    /\ (length (outcomes (events_of steps)) <= length pairs)%nat.
Proof.
  unfold BotRun.run_cycle, try_except, r_bind.
  destruct (reconnect_if_needed_cases broker self st)
    as (self1 & st1 & steps1 & Hrun1 & Hst1 & Hself1 & Hcl1 & Hclock1 & Hapi1
        & Htg1 & Hev1 & Htot1 & Han1 & Hca1 & Hxk1 & Hcases1).
  rewrite Hrun1.
  destruct (scan_summary env pairs self1 st1)
    as (self2 & st2 & steps2 & Hrun2 & Hst2 & Hk2 & Hck2 & Hxk2 & Hclock2
        & Hsame2 & Hrest2 & Hwc2 & Hlc2 & Hatt2 & Hchk2 & Han2 & Hca2
        & Hp2 & Htally2 & Hlen2).
  rewrite Hrun2.
  destruct st2 as [[t2 n2 tn2 tr2] k2 ck2 xk2 sto2].
  unfold run_log, tell. rewrite call_sleep.
  cbn [world story connect_calls check_calls text_calls clock api_calls
       telegram_calls trace] in *.
  subst sto2.
  exists self2. eexists.
  exists (StepEvent (EvSleep 5) :: StepLog RInfo LogCycleComplete
            :: steps2 ++ steps1).
  split; [reflexivity|].
  split; [cbn [story app]; rewrite Hst1, <- app_assoc; reflexivity|].
  assert (Hobs : forall steps,
             let all := StepEvent (EvSleep 5)
                          :: StepLog RInfo LogCycleComplete :: steps in
             pauses all = pauses steps ++ [5%Z]
             /\ events_of all = EvSleep 5 :: events_of steps
             /\ attempts all = attempts steps
             /\ checks all = checks steps
             /\ journal all = journal steps ++ [LogCycleComplete]).
  { intros steps. cbv zeta. unfold pauses, waits.
    rewrite !events_of_cons, !attempts_cons, !checks_cons, !journal_cons.
    cbn [app]. rewrite chronicle_cons, !app_nil_r.
    repeat split; reflexivity. }
  destruct (Hobs (steps2 ++ steps1)) as (-> & -> & -> & -> & ->).
  rewrite pauses_app, !total_app, attempts_app, checks_app, journal_app,
    !analyzed_app, !caught_app, events_of_app.
  unfold outcomes in *. rewrite chronicle_cons, chronicle_app, !length_app.
  rewrite Hatt2, Hchk2, Han1, Han2, Hca1, Hca2.
  cbn [length app total fold_right analyzed caught flat_map List.filter].
  rewrite !app_nil_r.
  assert (Hself : self2.(Bot.has_client) = self1.(Bot.has_client))
    by (destruct Hsame2 as (_ & _ & H & _); exact H).
  assert (Hsame : same_settings
                    (BotRun.set_has_client (Bot.has_client self2) self) self2).
  { rewrite Hself, <- Hself1. exact Hsame2. }
  assert (Hframe : rested self1 <-> rested self)
    by (rewrite Hself1; destruct self; reflexivity).
  assert (Hcounts : Bot.win_count self1 = Bot.win_count self
                    /\ Bot.loss_count self1 = Bot.loss_count self)
    by (rewrite Hself1; destruct self; split; reflexivity).
  destruct Hcounts as (Hwc1 & Hlc1).
  assert (Htally1 : tally self1 = tally self)
    by (unfold tally; rewrite Hwc1, Hlc1; reflexivity).
  assert (Hsteps1 : (length (checks steps1) <= 1)%nat
                    /\ (length (attempts steps1) <= 3)%nat
                    /\ length (chronicle
                                 (fun e => match e with
                                           | EvFile (SequenceLog _ _ result) =>
                                               [result]
                                           | _ => []
                                           end) (events_of steps1)) = 0%nat).
  { split; [|split].
    - destruct Hcases1 as [(_ & _ & _ & ->)|[(_ & _ & _ & ->)
                          |(_ & -> & _)]]; try (cbn; lia).
      destruct (Bot.has_client self); cbn; lia.
    - destruct Hcases1 as [(_ & _ & _ & ->)|[(_ & _ & _ & ->)
                          |(_ & _ & H & _)]]; try (cbn; lia).
    - rewrite Hev1. unfold chronicle. rewrite <- map_rev.
      induction (rev (rev (pauses steps1))) as [|x l IH]; [reflexivity|].
      exact IH. }
  destruct Hsteps1 as (Hc1 & Ha1 & Ho1).
  cbn [world story connect_calls check_calls text_calls clock api_calls
       telegram_calls trace].
  split; [congruence|].
  split; [lia|].
  split; [exact Hsame|].
  split; [intros H; rewrite Hself; auto|].
  split; [tauto|].
  split; [lia|]. split; [lia|].
  split; [lia|]. split; [lia|].
  split; [reflexivity|]. split; [reflexivity|].
  split; [eexists; reflexivity|].
  split; [lia|].
  split; [rewrite Htally2, Htally1; lia|lia].
Qed.

Lemma same_settings_step (s s1 s2 : Bot.Self) :
  same_settings (BotRun.set_has_client (Bot.has_client s1) s) s1 ->
  same_settings (BotRun.set_has_client (Bot.has_client s2) s1) s2 ->
  same_settings (BotRun.set_has_client (Bot.has_client s2) s) s2.
Proof.
  destruct s, s1, s2. unfold same_settings. cbn. intuition congruence.
Qed.

(** The first [cycles] rounds of the main loop. *)
Lemma while_summary
  (env : Env) (broker : Broker) (pairs : list string) (cycles : nat) :
  forall (self : Bot.Self) (st : Stage),
  exists self' st' steps,
    while_true cycles (BotRun.run_cycle env broker pairs) self st
    = (Ok tt, self', st')
    /\ story st' = steps ++ story st
    /\ text_calls st' = text_calls st
    /\ clock (world st') = (clock (world st) + total (pauses steps))%Z
    /\ same_settings (BotRun.set_has_client (Bot.has_client self') self) self'
    /\ (Bot.has_client self = true -> Bot.has_client self' = true)
    /\ (rested self -> rested self')
    /\ (Bot.win_count self <= Bot.win_count self')%Z
    /\ (Bot.loss_count self <= Bot.loss_count self')%Z
    /\ (length (checks steps) <= cycles)%nat
    /\ (length (attempts steps) <= 3 * cycles)%nat
    /\ analyzed (journal steps) = concat (repeat pairs cycles)
    /\ caught (journal steps) = []
    /\ ((2 * Z.of_nat (length pairs) + 5) * Z.of_nat cycles
        <= total (pauses steps)
        <= (132 * Z.of_nat (length pairs) + 20) * Z.of_nat cycles)%Z
    /\ tally self'
       = (tally self + Z.of_nat (length (outcomes (events_of steps))))%Z
    /\ (length (outcomes (events_of steps)) <= cycles * length pairs)%nat.
Proof.
  induction cycles as [|cycles IH]; intros self st.
  - exists self, st, []. cbn [while_true r_ret length app repeat concat].
    do 3 (split; [reflexivity|]).
    split; [cbn; lia|].
    split; [destruct self; unfold same_settings; cbn; tauto|].
    split; [tauto|]. split; [tauto|].
    repeat split; try reflexivity; cbn; lia.
  - cbn [while_true repeat concat]. unfold r_bind.
    destruct (run_cycle_summary env broker pairs self st)
      as (self1 & st1 & steps1 & Hrun1 & Hst1 & Hxk1 & Hclock1 & Hsame1
          & Hcl1 & Hrest1 & Hwc1 & Hlc1 & Hchk1 & Hatt1 & Han1 & Hca1 & _
          & Hp1 & Htally1 & Hlen1).
    rewrite Hrun1.
    destruct (IH self1 st1)
      as (self2 & st2 & steps2 & Hrun2 & Hst2 & Hxk2 & Hclock2 & Hsame2
          & Hcl2 & Hrest2 & Hwc2 & Hlc2 & Hchk2 & Hatt2 & Han2 & Hca2
          & Hp2 & Htally2 & Hlen2).
    rewrite Hrun2.
    exists self2, st2, (steps2 ++ steps1).
    split; [reflexivity|].
    split; [rewrite Hst2, Hst1, app_assoc; reflexivity|].
    split; [congruence|].
    rewrite pauses_app, total_app, attempts_app, checks_app, journal_app,
      analyzed_app, caught_app, events_of_app.
    unfold outcomes in *. rewrite chronicle_app, !length_app.
    rewrite Han1, Han2, Hca1, Hca2.
    split; [lia|].
    split; [exact (same_settings_step _ _ _ Hsame1 Hsame2)|].
    split; [tauto|]. split; [tauto|].
    repeat split; try reflexivity; try lia; try nia.
Qed.

(** [test_telegram] sends the test text when the channel is configured,
    and nothing otherwise. *)
Lemma test_telegram_run (broker : Broker) (self : Bot.Self) (st : Stage) :
  let configured := (Bot.has_bot self && Bot.has_chat_id self)%bool in
  exists st' steps,
    BotRun.test_telegram broker self st
    = (Ok (configured && send_text_api broker (text_calls st) TestText)%bool,
       self, st')
    /\ story st' = steps ++ story st
    /\ world st' = world st
    /\ connect_calls st' = connect_calls st
    /\ check_calls st' = check_calls st
    /\ text_calls st'
       = (if configured then S (text_calls st) else text_calls st)
    /\ events_of steps = [] /\ attempts steps = [] /\ checks steps = []
    /\ analyzed (journal steps) = [] /\ caught (journal steps) = []
    /\ journal steps
       = [if configured
          then if send_text_api broker (text_calls st) TestText
               then LogTestSent else LogTestFailed
          else LogTelegramNotConfigured].
Proof.
  destruct self as [[|] [|] cl thr wc lc bs cs mf ims].
  all: destruct st as [w k ck xk sto].
  all: unfold BotRun.test_telegram; rstep; cbv zeta;
    cbn [Bot.has_bot Bot.has_chat_id andb text_calls].
  1: destruct (send_text_api broker xk TestText); rstep.
  all: eexists; new_steps; repeat split; reflexivity.
Qed.

(** Waits show in no observation but [waits]. *)
Lemma sleeps_quiet (durations : list Z) :
  outcomes (map EvSleep durations) = []
  /\ fetches (map EvSleep durations) = []
  /\ notices (map EvSleep durations) = []
  /\ filed (map EvSleep durations) = [].
Proof.
  unfold outcomes, fetches, notices, filed, chronicle.
  rewrite <- map_rev.
  induction (rev durations) as [|x l IH]; [repeat split; reflexivity|].
  exact IH.
Qed.

(** The connection and the scan of [run], after the start-up. *)
Lemma run_connect_and_scan
  (env : Env) (broker : Broker) (cycles : nat) (self : Bot.Self) (st : Stage) :
  let connected :=
    existsb is_connected (map (connect_api broker) (seq (connect_calls st) 3)) in
  exists self' st' steps,
    r_bind (BotRun.init_quotex broker)
           (fun ok =>
              if negb ok
              then run_log RError LogInitFailed
              else
                r_bind (run_log RInfo (LogMonitoring (length BotRun.OTC_PAIRS)))
                       (fun _ =>
                          while_true cycles
                            (BotRun.run_cycle env broker BotRun.OTC_PAIRS)))
           self st
    = (Ok tt, self', st')
    /\ story st' = steps ++ story st
    /\ same_settings (BotRun.set_has_client (Bot.has_client self') self) self'
    /\ (rested self -> rested self')
    /\ caught (journal steps) = []
    /\ tally self'
       = (tally self + Z.of_nat (length (outcomes (events_of steps))))%Z
    /\ clock (world st') = (clock (world st) + total (pauses steps))%Z
    /\ if connected
       then
         analyzed (journal steps) = concat (repeat BotRun.OTC_PAIRS cycles)
         /\ (length (outcomes (events_of steps)) <= cycles * 30)%nat
         /\ (65 * Z.of_nat cycles <= total (pauses steps)
             <= 15 + 3980 * Z.of_nat cycles)%Z
       else
         analyzed (journal steps) = []
         /\ tally self' = tally self
         /\ fetches (events_of steps) = []
         /\ notices (events_of steps) = []
         /\ pauses steps = [5%Z; 10%Z]
         /\ length (attempts steps) = 3%nat
         /\ checks steps = []
         /\ exists lines, journal steps = lines ++ [LogInitFailed].
Proof.
  cbv zeta. unfold r_bind at 1.
  pose proof (init_quotex_cases broker self st) as H. cbv zeta in H.
  destruct H as (b & st1 & steps1 & Hrun1 & Hst1 & Hclock1 & Hapi1 & Htg1
                 & Hev1 & Hchk1 & Han1 & Hca1 & Hxk1 & Hcases1).
  rewrite Hrun1.
  set (self1 := BotRun.set_has_client _ self) in *.
  assert (Hself1 : same_settings
                     (BotRun.set_has_client (Bot.has_client self1) self) self1
                   /\ (rested self <-> rested self1)
                   /\ tally self1 = tally self)
    by (subst self1; destruct self; unfold same_settings, rested, tally; cbn;
        tauto).
  destruct Hself1 as (Hsame1 & Hrest1 & Htally1).
  assert (Hquiet1 : outcomes (events_of steps1) = []
                    /\ fetches (events_of steps1) = []
                    /\ notices (events_of steps1) = []
                    /\ filed (events_of steps1) = [])
    by (rewrite Hev1; apply sleeps_quiet).
  destruct Hquiet1 as (Ho1 & Hf1 & Hn1 & _).
  assert (Hconn : b = existsb is_connected
                        (map (connect_api broker) (seq (connect_calls st) 3))
                  /\ (0 <= total (pauses steps1) <= 15)%Z
                  /\ (b = false ->
                      pauses steps1 = [5%Z; 10%Z]
                      /\ length (attempts steps1) = 3%nat)).
  { cbn [seq map existsb].
    destruct Hcases1 as [(H0 & -> & -> & ->)
                        |[(H0 & H1 & -> & -> & ->)
                         |[(H0 & H1 & H2 & -> & -> & ->)
                          |(H0 & H1 & H2 & -> & -> & ->)]]];
      rewrite ?H0, ?H1, ?H2; cbn [orb total fold_right length];
      repeat split; try reflexivity; try lia; discriminate. }
  destruct Hconn as (Hb & Htot1 & Hfail).
  rewrite <- Hb. destruct b; cbn [negb].
  - (* connected: the scan starts *)
    unfold r_bind, run_log, tell.
    destruct (while_summary env broker BotRun.OTC_PAIRS cycles self1
                (mkStage (world st1) (connect_calls st1) (check_calls st1)
                         (text_calls st1)
                         (StepLog RInfo (LogMonitoring (length BotRun.OTC_PAIRS))
                            :: story st1)))
      as (self2 & st2 & steps2 & Hrun2 & Hst2 & Hxk2 & Hclock2 & Hsame2
          & Hcl2 & Hrest2 & Hwc2 & Hlc2 & Hchk2 & Hatt2 & Han2 & Hca2
          & Hp2 & Htally2 & Hlen2).
    rewrite Hrun2. cbn [story world clock] in *.
    exists self2, st2,
      (steps2 ++ StepLog RInfo (LogMonitoring (length BotRun.OTC_PAIRS))
              :: steps1).
    split; [reflexivity|].
    split; [rewrite Hst2, Hst1, <- app_assoc; reflexivity|].
    assert (Hobs : forall line,
               let all := steps2 ++ StepLog RInfo line :: steps1 in
               pauses all = pauses steps1 ++ pauses steps2
               /\ events_of all = events_of steps2 ++ events_of steps1
               /\ journal all = journal steps1 ++ line :: journal steps2).
    { intros line. cbv zeta. unfold pauses, waits.
      rewrite events_of_app, journal_app, events_of_cons, journal_cons.
      cbn [app]. rewrite chronicle_app, <- app_assoc.
      repeat split; reflexivity. }
    destruct (Hobs (LogMonitoring (length BotRun.OTC_PAIRS)))
      as (-> & -> & ->).
    rewrite !total_app.
    change (?l :: journal steps2) with ([l] ++ journal steps2).
    rewrite !analyzed_app, !caught_app, Han1, Han2, Hca1, Hca2.
    unfold outcomes in *. rewrite chronicle_app, Ho1, length_app.
    cbn [app length Nat.add analyzed caught flat_map List.filter].
    split; [exact (same_settings_step _ _ _ Hsame1 Hsame2)|].
    split; [tauto|]. split; [reflexivity|].
    split; [rewrite Htally2, Htally1; lia|].
    split; [lia|].
    split; [reflexivity|].
    change (length BotRun.OTC_PAIRS) with 30%nat in *.
    split; lia.
  - (* not connected: the run ends *)
    unfold run_log, tell.
    destruct (Hfail eq_refl) as (Hp1 & Hlen1).
    exists self1. eexists. exists (StepLog RError LogInitFailed :: steps1).
    split; [reflexivity|].
    split; [cbn [story app]; rewrite Hst1; reflexivity|].
    unfold pauses in *.
    rewrite events_of_cons, journal_cons, attempts_cons, checks_cons.
    cbn [app]. rewrite !app_nil_r, caught_app, analyzed_app, Han1, Hca1.
    rewrite Ho1, Hf1, Hn1.
    cbn [app length Nat.add analyzed caught flat_map List.filter story world
         clock].
    split; [exact Hsame1|]. split; [tauto|]. split; [reflexivity|].
    split; [lia|]. split; [exact Hclock1|].
    repeat split; try assumption; try reflexivity.
    eexists; reflexivity.
Qed.

(** A run of the bot: the start-up, then the scan if the connection
    could be made. *)
Lemma run_summary
  (env : Env) (broker : Broker) (cycles : nat) (self : Bot.Self) (st : Stage) :
  let connected :=
    existsb is_connected (map (connect_api broker) (seq (connect_calls st) 3)) in
  exists self' st' steps,
    BotRun.run env broker cycles self st = (Ok tt, self', st')
    /\ story st' = steps ++ story st
    /\ same_settings (BotRun.set_has_client (Bot.has_client self') self) self'
    /\ (rested self -> rested self')
    /\ caught (journal steps) = []
    /\ tally self'
       = (tally self + Z.of_nat (length (outcomes (events_of steps))))%Z
    /\ clock (world st') = (clock (world st) + total (pauses steps))%Z
    /\ if connected
       then
         analyzed (journal steps) = concat (repeat BotRun.OTC_PAIRS cycles)
         /\ (length (outcomes (events_of steps)) <= cycles * 30)%nat
         /\ (65 * Z.of_nat cycles <= total (pauses steps)
             <= 15 + 3980 * Z.of_nat cycles)%Z
       else
         analyzed (journal steps) = []
         /\ tally self' = tally self
         /\ fetches (events_of steps) = []
         /\ notices (events_of steps) = []
         /\ pauses steps = [5%Z; 10%Z]
         /\ length (attempts steps) = 3%nat
         /\ checks steps = []
         /\ exists lines,
             journal steps = LogStarting :: lines ++ [LogInitFailed].
Proof.
  cbv zeta. unfold BotRun.run.
  set (rest := r_bind (BotRun.init_quotex broker) _).
  cbv beta iota delta [r_bind run_log tell r_get_self r_ret].
  assert (Hcont : forall st1 steps1,
             story st1 = steps1 ++ StepLog RInfo LogStarting :: story st ->
             world st1 = world st ->
             connect_calls st1 = connect_calls st ->
             events_of steps1 = [] -> attempts steps1 = [] ->
             checks steps1 = [] ->
             analyzed (journal steps1) = [] -> caught (journal steps1) = [] ->
             exists self' st' steps,
               rest self st1 = (Ok tt, self', st')
               /\ story st' = steps ++ story st
               /\ same_settings
                    (BotRun.set_has_client (Bot.has_client self') self) self'
               /\ (rested self -> rested self')
               /\ caught (journal steps) = []
               /\ tally self'
                  = (tally self
                     + Z.of_nat (length (outcomes (events_of steps))))%Z
               /\ clock (world st')
                  = (clock (world st) + total (pauses steps))%Z
               /\ if existsb is_connected
                       (map (connect_api broker) (seq (connect_calls st) 3))
                  then
                    analyzed (journal steps)
                    = concat (repeat BotRun.OTC_PAIRS cycles)
                    /\ (length (outcomes (events_of steps)) <= cycles * 30)%nat
                    /\ (65 * Z.of_nat cycles <= total (pauses steps)
                        <= 15 + 3980 * Z.of_nat cycles)%Z
                  else
                    analyzed (journal steps) = []
                    /\ tally self' = tally self
                    /\ fetches (events_of steps) = []
                    /\ notices (events_of steps) = []
                    /\ pauses steps = [5%Z; 10%Z]
                    /\ length (attempts steps) = 3%nat
                    /\ checks steps = []
                    /\ exists lines,
                        journal steps
                        = LogStarting :: lines ++ [LogInitFailed]).
  { intros st1 steps1 Hst1 Hw1 Hk1 Hev1 Hatt1 Hchk1 Han1 Hca1. subst rest.
    pose proof (run_connect_and_scan env broker cycles self st1) as H.
    cbv zeta in H.
    destruct H as (self2 & st2 & steps2 & Hrun2 & Hst2 & Hsame2 & Hrest2
                   & Hca2 & Htally2 & Hclock2 & Hcases2).
    rewrite Hrun2. rewrite Hk1 in Hcases2.
    exists self2, st2, (steps2 ++ steps1 ++ [StepLog RInfo LogStarting]).
    split; [reflexivity|].
    split; [rewrite Hst2, Hst1, <- !app_assoc; reflexivity|].
    assert (Hobs : let all := steps2 ++ steps1 ++ [StepLog RInfo LogStarting] in
                   pauses all = pauses steps2
                   /\ events_of all = events_of steps2
                   /\ attempts all = attempts steps2
                   /\ checks all = checks steps2
                   /\ journal all
                      = LogStarting :: journal steps1 ++ journal steps2).
    { cbv zeta. unfold pauses.
      rewrite !events_of_app, !attempts_app, !checks_app, !journal_app, Hev1,
        Hatt1, Hchk1.
      cbn [events_of attempts checks journal rev flat_map app].
      rewrite !app_nil_r. repeat split; reflexivity. }
    cbv zeta in Hobs. destruct Hobs as (-> & -> & -> & -> & ->).
    change (LogStarting :: ?l) with ([LogStarting] ++ l).
    rewrite !analyzed_app, !caught_app, Han1, Hca1, Hca2.
    rewrite Hw1 in Hclock2.
    cbn [app analyzed caught flat_map List.filter].
    do 5 (split; [assumption || reflexivity|]).
    destruct (existsb is_connected _); [exact Hcases2|].
    destruct Hcases2 as (? & ? & ? & ? & ? & ? & ? & lines & Hj).
    do 7 (split; [assumption|]).
    exists (journal steps1 ++ lines). rewrite Hj, <- app_assoc. reflexivity. }
  destruct (Bot.has_bot self).
  - pose proof (test_telegram_run broker self
                  (mkStage (world st) (connect_calls st) (check_calls st)
                           (text_calls st)
                           (StepLog RInfo LogStarting :: story st))) as H.
    cbv zeta in H.
    destruct H as (st1 & steps1 & Hrun & Hst & Hw & Hk & _ & _ & Hev & Hatt
                   & Hchk & Han & Hca & _).
    rewrite Hrun. exact (Hcont st1 steps1 Hst Hw Hk Hev Hatt Hchk Han Hca).
  - exact (Hcont (mkStage (world st) (connect_calls st) (check_calls st)
                          (text_calls st)
                          (StepLog RInfo LogStarting :: story st))
                 [] eq_refl eq_refl eq_refl eq_refl eq_refl eq_refl eq_refl
                 eq_refl).
Qed.

(** ** Further properties: the loops of the reversal-only variant *)

Lemma printed_app (steps steps' : list Step) :
  printed (steps ++ steps') = printed steps' ++ printed steps.
Proof. unfold printed. rewrite rev_app_distr. apply flat_map_app. Qed.

Lemma printed_cons (s : Step) (steps : list Step) :
  printed (s :: steps)
  = printed steps ++ match s with StepPrint text => [text] | _ => [] end.
Proof.
  unfold printed. cbn [rev]. rewrite flat_map_app. cbn [flat_map].
  rewrite app_nil_r. reflexivity.
Qed.

Lemma printed_events (evs : list Event) : printed (map StepEvent evs) = [].
Proof.
  unfold printed. rewrite <- map_rev.
  induction (rev evs) as [|e l IH]; [reflexivity|exact IH].
Qed.

Lemma stored_app (steps steps' : list Step) :
  stored (steps ++ steps') = stored steps' ++ stored steps.
Proof. unfold stored. rewrite rev_app_distr. apply flat_map_app. Qed.

Lemma stored_cons (s : Step) (steps : list Step) :
  stored (s :: steps)
  = stored steps ++ match s with StepFile text => [text] | _ => [] end.
Proof.
  unfold stored. cbn [rev]. rewrite flat_map_app. cbn [flat_map].
  rewrite app_nil_r. reflexivity.
Qed.

Lemma stored_events (evs : list Event) : stored (map StepEvent evs) = [].
Proof.
  unfold stored. rewrite <- map_rev.
  induction (rev evs) as [|e l IH]; [reflexivity|exact IH].
Qed.

Lemma texted_app (steps steps' : list Step) :
  texted (steps ++ steps') = texted steps' ++ texted steps.
Proof. unfold texted. rewrite rev_app_distr. apply flat_map_app. Qed.

Lemma texted_cons (s : Step) (steps : list Step) :
  texted (s :: steps)
  = texted steps
    ++ match s with
       | StepTelegram text delivered => [(text, delivered)]
       | _ => []
       end.
Proof.
  unfold texted. cbn [rev]. rewrite flat_map_app. cbn [flat_map].
  rewrite app_nil_r. reflexivity.
Qed.

Lemma texted_events (evs : list Event) : texted (map StepEvent evs) = [].
Proof.
  unfold texted. rewrite <- map_rev.
  induction (rev evs) as [|e l IH]; [reflexivity|exact IH].
Qed.

(** Normal form of the observations of the texts of a story. *)
Ltac observe_texts :=
  repeat first
    [ rewrite printed_app | rewrite printed_cons | rewrite printed_events
    | rewrite stored_app | rewrite stored_cons | rewrite stored_events
    | rewrite texted_app | rewrite texted_cons | rewrite texted_events ];
  repeat match goal with
         | H : printed _ = _ |- _ => rewrite H
         | H : stored _ = _ |- _ => rewrite H
         | H : texted _ = _ |- _ => rewrite H
         end;
  change (printed []) with (@nil RunText);
  change (stored []) with (@nil RunText);
  change (texted []) with (@nil (RunText * bool));
  rewrite ?app_nil_r; cbn [app].

(** Normal form of the observations of a journal. *)
Ltac observe_lines :=
  unfold analyzed, caught in *;
  repeat first [ rewrite flat_map_app | rewrite List.filter_app
               | progress cbn [flat_map List.filter app] ];
  repeat match goal with
         | H : flat_map _ _ = _ |- _ => rewrite H
         | H : List.filter _ _ = _ |- _ => rewrite H
         end;
  cbn [app]; rewrite ?app_nil_r.

(** Every call of [send_message] returns [True]: the text is printed,
    and it is delivered or appended to [signals.log]. *)
Lemma send_message_run
  (broker : Broker) (message : RunText) (self : Fixed.Self) (st : Stage) :
  let configured := (Fixed.has_bot self && Fixed.has_chat_id self)%bool in
  let delivered :=
    (configured && send_text_api broker (text_calls st) message)%bool in
  exists steps,
    FixedRun.send_message broker message self st
    = (Ok true, self,
       mkStage (world st) (connect_calls st) (check_calls st)
               (if configured then S (text_calls st) else text_calls st)
               (steps ++ story st))
    /\ printed steps = [message]
    /\ stored steps = (if delivered then [] else [message])
    /\ texted steps = (if configured then [(message, delivered)] else [])
    /\ events_of steps = [] /\ attempts steps = [] /\ checks steps = []
    /\ journal steps
       = (if configured
          then [if delivered then LogMessageSent else LogSendError]
          else [])
    /\ analyzed (journal steps) = [] /\ caught (journal steps) = []
    /\ (length (stored steps) <= 1)%nat.
Proof.
  destruct self as [[|] [|] cl].
  all: destruct st as [w k ck xk sto].
  all: unfold FixedRun.send_message; rstep; cbv zeta;
    cbn [Fixed.has_bot Fixed.has_chat_id andb text_calls].
  1: destruct (send_text_api broker xk message); rstep.
  1: exists [StepLog RInfo LogMessageSent; StepTelegram message true;
             StepPrint message].
  2: exists [StepFile message; StepLog RError LogSendError;
             StepTelegram message false; StepPrint message].
  3-5: exists [StepFile message; StepPrint message].
  all: repeat split; try reflexivity; cbn; lia.
Qed.

Lemma call_lift_exn {Self A : Type} (a : A) (self : Self) (st : Stage) :
  call (lift_exn (Ok a)) self st
  = (Ok a, self,
     mkStage (world st) (connect_calls st) (check_calls st) (text_calls st)
             (story st)).
Proof. apply (call_run _ _ _ _ _ _ []); reflexivity. Qed.

Ltac step_message :=
  match goal with
  | |- context [FixedRun.send_message ?br ?m ?s ?st] =>
      let steps := fresh "steps" in
      let Hrun := fresh "Hrun" in
      pose proof (send_message_run br m s st) as Hrun;
      cbv zeta in Hrun;
      destruct Hrun as (steps & Hrun & ? & _ & _ & ? & ? & ? & _ & ? & ? & ?);
      rewrite Hrun; clear Hrun; rstep
  end.

(** Every run of the body of the pair loop returns, and is of one of
    three kinds: no data, no pattern, or a reversal, which is signalled
    and evaluated. *)
Lemma fixed_run_pair_cases
  (env : Env) (broker : Broker) (pair : string) (self : Fixed.Self)
  (st : Stage) :
  exists st' steps,
    FixedRun.run_pair env broker pair self st = (Ok tt, self, st')
    /\ story st' = steps ++ story st
    /\ connect_calls st' = connect_calls st
    /\ attempts steps = []
    /\ analyzed (journal steps) = [pair]
    /\ caught (journal steps) = []
    /\ (length (printed steps) + length (stored steps) <= 4)%nat
    /\ (0 <= total (pauses steps) <= 121)%Z
    /\ exists candles w1,
        Fixed.get_candles env pair 4 self (world st) = (Ok candles, self, w1)
        /\ match candles with
           | None | Some [] =>
               journal steps = [LogAnalyzing pair; LogNoData pair]
               /\ pauses steps = []
               /\ printed steps = [] /\ stored steps = [] /\ texted steps = []
           | Some candles =>
               exists signal,
                 Fixed.analyze_reversal candles = Ok signal
                 /\ match signal with
                    | None =>
                        journal steps
                        = [LogAnalyzing pair; LogNoPattern pair]
                        /\ pauses steps = [1%Z]
                        /\ printed steps = [] /\ stored steps = []
                        /\ texted steps = []
                    | Some (direction, price) =>
                        exists result w2,
                          Fixed.evaluate_result env pair direction self w1
                          = (Ok result, self, w2)
                          /\ printed steps
                             = [FixedSignalText (FixedRun.pair_name pair)
                                                direction
                                                (clock (world st) + 60) price;
                                FixedResultText (FixedRun.pair_name pair)
                                                result]
                          /\ (pauses steps = [60%Z; 1%Z]
                              \/ pauses steps = [60%Z; 60%Z; 1%Z])
                          /\ exists lines,
                              journal steps
                              = LogAnalyzing pair :: lines
                                ++ [LogResult pair direction result]
                    end
           end.
Proof.
  destruct self as [hb hc cl].
  destruct st as [[t n tn tr] k ck xk sto].
  unfold FixedRun.run_pair. rstep.
  destruct (get_candles_run env pair 4 (Fixed.mkSelf hb hc cl)
                            (mkWorld t n tn tr))
    as (evs1 & Hrun1 & Hw1 & Hph1 & Hf1).
  lift_call Hrun1 evs1. rstep.
  cbn [Fixed.has_client clock api_calls telegram_calls trace] in Hrun1.
  destruct (if cl then fetched 4 _ else None) as [[|c cs]|].
  - rstep. eexists. new_steps.
    split; [reflexivity|].
    split; [observe_story; reflexivity|].
    split; [observe_story; reflexivity|].
    split; [observe_story; reflexivity|].
    split; [observe_texts; cbn; lia|].
    split; [observe_story; cbn; lia|].
    do 2 eexists. split; [exact Hrun1|].
    split; [observe_story; reflexivity|].
    split; [observe_story; reflexivity|].
    repeat split; observe_texts; reflexivity.
  - destruct (analyze_reversal_total (c :: cs)) as (signal & Hsig).
    rewrite Hsig, call_lift_exn. rstep.
    destruct signal as [[direction price]|].
    + unfold FixedRun.format_signal. rstep. rewrite call_now. rstep.
      step_message.
      match goal with
      | |- context [call (Fixed.evaluate_result ?e ?p ?d) ?s ?st] =>
          destruct (evaluate_result_cases e p d s (world st))
            as (result & w3 & evs3 & Hrun3 & Htr3 & _ & Hcases3);
          rewrite (call_run _ s _ st _ _ evs3 Hrun3 Htr3)
      end.
      rstep. step_message. rewrite call_sleep. rstep.
      assert (Hw3 : waits evs3 = [60%Z] \/ waits evs3 = [60%Z; 60%Z]).
      { destruct Hcases3 as [(_ & _ & _ & Hw)|[(? & ? & _ & _ & _ & _ & Hw)
                            |(? & ? & _ & _ & _ & Hw & _)]]; tauto. }
      eexists. new_steps.
      split; [reflexivity|].
      split; [observe_story; reflexivity|].
      split; [observe_story; observe_lines; reflexivity|].
      split; [observe_story; observe_lines; reflexivity|].
      split; [observe_texts; rewrite !length_app; cbn [length]; lia|].
      split; [observe_story;
              destruct Hw3 as [Hw3|Hw3]; unfold waits in Hw3; rewrite Hw3;
              cbn; lia|].
      do 2 eexists. split; [exact Hrun1|].
      exists (Some (direction, price)). split; [exact Hsig|].
      exists result. eexists. split; [exact Hrun3|].
      split; [observe_texts; reflexivity|].
      split.
      * observe_story.
        destruct Hw3 as [Hw3|Hw3]; unfold waits in Hw3; rewrite Hw3;
          [left|right]; reflexivity.
      * exists (journal steps ++ LogFixedSignalSent pair direction
                        :: journal steps0).
        repeat first [ rewrite journal_app | rewrite journal_cons
                     | rewrite journal_events | rewrite journal_nil ].
        rewrite ?app_nil_r.
        repeat (rewrite <- app_assoc; cbn [app]). reflexivity.
    + rewrite call_sleep. rstep. eexists. new_steps.
      split; [reflexivity|].
      split; [observe_story; reflexivity|].
      split; [observe_story; reflexivity|].
      split; [observe_story; reflexivity|].
      split; [observe_texts; cbn; lia|].
      split; [observe_story; cbn; lia|].
      do 2 eexists. split; [exact Hrun1|].
      exists None. split; [exact Hsig|].
      split; [observe_story; reflexivity|].
      split; [observe_story; reflexivity|].
      repeat split; observe_texts; reflexivity.
  - rstep. eexists. new_steps.
    split; [reflexivity|].
    split; [observe_story; reflexivity|].
    split; [observe_story; reflexivity|].
    split; [observe_story; reflexivity|].
    split; [observe_texts; cbn; lia|].
    split; [observe_story; cbn; lia|].
    do 2 eexists. split; [exact Hrun1|].
    split; [observe_story; reflexivity|].
    split; [observe_story; reflexivity|].
    repeat split; observe_texts; reflexivity.
Qed.

(** What one round of the pair loop adds up to. *)
Lemma fixed_scan_summary (env : Env) (broker : Broker) (pairs : list string)
  (self : Fixed.Self) :
  forall st : Stage,
  exists st' steps,
    for_each pairs (FixedRun.run_pair env broker) self st = (Ok tt, self, st')
    /\ story st' = steps ++ story st
    /\ connect_calls st' = connect_calls st
    /\ attempts steps = []
    /\ analyzed (journal steps) = pairs
    /\ caught (journal steps) = []
    /\ (length (printed steps) + length (stored steps)
        <= 4 * length pairs)%nat
    /\ (0 <= total (pauses steps) <= 121 * Z.of_nat (length pairs))%Z.
Proof.
  induction pairs as [|pair pairs IH]; intros st.
  - exists st, []. cbn [for_each r_ret length app].
    repeat split; try reflexivity; cbn; lia.
  - cbn [for_each]. unfold r_bind.
    destruct (fixed_run_pair_cases env broker pair self st)
      as (st1 & steps1 & Hrun1 & Hst1 & Hk1 & Hatt1 & Han1 & Hca1 & Hlen1
          & Hp1 & _).
    rewrite Hrun1.
    destruct (IH st1)
      as (st2 & steps2 & Hrun2 & Hst2 & Hk2 & Hatt2 & Han2 & Hca2 & Hlen2
          & Hp2).
    rewrite Hrun2.
    exists st2, (steps2 ++ steps1).
    split; [reflexivity|].
    split; [rewrite Hst2, Hst1, app_assoc; reflexivity|].
    split; [congruence|].
    rewrite pauses_app, total_app, attempts_app, journal_app, analyzed_app,
      caught_app, printed_app, stored_app, !length_app.
    rewrite Hatt1, Hatt2, Han1, Han2, Hca1, Hca2.
    cbn [length app].
    repeat split; try reflexivity; lia.
Qed.

(** What a fetch through [get_candles] asks from the client. *)
Lemma get_candles_frame
  (env : Env) (pair : string) (count : nat) (self : Fixed.Self) (w : World) :
  exists evs,
    Fixed.get_candles env pair count self w
    = (Ok (if Fixed.has_client self
           then fetched count
                  (get_candles_api env (api_calls w) pair (clock w)
                                   (Z.of_nat count * 60))
           else None),
       self,
       mkWorld (clock w)
               (if Fixed.has_client self then S (api_calls w) else api_calls w)
               (telegram_calls w) (evs ++ trace w))
    /\ waits evs = []
    /\ fetches evs = (if Fixed.has_client self then [pair] else []).
Proof.
  destruct self as [hb hc [|]], w as [t n tn tr];
    unfold Fixed.get_candles; step.
  - destruct (get_candles_api env n pair t (Z.of_nat count * 60))
      as [| |[|r raw]]; step; cbn [fetched].
    + exists [EvLog ERROR (LogFetchError pair);
              EvGetCandles pair t (Z.of_nat count * 60)%Z 60].
      repeat split; reflexivity.
    + exists [EvGetCandles pair t (Z.of_nat count * 60)%Z 60].
      repeat split; reflexivity.
    + exists [EvGetCandles pair t (Z.of_nat count * 60)%Z 60].
      repeat split; reflexivity.
    + exists [EvGetCandles pair t (Z.of_nat count * 60)%Z 60].
      repeat split; reflexivity.
  - exists []. repeat split; reflexivity.
Qed.

(** A pair loop during which the client has no data for any pair. *)
Lemma fixed_scan_no_data (env : Env) (broker : Broker) (pairs : list string)
  (self : Fixed.Self) :
  (Fixed.has_client self = false
   \/ forall n asset end_time offset,
       fetched 4 (get_candles_api env n asset end_time offset) = None) ->
  forall st : Stage,
  exists st' steps,
    for_each pairs (FixedRun.run_pair env broker) self st = (Ok tt, self, st')
    /\ story st' = steps ++ story st
    /\ clock (world st') = clock (world st)
    /\ text_calls st' = text_calls st
    /\ pauses steps = []
    /\ printed steps = [] /\ stored steps = [] /\ texted steps = []
    /\ journal steps
       = flat_map (fun p => [LogAnalyzing p; LogNoData p]) pairs
    /\ fetches (events_of steps)
       = (if Fixed.has_client self then pairs else []).
Proof.
  intros Hnone.
  induction pairs as [|pair pairs IH]; intros st.
  - exists st, []. cbn [for_each r_ret length app flat_map].
    repeat split; try reflexivity. destruct (Fixed.has_client self); reflexivity.
  - cbn [for_each]. unfold r_bind.
    assert (Hrun1 : exists st1 steps1,
               FixedRun.run_pair env broker pair self st = (Ok tt, self, st1)
               /\ story st1 = steps1 ++ story st
               /\ clock (world st1) = clock (world st)
               /\ text_calls st1 = text_calls st
               /\ pauses steps1 = []
               /\ printed steps1 = [] /\ stored steps1 = []
               /\ texted steps1 = []
               /\ journal steps1 = [LogAnalyzing pair; LogNoData pair]
               /\ fetches (events_of steps1)
                  = (if Fixed.has_client self then [pair] else [])).
    { destruct self as [hb hc cl].
      destruct st as [[t n tn tr] k ck xk sto].
      unfold FixedRun.run_pair. rstep.
      destruct (get_candles_frame env pair 4 (Fixed.mkSelf hb hc cl)
                                  (mkWorld t n tn tr))
        as (evs1 & Hrun1 & Hw1 & Hf1).
      lift_call Hrun1 evs1. rstep.
      cbn [Fixed.has_client clock api_calls telegram_calls trace] in *.
      assert (Hfetch : (if cl
                        then fetched 4 (get_candles_api env n pair t
                                                        (Z.of_nat 4 * 60))
                        else None) = None)
        by (destruct Hnone as [->|H]; [reflexivity|rewrite H; destruct cl;
                                                   reflexivity]).
      rewrite Hfetch. rstep. eexists. new_steps.
      split; [reflexivity|]. split; [reflexivity|].
      split; [observe_story; reflexivity|].
      split; [observe_texts; reflexivity|].
      split; [observe_texts; reflexivity|].
      split; [observe_texts; reflexivity|].
      split; [observe_story; reflexivity|].
      observe_story. reflexivity. }
    destruct Hrun1 as (st1 & steps1 & Hrun1 & Hst1 & Hclock1 & Hxk1 & Hp1
                       & Hpr1 & Hsto1 & Htx1 & Hj1 & Hf1).
    rewrite Hrun1.
    destruct (IH st1)
      as (st2 & steps2 & Hrun2 & Hst2 & Hclock2 & Hxk2 & Hp2 & Hpr2 & Hsto2
          & Htx2 & Hj2 & Hf2).
    rewrite Hrun2.
    exists st2, (steps2 ++ steps1).
    split; [reflexivity|].
    split; [rewrite Hst2, Hst1, app_assoc; reflexivity|].
    split; [congruence|]. split; [congruence|].
    rewrite pauses_app, printed_app, stored_app, texted_app, journal_app,
      events_of_app.
    unfold fetches in *. rewrite chronicle_app.
    rewrite Hp1, Hp2, Hpr1, Hpr2, Hsto1, Hsto2, Htx1, Htx2, Hj1, Hj2, Hf1, Hf2.
    cbn [flat_map app].
    repeat split; try reflexivity.
    destruct (Fixed.has_client self); reflexivity.
Qed.

(** ** Further properties: statements *)

(** X10 (reconnection only when needed).  [reconnect_if_needed] never
    raises and waits 15 seconds at most.  It asks [check_connect] exactly
    when the object holds a client, and attempts a connection exactly
    when there is no client or the check reports a lost connection.
    When the check itself raises, nothing but the error line is
    written: no connection is attempted.  After a reconnection the
    verdict logged agrees with the attempts. *)
Theorem reconnect_only_when_lost
  (broker : Broker) (self : Bot.Self) (st : Stage) :
  exists self' st' steps,
    BotRun.reconnect_if_needed broker self st = (Ok tt, self', st')
    /\ story st' = steps ++ story st
    /\ (0 <= total (pauses steps) <= 15)%Z
    /\ checks steps
       = (if Bot.has_client self
          then [check_connect_api broker (check_calls st)] else [])
    /\ (attempts steps <> []
        <-> (Bot.has_client self = false
             \/ check_connect_api broker (check_calls st) = Checked false))
    /\ (attempts steps = [] -> self' = self /\ pauses steps = [])
    /\ (Bot.has_client self = true ->
        check_connect_api broker (check_calls st) = CheckRaises ->
        journal steps = [LogReconnectError])
    /\ (attempts steps <> [] ->
        exists lines,
          journal steps
          = LogConnectionLost :: lines
            ++ [if existsb is_connected (attempts steps)
                then LogReconnected else LogReconnectFailed]).
Proof.
  destruct (reconnect_if_needed_cases broker self st)
    as (self' & st' & steps & Hrun & Hst & _ & _ & _ & _ & _ & _ & Htot & _ & _
        & _ & Hcases).
  exists self', st', steps.
  split; [exact Hrun|]. split; [exact Hst|]. split; [exact Htot|].
  destruct Hcases as [(Hcl & Hc & -> & ->)|[(Hcl & Hc & -> & ->)
                     |(Hlost & Hchk & Hatt & lines & Hj)]].
  - rewrite Hcl, Hc. cbn [attempts checks journal pauses events_of waits
                          chronicle rev flat_map app].
    split; [reflexivity|].
    split; [split; [congruence|intros [H|H]; congruence]|].
    split; [tauto|]. split; [congruence|]. congruence.
  - rewrite Hcl, Hc. cbn [attempts checks journal pauses events_of waits
                          chronicle rev flat_map app].
    split; [reflexivity|].
    split; [split; [congruence|intros [H|H]; congruence]|].
    split; [tauto|]. split; [reflexivity|]. congruence.
  - assert (Hne : attempts steps <> [])
      by (intros H; rewrite H in Hatt; cbn in Hatt; lia).
    split.
    { rewrite Hchk. destruct (Bot.has_client self) eqn:Hcl; [|reflexivity].
      destruct Hlost as [H|H]; [discriminate|]. rewrite H. reflexivity. }
    split; [tauto|]. split; [tauto|].
    split.
    { intros Hcl Hc. destruct Hlost as [H|H]; congruence. }
    intros _. exists lines. exact Hj.
Qed.

(** X11 (the result message).  [evaluate_signal_result] never raises.
    It adds one to the tally, leaves the settings alone and the stake
    state at rest, and takes 65 or 130 seconds.  The last thing that
    reaches the user is the result message, and it carries the win and
    loss counts as already updated; its banner is the loss banner
    exactly when the loss count went up, and the "sureshot" banner
    exactly when no martingale message came before it. *)
Theorem result_message_carries_new_tally
  (env : Env) (pair direction : string) (self : Bot.Self) (w : World) :
  exists self' w' evs banner,
    Bot.evaluate_signal_result env pair direction self w = (Ok tt, self', w')
    /\ trace w' = evs ++ trace w
    /\ clock w' = (clock w + total (waits evs))%Z
    /\ same_settings self self'
    /\ rested self'
    /\ tally self' = (tally self + 1)%Z
    /\ (banner = LossBanner
        <-> Bot.loss_count self' = (Bot.loss_count self + 1)%Z)
    /\ (banner <> LossBanner
        <-> Bot.win_count self' = (Bot.win_count self + 1)%Z)
    /\ let result :=
         ResultMessage banner (Bot.win_count self') (Bot.loss_count self') in
       (banner = Sureshot /\ waits evs = [65%Z] /\ notices evs = [result])
       \/ (banner <> Sureshot /\ waits evs = [65%Z; 65%Z]
           /\ notices evs
              = [MtgMessage pair direction (next_minute (clock w + 65))
                            (fmul (Bot.base_stake self)
                                  (Bot.martingale_factor self));
                 result]).
Proof.
  destruct (evaluate_signal_result_frame env pair direction self w)
    as (self' & w' & evs & Hrun & Htr & Hclock & Hsame & Hrest & _ & _
        & Htally & _ & _ & _ & banner & Hcounts & Hb).
  exists self', w', evs, banner.
  do 6 (split; [assumption|]).
  split; [|split].
  - destruct Hcounts as [(-> & Hw & Hl)|(Hne & Hw & Hl)].
    + tauto.
    + split; [tauto|]. intros H. rewrite H in Hl. lia.
  - destruct Hcounts as [(-> & Hw & Hl)|(Hne & Hw & Hl)].
    + split; [tauto|]. intros H. rewrite H in Hw. lia.
    + tauto.
  - cbv zeta. destruct Hb as [(Hw & Hb & Hn)|(Hw & Hb & Hn)]; [left|right];
      repeat split; assumption.
Qed.

(** X12 (no signal).  When the analysis of a pair yields no signal, the
    body of the pair loop sends nothing, files nothing, leaves the
    object as it is, logs the two lines of the case and pauses 2
    seconds. *)
Theorem no_signal_nothing_sent
  (env : Env) (pair : string) (self : Bot.Self) (st : Stage) (w1 : World) :
  Bot.analyze_single_pair env pair self (world st) = (Ok None, self, w1) ->
  exists st' steps,
    BotRun.run_pair env pair self st = (Ok tt, self, st')
    /\ story st' = steps ++ story st
    /\ journal steps = [LogAnalyzing pair; LogNoSignal pair]
    /\ pauses steps = [2%Z]
    /\ clock (world st') = (clock (world st) + 2)%Z
    /\ telegram_calls (world st') = telegram_calls (world st)
    /\ notices (events_of steps) = []
    /\ filed (events_of steps) = []
    /\ outcomes (events_of steps) = [].
Proof.
  intros Hnone.
  destruct (run_pair_cases env pair self st)
    as (self' & st' & steps & Hrun & Hst & _ & _ & _ & Hclock & _ & _ & _ & _
        & _ & _ & r & w1' & Hr & Hcase).
  rewrite Hnone in Hr. injection Hr as <- _.
  destruct Hcase as (-> & Hj & Hp & Hn & Hf & Ho & Htg).
  exists st', steps. rewrite Hp in Hclock. cbn in Hclock.
  repeat split; first [assumption|lia].
Qed.

Lemma no_signal_nothing_sent_witness :
  exists st' steps,
    BotRun.run_pair no_data_env "EURNZD_otc" sample_bot quiet_stage
    = (Ok tt, sample_bot, st')
    /\ story st' = steps ++ story quiet_stage
    /\ journal steps = [LogAnalyzing "EURNZD_otc"; LogNoSignal "EURNZD_otc"]
    /\ pauses steps = [2%Z]
    /\ clock (world st') = (clock (world quiet_stage) + 2)%Z
    /\ telegram_calls (world st') = telegram_calls (world quiet_stage)
    /\ notices (events_of steps) = []
    /\ filed (events_of steps) = []
    /\ outcomes (events_of steps) = [].
Proof.
  apply (no_signal_nothing_sent
           no_data_env "EURNZD_otc" sample_bot quiet_stage
           (mkWorld 1000 1 0 [EvGetCandles "EURNZD_otc" 1000 240 60])).
  reflexivity.
Defined.

(** X13 (a signal that could not be delivered).  When [send_telegram]
    returns [False] for the signal, the body of the pair loop does not
    evaluate it: the tally and the stakes stay as they are and the only
    pause is the one of 2 seconds.  The signal itself is not lost: it
    was printed and appended to [signals.log]. *)
Theorem undelivered_signal_not_evaluated
  (env : Env) (pair : string) (self : Bot.Self) (st : Stage)
  (name direction : string) (score price : Q) (w1 w2 : World) :
  Bot.analyze_single_pair env pair self (world st)
  = (Ok (Some (name, direction, score, price)), self, w1) ->
  Bot.send_telegram env
    (SignalMessage name direction (next_minute (clock (world st))) price)
    self w1
  = (Ok false, self, w2) ->
  exists st' steps,
    BotRun.run_pair env pair self st = (Ok tt, self, st')
    /\ story st' = steps ++ story st
    /\ journal steps = [LogAnalyzing pair; LogSendFailed pair]
    /\ pauses steps = [2%Z]
    /\ outcomes (events_of steps) = []
    /\ notices (events_of steps)
       = [SignalMessage name direction (next_minute (clock (world st))) price]
    /\ filed (events_of steps)
       = [SignalMessage name direction (next_minute (clock (world st))) price].
Proof.
  intros Hsignal Hsend.
  destruct (run_pair_cases env pair self st)
    as (self' & st' & steps & Hrun & Hst & _ & _ & _ & _ & _ & _ & _ & _
        & _ & _ & r & w1' & Hr & Hcase).
  rewrite Hsignal in Hr. injection Hr as <- <-.
  cbv zeta in Hcase. destruct Hcase as (sent & w2' & Hs & Hcase).
  rewrite Hsend in Hs. injection Hs as <- _.
  destruct Hcase as (-> & Hj & Hp & Hn & Hf & Ho).
  exists st', steps. repeat split; assumption.
Qed.

Lemma undelivered_signal_not_evaluated_witness :
  exists st' steps,
    BotRun.run_pair (mute_env 1.40 1.45 1000) "EURNZD_otc" sample_bot
                    quiet_stage
    = (Ok tt, sample_bot, st')
    /\ story st' = steps ++ story quiet_stage
    /\ journal steps = [LogAnalyzing "EURNZD_otc"; LogSendFailed "EURNZD_otc"]
    /\ pauses steps = [2%Z]
    /\ outcomes (events_of steps) = []
    /\ notices (events_of steps)
       = [SignalMessage "EURNZD_otc" "NONE"
                        (next_minute (clock (world quiet_stage))) 0]
    /\ filed (events_of steps)
       = [SignalMessage "EURNZD_otc" "NONE"
                        (next_minute (clock (world quiet_stage))) 0].
Proof.
  apply (undelivered_signal_not_evaluated
           (mute_env 1.40 1.45 1000) "EURNZD_otc" sample_bot quiet_stage
           "EURNZD_otc" "NONE" 0%Q 0%Q
           (mkWorld 1000 1 0 [EvGetCandles "EURNZD_otc" 1000 240 60])
           (mkWorld 1000 1 1
              [EvFile (SignalMessage "EURNZD_otc" "NONE" 1020 0);
               EvPrint (SignalMessage "EURNZD_otc" "NONE" 1020 0);
               EvLog ERROR LogTelegramFailed;
               EvTelegram (SignalMessage "EURNZD_otc" "NONE" 1020 0) false;
               EvGetCandles "EURNZD_otc" 1000 240 60])).
  - reflexivity.
  - reflexivity.
Defined.



(** X15 (one round of the main loop).  Started with the stake state at
    rest, a round of the main loop never raises and never reaches one
    of its two exception handlers.  It analyses every pair of the list
    once, in the order of the list, whatever happened to the pairs
    before; it ends with the stake state at rest and the same settings;
    the tally grows by the number of outcomes recorded, at most one per
    pair; and the round takes at least 2 seconds per pair plus 5, and at
    most 132 seconds per pair plus 20. *)
Theorem cycle_analyses_every_pair
  (env : Env) (broker : Broker) (pairs : list string) (self : Bot.Self)
  (st : Stage) :
  rested self ->
  exists self' st' steps,
    BotRun.run_cycle env broker pairs self st = (Ok tt, self', st')
    /\ story st' = steps ++ story st
    /\ analyzed (journal steps) = pairs
    /\ caught (journal steps) = []
    /\ (exists lines, journal steps = lines ++ [LogCycleComplete])
    /\ rested self'
    /\ same_settings (BotRun.set_has_client (Bot.has_client self') self) self'
    /\ tally self'
       = (tally self + Z.of_nat (length (outcomes (events_of steps))))%Z
    /\ (length (outcomes (events_of steps)) <= length pairs)%nat
    /\ clock (world st') = (clock (world st) + total (pauses steps))%Z
    /\ (2 * Z.of_nat (length pairs) + 5 <= total (pauses steps)
        <= 132 * Z.of_nat (length pairs) + 20)%Z.
Proof.
  intros Hrested.
  destruct (run_cycle_summary env broker pairs self st)
    as (self' & st' & steps & Hrun & Hst & _ & Hclock & Hsame & _ & Hrest & _
        & _ & _ & _ & Han & Hca & Hlast & Hp & Htally & Hlen).
  exists self', st', steps.
  split; [exact Hrun|]. split; [exact Hst|]. split; [exact Han|].
  split; [exact Hca|]. split; [exact Hlast|]. split; [exact (Hrest Hrested)|].
  split; [exact Hsame|]. split; [exact Htally|]. split; [exact Hlen|].
  split; [exact Hclock|]. exact Hp.
Qed.

Lemma cycle_analyses_every_pair_witness :
  exists self' st' steps,
    BotRun.run_cycle no_data_env dead_broker ["EURNZD_otc"; "USDJPY_otc"]
                     sample_bot quiet_stage
    = (Ok tt, self', st')
    /\ story st' = steps ++ story quiet_stage
    /\ analyzed (journal steps) = ["EURNZD_otc"; "USDJPY_otc"]
    /\ caught (journal steps) = []
    /\ (exists lines, journal steps = lines ++ [LogCycleComplete])
    /\ rested self'
    /\ same_settings
         (BotRun.set_has_client (Bot.has_client self') sample_bot) self'
    /\ tally self'
       = (tally sample_bot
          + Z.of_nat (length (outcomes (events_of steps))))%Z
    /\ (length (outcomes (events_of steps))
        <= length ["EURNZD_otc"; "USDJPY_otc"])%nat
    /\ clock (world st')
       = (clock (world quiet_stage) + total (pauses steps))%Z
    /\ (2 * Z.of_nat (length ["EURNZD_otc"; "USDJPY_otc"]) + 5
        <= total (pauses steps)
        <= 132 * Z.of_nat (length ["EURNZD_otc"; "USDJPY_otc"]) + 20)%Z.
Proof.
  apply (cycle_analyses_every_pair
           no_data_env dead_broker ["EURNZD_otc"; "USDJPY_otc"] sample_bot
           quiet_stage).
  split; reflexivity.
Defined.

(** What [run] hands to the chat channel, prints and files when no
    attempt connects: the test text of the start-up, when the channel is
    configured, and nothing else. *)
Lemma start_up_texts_without_connection
  (env : Env) (broker : Broker) (cycles : nat) (self : Bot.Self) (st : Stage) :
  existsb is_connected (map (connect_api broker) (seq (connect_calls st) 3))
  = false ->
  exists self' st' steps,
    BotRun.run env broker cycles self st = (Ok tt, self', st')
    /\ story st' = steps ++ story st
    /\ texted steps
       = (if (Bot.has_bot self && Bot.has_chat_id self)%bool
          then [(TestText, send_text_api broker (text_calls st) TestText)]
          else [])
    /\ printed steps = []
    /\ stored steps = []
    /\ filed (events_of steps) = [].
Proof.
  intros Hfail.
  destruct self as [hb hc cl thr wc lc bs cs mf ims].
  destruct st as [[t n tn tr] k ck xk sto].
  cbn [connect_calls seq map existsb] in Hfail.
  rewrite orb_false_r in Hfail.
  apply orb_false_elim in Hfail as [H0 Hfail].
  apply orb_false_elim in Hfail as [H1 H2].
  unfold BotRun.run. rstep.
  destruct hb; rstep.
  1: unfold BotRun.test_telegram; rstep; destruct hc; rstep.
  1: destruct (send_text_api broker xk TestText) eqn:Es; rstep.
  all: unfold BotRun.init_quotex; cbn [seq BotRun.init_quotex_loop]; rstep.
  all: destruct (connect_api broker k) eqn:E0;
    cbn [is_connected] in H0; try discriminate H0; rstep;
    cbn [Nat.ltb Nat.leb Nat.sub]; rstep; rewrite ?call_sleep; rstep.
  all: destruct (connect_api broker (S k)) eqn:E1;
    cbn [is_connected] in H1; try discriminate H1; rstep;
    cbn [Nat.ltb Nat.leb Nat.sub]; rstep; rewrite ?call_sleep; rstep.
  all: destruct (connect_api broker (S (S k))) eqn:E2;
    cbn [is_connected] in H2; try discriminate H2; rstep;
    cbn [Nat.ltb Nat.leb Nat.sub]; rstep; rewrite ?call_sleep; rstep.
  all: eexists; eexists; new_steps.
  all: rewrite ?Es; repeat split; reflexivity.
Qed.

(** X16 (no connection, no scan).  When none of the three connection
    attempts of the start-up connects, [run] returns without scanning:
    after the two backoff waits of 5 and 10 seconds it logs the failure
    and ends; no pair is analysed, no candle is asked for, no signal or
    result message is sent and the tally is unchanged, whatever the
    number of rounds the loop would have run.  One text can reach the
    user: the test text [run] hands to the chat channel before it
    connects, when the channel is configured; nothing else is handed to
    the channel, printed or appended to [signals.log]. *)
Theorem run_without_connection
  (env : Env) (broker : Broker) (cycles : nat) (self : Bot.Self) (st : Stage) :
  existsb is_connected (map (connect_api broker) (seq (connect_calls st) 3))
  = false ->
  exists self' st' steps,
    BotRun.run env broker cycles self st = (Ok tt, self', st')
    /\ story st' = steps ++ story st
    /\ length (attempts steps) = 3%nat
    /\ checks steps = []
    /\ pauses steps = [5%Z; 10%Z]
    /\ clock (world st') = (clock (world st) + 15)%Z
    /\ analyzed (journal steps) = []
    /\ fetches (events_of steps) = []
    /\ notices (events_of steps) = []
    /\ filed (events_of steps) = []
    /\ texted steps
       = (if (Bot.has_bot self && Bot.has_chat_id self)%bool
          then [(TestText, send_text_api broker (text_calls st) TestText)]
          else [])
    /\ printed steps = []
    /\ stored steps = []
    /\ tally self' = tally self
    /\ exists lines, journal steps = LogStarting :: lines ++ [LogInitFailed].
Proof.
  intros Hfail.
  pose proof (run_summary env broker cycles self st) as H. cbv zeta in H.
  rewrite Hfail in H.
  destruct H as (self' & st' & steps & Hrun & Hst & _ & _ & _ & _ & Hclock
                 & Han & Htally & Hf & Hn & Hp & Hatt & Hchk & Hj).
  destruct (start_up_texts_without_connection env broker cycles self st Hfail)
    as (self2 & st2 & steps2 & Hrun2 & Hst2 & Htx & Hpr & Hsto & Hfi).
  rewrite Hrun in Hrun2. injection Hrun2 as <- <-.
  rewrite Hst in Hst2. apply app_inv_tail in Hst2. subst steps2.
  exists self', st', steps.
  rewrite Hp in Hclock. cbn [total fold_right] in Hclock.
  repeat split; first [assumption|lia].
Qed.

Lemma run_without_connection_witness :
  exists self' st' steps,
    BotRun.run rising_env dead_broker 3 sample_bot quiet_stage
    = (Ok tt, self', st')
    /\ story st' = steps ++ story quiet_stage
    /\ length (attempts steps) = 3%nat
    /\ checks steps = []
    /\ pauses steps = [5%Z; 10%Z]
    /\ clock (world st') = (clock (world quiet_stage) + 15)%Z
    /\ analyzed (journal steps) = []
    /\ fetches (events_of steps) = []
    /\ notices (events_of steps) = []
    /\ filed (events_of steps) = []
    /\ texted steps = [(TestText, true)]
    /\ printed steps = []
    /\ stored steps = []
    /\ tally self' = tally sample_bot
    /\ exists lines, journal steps = LogStarting :: lines ++ [LogInitFailed].
Proof.
  apply (run_without_connection rising_env dead_broker 3 sample_bot
                                quiet_stage).
  reflexivity.
Defined.

(** X17 (the scan).  When one of the three connection attempts of the
    start-up connects, the first [cycles] rounds of [run] never raise
    and never reach an exception handler; every round analyses the 30
    pairs of [OTC_PAIRS] in their order; the tally grows by the number
    of outcomes recorded, at most 30 per round; and the rounds take
    between 65 and 3980 seconds each, after at most 15 seconds of
    backoff. *)
Theorem run_scans_in_catalog_order
  (env : Env) (broker : Broker) (cycles : nat) (self : Bot.Self) (st : Stage) :
  existsb is_connected (map (connect_api broker) (seq (connect_calls st) 3))
  = true ->
  exists self' st' steps,
    BotRun.run env broker cycles self st = (Ok tt, self', st')
    /\ story st' = steps ++ story st
    /\ analyzed (journal steps) = concat (repeat BotRun.OTC_PAIRS cycles)
    /\ caught (journal steps) = []
    /\ same_settings (BotRun.set_has_client (Bot.has_client self') self) self'
    /\ tally self'
       = (tally self + Z.of_nat (length (outcomes (events_of steps))))%Z
    /\ (length (outcomes (events_of steps)) <= cycles * 30)%nat
    /\ clock (world st') = (clock (world st) + total (pauses steps))%Z
    /\ (65 * Z.of_nat cycles <= total (pauses steps)
        <= 15 + 3980 * Z.of_nat cycles)%Z.
Proof.
  intros Hconn.
  pose proof (run_summary env broker cycles self st) as H. cbv zeta in H.
  rewrite Hconn in H.
  destruct H as (self' & st' & steps & Hrun & Hst & Hsame & _ & Hca & Htally
                 & Hclock & Han & Hlen & Hp).
  exists self', st', steps.
  do 8 (split; [assumption|]). exact Hp.
Qed.

Lemma run_scans_in_catalog_order_witness :
  exists self' st' steps,
    BotRun.run no_data_env third_time_broker 2 sample_bot quiet_stage
    = (Ok tt, self', st')
    /\ story st' = steps ++ story quiet_stage
    /\ analyzed (journal steps) = concat (repeat BotRun.OTC_PAIRS 2)
    /\ caught (journal steps) = []
    /\ same_settings
         (BotRun.set_has_client (Bot.has_client self') sample_bot) self'
    /\ tally self'
       = (tally sample_bot
          + Z.of_nat (length (outcomes (events_of steps))))%Z
    /\ (length (outcomes (events_of steps)) <= 2 * 30)%nat
    /\ clock (world st')
       = (clock (world quiet_stage) + total (pauses steps))%Z
    /\ (65 * Z.of_nat 2 <= total (pauses steps) <= 15 + 3980 * Z.of_nat 2)%Z.
Proof.
  apply (run_scans_in_catalog_order no_data_env third_time_broker 2
                                    sample_bot quiet_stage).
  reflexivity.
Defined.

(** X18 (reporting in the reversal-only variant).  [send_message] never
    raises and always returns [True], delivered or not.  The text is
    always printed; it is handed to the chat channel exactly when the
    channel is configured, and it is appended to [signals.log] exactly
    when it was not delivered. *)
Theorem send_message_always_true
  (broker : Broker) (message : RunText) (self : Fixed.Self) (st : Stage) :
  exists st' steps,
    FixedRun.send_message broker message self st = (Ok true, self, st')
    /\ story st' = steps ++ story st
    /\ world st' = world st
    /\ printed steps = [message]
    /\ ((texted steps = [(message, true)] /\ stored steps = [])
        \/ (texted steps = [(message, false)] /\ stored steps = [message])
        \/ (texted steps = [] /\ stored steps = [message]))
    /\ (texted steps = []
        <-> (Fixed.has_bot self && Fixed.has_chat_id self)%bool = false).
Proof.
  pose proof (send_message_run broker message self st) as H. cbv zeta in H.
  destruct H as (steps & Hrun & Hpr & Hsto & Htx & _).
  eexists. exists steps.
  split; [exact Hrun|]. split; [reflexivity|]. split; [reflexivity|].
  split; [exact Hpr|].
  rewrite Htx, Hsto.
  destruct (Fixed.has_bot self && Fixed.has_chat_id self)%bool;
    cbn [andb].
  - destruct (send_text_api broker (text_calls st) message).
    + split; [left; tauto|]. split; discriminate.
    + split; [right; left; tauto|]. split; discriminate.
  - split; [right; right; tauto|]. tauto.
Qed.

(** X19 (a round without data).  When the object holds no client, or
    the client has no data for any pair, a round of the main loop of the
    reversal-only variant asks for every pair in turn without a pause
    between the pairs: the only wait of the round is the one of 5
    seconds that ends it, and nothing is printed, filed or sent. *)
Theorem fixed_cycle_without_data
  (env : Env) (broker : Broker) (pairs : list string) (self : Fixed.Self)
  (st : Stage) :
  (Fixed.has_client self = false
   \/ forall n asset end_time offset,
       fetched 4 (get_candles_api env n asset end_time offset) = None) ->
  exists st' steps,
    FixedRun.run_cycle env broker pairs self st = (Ok tt, self, st')
    /\ story st' = steps ++ story st
    /\ pauses steps = [5%Z]
    /\ clock (world st') = (clock (world st) + 5)%Z
    /\ fetches (events_of steps)
       = (if Fixed.has_client self then pairs else [])
    /\ printed steps = [] /\ stored steps = [] /\ texted steps = []
    /\ journal steps
       = flat_map (fun p => [LogAnalyzing p; LogNoData p]) pairs
         ++ [LogCycleComplete].
Proof.
  intros Hnone.
  destruct (fixed_scan_no_data env broker pairs self Hnone st)
    as (st1 & steps1 & Hrun1 & Hst1 & Hclock1 & _ & Hp1 & Hpr1 & Hsto1
        & Htx1 & Hj1 & Hf1).
  unfold FixedRun.run_cycle, try_except, r_bind. rewrite Hrun1.
  unfold run_log, tell. rewrite call_sleep.
  destruct st1 as [[t1 n1 tn1 tr1] k1 ck1 xk1 sto1].
  cbn [world story connect_calls check_calls text_calls clock api_calls
       telegram_calls trace] in *.
  subst sto1 t1.
  eexists.
  exists (StepEvent (EvSleep 5) :: StepLog RInfo LogCycleComplete :: steps1).
  split; [reflexivity|]. split; [reflexivity|].
  unfold pauses, waits, fetches in *.
  rewrite !events_of_cons, !printed_cons, !stored_cons, !texted_cons,
    !journal_cons.
  cbn [app]. rewrite !chronicle_cons, Hp1, Hpr1, Hsto1, Htx1, Hj1, Hf1.
  cbn [app]. rewrite !app_nil_r.
  repeat split; reflexivity.
Qed.

Lemma fixed_cycle_without_data_witness :
  exists st' steps,
    FixedRun.run_cycle no_data_env dead_broker ["EURNZD_otc"; "USDJPY_otc"]
                       sample_fixed_bot quiet_stage
    = (Ok tt, sample_fixed_bot, st')
    /\ story st' = steps ++ story quiet_stage
    /\ pauses steps = [5%Z]
    /\ clock (world st') = (clock (world quiet_stage) + 5)%Z
    /\ fetches (events_of steps)
       = (if Fixed.has_client sample_fixed_bot
          then ["EURNZD_otc"; "USDJPY_otc"] else [])
    /\ printed steps = [] /\ stored steps = [] /\ texted steps = []
    /\ journal steps
       = flat_map (fun p => [LogAnalyzing p; LogNoData p])
                  ["EURNZD_otc"; "USDJPY_otc"]
         ++ [LogCycleComplete].
Proof.
  apply (fixed_cycle_without_data
           no_data_env dead_broker ["EURNZD_otc"; "USDJPY_otc"]
           sample_fixed_bot quiet_stage).
  right. intros n asset end_time offset. reflexivity.
Defined.

(** X20 (a reversal is always evaluated).  When the four candles of a
    pair show a reversal, the body of the pair loop of the reversal-only
    variant prints the signal, evaluates it and prints the result,
    whether or not the signal could be delivered; it waits 60 or 120
    seconds for the evaluation and 1 second more.  The signal carries
    the time one minute after the analysis and the display name of the
    pair. *)
Theorem fixed_reversal_always_evaluated
  (env : Env) (broker : Broker) (pair : string) (self : Fixed.Self)
  (st : Stage) (candles : list CandleData) (w1 : World)
  (direction : string) (price : Q) :
  Fixed.get_candles env pair 4 self (world st) = (Ok (Some candles), self, w1) ->
  Fixed.analyze_reversal candles = Ok (Some (direction, price)) ->
  exists st' steps result w2,
    FixedRun.run_pair env broker pair self st = (Ok tt, self, st')
    /\ story st' = steps ++ story st
    /\ Fixed.evaluate_result env pair direction self w1 = (Ok result, self, w2)
    /\ printed steps
       = [FixedSignalText (FixedRun.pair_name pair) direction
                          (clock (world st) + 60) price;
          FixedResultText (FixedRun.pair_name pair) result]
    /\ (pauses steps = [60%Z; 1%Z] \/ pauses steps = [60%Z; 60%Z; 1%Z])
    /\ exists lines,
        journal steps
        = LogAnalyzing pair :: lines ++ [LogResult pair direction result].
Proof.
  intros Hget Hrev.
  destruct (fixed_run_pair_cases env broker pair self st)
    as (st' & steps & Hrun & Hst & _ & _ & _ & _ & _ & _ & cs & w1' & Hget'
        & Hcase).
  rewrite Hget in Hget'. injection Hget' as <- <-.
  destruct candles as [|c candles].
  - rewrite analyze_reversal_short in Hrev by (cbn; lia). discriminate.
  - destruct Hcase as (signal & Hsig & Hcase).
    rewrite Hrev in Hsig. injection Hsig as <-.
    destruct Hcase as (result & w2 & Heval & Hpr & Hp & Hj).
    exists st', steps, result, w2.
    repeat split; assumption.
Qed.

Lemma fixed_reversal_always_evaluated_witness :
  exists st' steps result w2,
    FixedRun.run_pair rising_env dead_broker "EURNZD_otc" sample_fixed_bot
                      quiet_stage
    = (Ok tt, sample_fixed_bot, st')
    /\ story st' = steps ++ story quiet_stage
    /\ Fixed.evaluate_result
         rising_env "EURNZD_otc" "PUT" sample_fixed_bot
         (mkWorld 1000 1 0 [EvGetCandles "EURNZD_otc" 1000 240 60])
       = (Ok result, sample_fixed_bot, w2)
    /\ printed steps
       = [FixedSignalText (FixedRun.pair_name "EURNZD_otc") "PUT"
                          (clock (world quiet_stage) + 60) 1.4;
          FixedResultText (FixedRun.pair_name "EURNZD_otc") result]
    /\ (pauses steps = [60%Z; 1%Z] \/ pauses steps = [60%Z; 60%Z; 1%Z])
    /\ exists lines,
        journal steps
        = LogAnalyzing "EURNZD_otc" :: lines
          ++ [LogResult "EURNZD_otc" "PUT" result].
Proof.
  apply (fixed_reversal_always_evaluated
           rising_env dead_broker "EURNZD_otc" sample_fixed_bot quiet_stage
           rising_window
           (mkWorld 1000 1 0 [EvGetCandles "EURNZD_otc" 1000 240 60])
           "PUT" 1.4%Q).
  - reflexivity.
  - reflexivity.
Defined.

(** X21 (a single connection attempt).  The reversal-only variant makes
    one connection attempt and does not retry: when the attempt does not
    connect, [run] ends at once, without a wait, without a scan and
    with the failure logged, whatever the number of rounds the loop
    would have run. *)
Theorem fixed_run_single_attempt
  (env : Env) (broker : Broker) (cycles : nat) (self : Fixed.Self)
  (st : Stage) :
  is_connected (connect_api broker (connect_calls st)) = false ->
  exists self' st' steps,
    FixedRun.run env broker cycles self st = (Ok tt, self', st')
    /\ story st' = steps ++ story st
    /\ attempts steps = [connect_api broker (connect_calls st)]
    /\ pauses steps = []
    /\ world st' = world st
    /\ analyzed (journal steps) = []
    /\ Fixed.has_client self'
       = (Fixed.has_client self
          || has_client_object (connect_api broker (connect_calls st)))%bool
    /\ exists line, journal steps = [LogStarting; line; LogInitFailed].
Proof.
  intros Hfail.
  destruct self as [hb hc cl]. destruct st as [w k ck xk sto].
  cbn [connect_calls] in *.
  unfold FixedRun.run, FixedRun.init_quotex. rstep.
  destruct (connect_api broker k) eqn:E; try discriminate; rstep.
  all: do 2 eexists; new_steps.
  all: repeat split; try reflexivity.
  all: try (destruct cl; reflexivity).
  all: eexists; reflexivity.
Qed.

Lemma fixed_run_single_attempt_witness :
  exists self' st' steps,
    FixedRun.run rising_env dead_broker 5 sample_fixed_bot quiet_stage
    = (Ok tt, self', st')
    /\ story st' = steps ++ story quiet_stage
    /\ attempts steps = [connect_api dead_broker (connect_calls quiet_stage)]
    /\ pauses steps = []
    /\ world st' = world quiet_stage
    /\ analyzed (journal steps) = []
    /\ Fixed.has_client self'
       = (Fixed.has_client sample_fixed_bot
          || has_client_object
               (connect_api dead_broker (connect_calls quiet_stage)))%bool
    /\ exists line, journal steps = [LogStarting; line; LogInitFailed].
Proof.
  apply (fixed_run_single_attempt rising_env dead_broker 5 sample_fixed_bot
                                  quiet_stage).
  reflexivity.
Defined.

(** X22 (one round of the reversal-only loop).  A round of the main
    loop of the reversal-only variant never raises and never reaches
    its exception handler.  It analyses every pair of the list once, in
    the order of the list, makes no connection attempt, prints and
    files at most four texts per pair, and takes between 5 seconds and
    121 seconds per pair plus 5. *)
Theorem fixed_cycle_analyses_every_pair
  (env : Env) (broker : Broker) (pairs : list string) (self : Fixed.Self)
  (st : Stage) :
  exists st' steps,
    FixedRun.run_cycle env broker pairs self st = (Ok tt, self, st')
    /\ story st' = steps ++ story st
    /\ analyzed (journal steps) = pairs
    /\ caught (journal steps) = []
    /\ (exists lines, journal steps = lines ++ [LogCycleComplete])
    /\ attempts steps = []
    /\ (length (printed steps) + length (stored steps)
        <= 4 * length pairs)%nat
    /\ (5 <= total (pauses steps) <= 121 * Z.of_nat (length pairs) + 5)%Z.
Proof.
  destruct (fixed_scan_summary env broker pairs self st)
    as (st1 & steps1 & Hrun1 & Hst1 & _ & Hatt1 & Han1 & Hca1 & Hlen1 & Hp1).
  unfold FixedRun.run_cycle, try_except, r_bind. rewrite Hrun1.
  unfold run_log, tell. rewrite call_sleep.
  destruct st1 as [[t1 n1 tn1 tr1] k1 ck1 xk1 sto1].
  cbn [world story connect_calls check_calls text_calls clock api_calls
       telegram_calls trace] in *.
  subst sto1.
  eexists.
  exists (StepEvent (EvSleep 5) :: StepLog RInfo LogCycleComplete :: steps1).
  split; [reflexivity|]. split; [reflexivity|].
  unfold pauses, waits in *.
  rewrite !events_of_cons, !printed_cons, !stored_cons, !journal_cons,
    !attempts_cons.
  cbn [app]. rewrite !chronicle_cons, !app_nil_r, analyzed_app, caught_app,
    total_app, Han1, Hca1, Hatt1.
  cbn [analyzed caught flat_map List.filter app total fold_right].
  rewrite !app_nil_r.
  split; [reflexivity|]. split; [reflexivity|].
  split; [eexists; reflexivity|]. split; [reflexivity|].
  split; lia.
Qed.

(** X23 (the test message).  [test_telegram] never raises and leaves the
    object and the world of the methods as they are.  Without a bot or a
    chat id it sends nothing and returns [False]; otherwise it hands
    exactly one text to the chat channel and returns whether it was
    delivered.  Unlike a signal, a test text that fails is neither
    printed nor filed. *)
Theorem test_telegram_one_text
  (broker : Broker) (self : Bot.Self) (st : Stage) :
  let configured := (Bot.has_bot self && Bot.has_chat_id self)%bool in
  exists (b : bool) st' steps,
    BotRun.test_telegram broker self st = (Ok b, self, st')
    /\ story st' = steps ++ story st
    /\ world st' = world st
    /\ b = (configured && send_text_api broker (text_calls st) TestText)%bool
    /\ texted steps = (if configured then [(TestText, b)] else [])
    /\ text_calls st'
       = (if configured then S (text_calls st) else text_calls st)
    /\ printed steps = [] /\ stored steps = [].
Proof.
  destruct self as [[|] [|] cl thr wc lc bs cs mf ims].
  all: destruct st as [w k ck xk sto].
  all: unfold BotRun.test_telegram; rstep; cbv zeta;
    cbn [Bot.has_bot Bot.has_chat_id andb text_calls].
  1: destruct (send_text_api broker xk TestText); rstep.
  all: do 2 eexists; new_steps; repeat split; reflexivity.
Qed.

(** X24 (candle times).  [get_next_candle_time] returns the first whole
    minute strictly after now, so at most 60 seconds ahead, and
    [get_signal_send_time] the time 30 seconds before it; neither waits
    nor changes anything.  In the second half of a minute the send time
    is already past. *)
Theorem candle_times (self : Bot.Self) (st : Stage) :
  exists next st',
    BotRun.get_next_candle_time self st = (Ok next, self, st')
    /\ BotRun.get_signal_send_time self st = (Ok (next - 30)%Z, self, st')
    /\ world st' = world st /\ story st' = story st
    /\ (clock (world st) < next <= clock (world st) + 60)%Z
    /\ (next mod 60 = 0)%Z
    /\ ((next - 30 <= clock (world st))%Z
        <-> (30 <= clock (world st) mod 60)%Z).
Proof.
  destruct st as [[t n tn tr] k ck xk sto].
  unfold BotRun.get_signal_send_time, BotRun.get_next_candle_time.
  rstep. rewrite call_now. rstep.
  do 2 eexists.
  split; [reflexivity|]. split; [reflexivity|].
  split; [reflexivity|]. split; [reflexivity|].
  unfold next_minute.
  pose proof (Z.div_mod t 60 ltac:(lia)) as Hdiv.
  pose proof (Z.mod_pos_bound t 60 ltac:(lia)) as Hmod.
  split; [lia|]. split.
  - replace (t / 60 * 60 + 60)%Z with ((t / 60 + 1) * 60)%Z by lia.
    apply Z.mod_mul. lia.
  - lia.
Qed.

(** X25 (the catalogs).  Both variants monitor the same 30 distinct
    pairs, and the keys of [PAIR_NAMES] are exactly the monitored pairs
    in both: every monitored pair has a display name, so the fallback of
    [PAIR_NAMES.get(pair, pair)] to the pair code is never taken for a
    monitored pair, and no name is listed for a pair that is not
    monitored. *)
Theorem catalog_consistent :
  BotRun.OTC_PAIRS = FixedRun.OTC_PAIRS
  /\ NoDup BotRun.OTC_PAIRS
  /\ length BotRun.OTC_PAIRS = 30%nat
  /\ dom BotRun.PAIR_NAMES = list_to_set BotRun.OTC_PAIRS
  /\ dom FixedRun.PAIR_NAMES = list_to_set FixedRun.OTC_PAIRS
  /\ Forall (fun pair => FixedRun.pair_name pair <> pair) FixedRun.OTC_PAIRS
  /\ (forall pair,
         In pair BotRun.OTC_PAIRS ->
         is_Some (BotRun.PAIR_NAMES !! pair)
         /\ is_Some (FixedRun.PAIR_NAMES !! pair)).
Proof.
  assert (Hbot : dom BotRun.PAIR_NAMES = list_to_set BotRun.OTC_PAIRS)
    by (apply (bool_decide_unpack _); vm_compute; exact I).
  assert (Hfixed : dom FixedRun.PAIR_NAMES = list_to_set FixedRun.OTC_PAIRS)
    by (apply (bool_decide_unpack _); vm_compute; exact I).
  split; [reflexivity|].
  split; [apply (bool_decide_unpack _); vm_compute; exact I|].
  split; [reflexivity|].
  split; [exact Hbot|]. split; [exact Hfixed|].
  split; [apply (bool_decide_unpack _); vm_compute; exact I|].
  intros pair Hin. apply list_elem_of_In in Hin.
  split; apply elem_of_dom.
  - rewrite Hbot. apply elem_of_list_to_set. exact Hin.
  - rewrite Hfixed. apply elem_of_list_to_set. exact Hin.
Qed.
